(** * invoice-gen: a shallow embedding of [app.py]

    The development follows the layout of the source file: the Python
    run-time operations the program relies on (exceptions, [str]
    methods, integer formatting, binary64 floats), then the helpers
    [fmt_idr], [to_terbilang] and [safe], the template filler
    ([_replace_in_paragraph], [generate_pdf]) and the batch loop behind
    the "Generate & Send Emails" button.

    Conventions.
    - A Python [str] is a [string]; each character stands for one code
      point below 256.
    - A Python [float] is a [spec_float] at precision 53 and maximal
      exponent 1024 (IEEE binary64), with the operations of [SpecFloat].
    - A Python [int] is a [Z].
    - An expression that may raise evaluates to a [result].
    - A paragraph of the template is the sequence of its runs and
      hyperlinks, each given by its text; a document is a store of
      paragraphs and the sequences in which the filler visits them. *)

From Stdlib Require Import ZArith Ascii String List Lia SpecFloat.
From stdpp Require Import base option list gmap strings.

Local Open Scope Z_scope.

(** ** Exceptions *)

(** The exception classes the program can meet.  [OtherException] stands
    for any further subclass of [Exception]. *)
Inductive exn : Type :=
  | ValueError
  | TypeError
  | OverflowError
  | KeyError
  | IndexError
  | OtherException.

Inductive result (A : Type) : Type :=
  | Ok (a : A)
  | Raise (e : exn).

Arguments Ok {A} a.
Arguments Raise {A} e.

(** Sequencing: the first exception raised ends the computation.  The
    notation [x ← c; k] of stdpp stands for [c ≫= (λ x, k)]. *)
Global Instance result_bind : MBind result := fun A B k c =>
  match c with
  | Ok a => k a
  | Raise e => Raise e
  end.

(** [try: c  except <classes>: h] *)
Definition try_except {A : Type} (c : result A) (catches : exn -> bool)
    (h : result A) : result A :=
  match c with
  | Ok a => Ok a
  | Raise e => if catches e then h else Raise e
  end.

(** [except (ValueError, TypeError)] *)
Definition ValueError_or_TypeError (e : exn) : bool :=
  match e with
  | ValueError | TypeError => true
  | _ => false
  end.

(** [except ValueError] *)
Definition only_ValueError (e : exn) : bool :=
  match e with
  | ValueError => true
  | _ => false
  end.

(** [except Exception] *)
Definition any_Exception (e : exn) : bool := true.

Definition is_Ok {A : Type} (c : result A) : bool :=
  match c with
  | Ok _ => true
  | Raise _ => false
  end.

(** ** Strings *)

Definition code (c : ascii) : N := N_of_ascii c.

(** [str.isspace] on one character (code points below 256). *)
Definition is_space (c : ascii) : bool :=
  let n := code c in
  ((9 <=? n) && (n <=? 13) || (28 <=? n) && (n <=? 32)
   || (n =? 133) || (n =? 160))%N.

Definition is_digit (c : ascii) : bool :=
  let n := code c in ((48 <=? n) && (n <=? 57))%N.

(** ASCII lower-casing, as used by the case-insensitive match of
    [float] on "inf", "infinity" and "nan". *)
Definition ascii_lower (c : ascii) : ascii :=
  let n := code c in
  if ((65 <=? n) && (n <=? 90))%N then ascii_of_N (n + 32) else c.

Fixpoint str_lower (s : string) : string :=
  match s with
  | EmptyString => EmptyString
  | String c s' => String (ascii_lower c) (str_lower s')
  end.

Definition nonempty (s : string) : bool :=
  match s with
  | EmptyString => false
  | String _ _ => true
  end.

Fixpoint lstrip_with (sp : ascii -> bool) (s : string) : string :=
  match s with
  | EmptyString => EmptyString
  | String c s' => if sp c then lstrip_with sp s' else s
  end.

Fixpoint rstrip_with (sp : ascii -> bool) (s : string) : string :=
  match s with
  | EmptyString => EmptyString
  | String c s' =>
      match rstrip_with sp s' with
      | EmptyString => if sp c then EmptyString else String c EmptyString
      | r => String c r
      end
  end.

(** [s.strip()] *)
Definition str_strip (s : string) : string :=
  rstrip_with is_space (lstrip_with is_space s).

(** [s.replace(old, new)] for a non-empty [old]: the occurrences are
    found from the left and do not overlap.  [skip] counts the
    characters of the current occurrence that are still to be passed. *)
Fixpoint replace_from (old new : string) (skip : nat) (s : string) : string :=
  match s with
  | EmptyString => EmptyString
  | String c s' =>
      match skip with
      | S k => replace_from old new k s'
      | O =>
          if String.prefix old s
          then new +:+ replace_from old new (String.length old - 1) s'
          else String c (replace_from old new 0 s')
      end
  end.

(** [s.replace("", new)]: [new] goes before every character and at the
    end. *)
Fixpoint interleave (new : string) (s : string) : string :=
  match s with
  | EmptyString => new
  | String c s' => new +:+ String c (interleave new s')
  end.

(** [s.replace(old, new)] *)
Definition str_replace (old new s : string) : string :=
  match old with
  | EmptyString => interleave new s
  | String _ _ => replace_from old new 0 s
  end.

(** [haystack.find(needle) >= 0], used to state what remains in a text. *)
Fixpoint occurs (needle s : string) : bool :=
  String.prefix needle s ||
  match s with
  | EmptyString => false
  | String _ s' => occurs needle s'
  end.

Fixpoint str_concat (l : list string) : string :=
  match l with
  | [] => EmptyString
  | s :: l' => s +:+ str_concat l'
  end.

(** ** Integers as text *)

Definition digit_char (d : Z) : ascii := ascii_of_N (48 + Z.to_N d).

Definition digit_val (c : ascii) : Z := Z.of_N (code c) - 48.

Fixpoint digits_of (fuel : nat) (n : Z) (acc : list ascii) : list ascii :=
  match fuel with
  | O => acc
  | S fuel' =>
      let acc' := digit_char (n mod 10) :: acc in
      if n <? 10 then acc' else digits_of fuel' (n / 10) acc'
  end.

(** The decimal digits of [n >= 0], most significant first. *)
Definition decimal_digits (n : Z) : list ascii :=
  digits_of (S (Z.to_nat (Z.log2 n))) n [].

(** [str(n)] for an [int]. *)
Definition str_of_Z (n : Z) : string :=
  if n <? 0
  then String "-" (string_of_list_ascii (decimal_digits (- n)))
  else string_of_list_ascii (decimal_digits n).

(** Grouping by three of a digit list given least significant digit
    first. *)
Fixpoint group3 (sep : ascii) (ds : list ascii) : list ascii :=
  match ds with
  | a :: b :: c :: ((_ :: _) as rest) => a :: b :: c :: sep :: group3 sep rest
  | _ => ds
  end.

(** The decimal form of [n] with [sep] between groups of three digits. *)
Definition format_grouped (sep : ascii) (n : Z) : string :=
  let body :=
    string_of_list_ascii (rev (group3 sep (rev (decimal_digits (Z.abs n))))) in
  if n <? 0 then String "-" body else body.

(** [f"{n:,}"] *)
Definition format_comma (n : Z) : string := format_grouped "," n.

(** The value of a run of digit characters, read from the left. *)
Definition digits_value (s : string) : Z :=
  fold_left (fun a c => 10 * a + digit_val c) (list_ascii_of_string s) 0.

(** ** Floats (IEEE binary64) *)

Definition prec : Z := 53.
Definition emax : Z := 1024.

Definition float : Type := spec_float.

Definition float_zero : float := S754_zero false.

Definition float_mul : float -> float -> float := SFmul prec emax.
Definition float_add : float -> float -> float := SFadd prec emax.

(** [x < 0.0] and [x == 0.0] *)
Definition float_is_negative (x : float) : bool := SFltb x float_zero.

Definition float_is_nan (x : float) : bool :=
  match x with
  | S754_nan => true
  | _ => false
  end.

Definition float_is_finite (x : float) : bool :=
  match x with
  | S754_zero _ | S754_finite _ _ _ => true
  | _ => false
  end.

(** The binary64 nearest to an integer (ties to even). *)
Definition float_of_Z (z : Z) : float := binary_normalize prec emax z 0 false.

(** The binary64 nearest to [(-1)^sign * m * 10^e10] (ties to even), the
    value [float] gives to a decimal literal. *)
Definition float_of_decimal (sign : bool) (m : Z) (e10 : Z) : float :=
  match m with
  | Zpos p =>
      if 0 <=? e10
      then binary_round prec emax sign (p * Z.to_pos (10 ^ e10)) 0
      else SFdiv prec emax (S754_finite sign p 0)
                           (S754_finite false (Z.to_pos (10 ^ (- e10))) 0)
  | _ => S754_zero sign
  end.

(** A float as Python holds it: a mantissa of at most 53 bits in
    canonical position and an exponent within range. *)
Definition is_binary64 (x : float) : bool := valid_binary prec emax x.

(** The part of [is_binary64] the proofs below use. *)
Definition fits53 (x : float) : Prop :=
  match x with
  | S754_finite _ m e => Zdigits2 (Zpos m) <= 53 /\ e <= 971
  | _ => True
  end.

(** The binary64 that holds the integer [n] exactly, for [0 < n < 2^53]:
    the mantissa moved up to 53 bits. *)
Definition exact_float (sx : bool) (n : Z) : float :=
  match n with
  | Zpos _ => S754_finite sx (Z.to_pos (n * 2 ^ (53 - Zdigits2 n))) (Zdigits2 n - 53)
  | _ => S754_zero sx
  end.

(** [m * 2^e] rounded to the nearest integer, ties to even ([m >= 0]). *)
Definition round_half_even (m e : Z) : Z :=
  if 0 <=? e then m * 2 ^ e
  else
    let d := 2 ^ (- e) in
    let q := m / d in
    match (2 * (m mod d)) ?= d with
    | Lt => q
    | Gt => q + 1
    | Eq => if Z.even q then q else q + 1
    end.

(** [m * 2^e] cut to its integer part ([m >= 0]). *)
Definition truncate (m e : Z) : Z :=
  if 0 <=? e then m * 2 ^ e else m / 2 ^ (- e).

(** [round(x)] for a [float]: the nearest [int], ties to even. *)
Definition py_round (x : float) : result Z :=
  match x with
  | S754_nan => Raise ValueError
  | S754_infinity _ => Raise OverflowError
  | S754_zero _ => Ok 0
  | S754_finite s m e => Ok (cond_Zopp s (round_half_even (Zpos m) e))
  end.

(** [int(x)] for a [float]: cut towards zero. *)
Definition int_of_float (x : float) : result Z :=
  match x with
  | S754_nan => Raise ValueError
  | S754_infinity _ => Raise OverflowError
  | S754_zero _ => Ok 0
  | S754_finite s m e => Ok (cond_Zopp s (truncate (Zpos m) e))
  end.

(** *** Parsing a float literal

    The grammar accepted by [float(str)]:
<<
      floatvalue  ::= [sign] (floatnumber | "inf" | "infinity" | "nan")
      floatnumber ::= (digitpart ["."] | [digitpart] "." digitpart) [exponent]
      exponent    ::= ("e" | "E") [sign] digitpart
      digitpart   ::= digit (["_"] digit)*
>>
    between optional white space; "inf", "infinity" and "nan" in any
    case. *)

(** White space as [float] strips it. *)
Definition is_space_float (c : ascii) : bool :=
  let n := code c in
  ((9 <=? n) && (n <=? 13) || (n =? 32) || (n =? 133) || (n =? 160))%N.

(** A (possibly empty) digitpart at the head of [s]: its digits and what
    follows.  An underscore is passed only between two digits. *)
Fixpoint digit_run (after_digit : bool) (s : string) : string * string :=
  match s with
  | EmptyString => (EmptyString, EmptyString)
  | String c s' =>
      if is_digit c then
        let '(ds, r) := digit_run true s' in (String c ds, r)
      else if (after_digit && (code c =? 95)%N)%bool then
        match s' with
        | String d _ => if is_digit d then digit_run false s' else (EmptyString, s)
        | EmptyString => (EmptyString, s)
        end
      else (EmptyString, s)
  end.

Definition split_sign (s : string) : bool * string :=
  match s with
  | String c s' =>
      if (code c =? 45)%N then (true, s')
      else if (code c =? 43)%N then (false, s')
      else (false, s)
  | EmptyString => (false, s)
  end.

(** The exponent part: [None] when what follows the number is not
    acceptable, otherwise the decimal exponent. *)
Definition parse_exponent (s : string) : option Z :=
  match s with
  | EmptyString => Some 0
  | String c s' =>
      if ((code c =? 101) || (code c =? 69))%N then
        let '(neg, t) := split_sign s' in
        match digit_run false t with
        | (String d ds, EmptyString) =>
            Some (cond_Zopp neg (digits_value (String d ds)))
        | _ => None
        end
      else None
  end.

(** A floatnumber: its digits as an integer and its decimal exponent. *)
Definition parse_floatnumber (s : string) : option (Z * Z) :=
  let '(ip, r) := digit_run false s in
  let '(fp, r') :=
    match r with
    | String c t => if (code c =? 46)%N then digit_run false t else (EmptyString, r)
    | EmptyString => (EmptyString, r)
    end in
  if nonempty ip || nonempty fp then
    match parse_exponent r' with
    | Some e => Some (digits_value (ip +:+ fp), e - Z.of_nat (String.length fp))
    | None => None
    end
  else None.

(** [float(s)] for a [str]. *)
Definition float_of_str (s : string) : result float :=
  let t := rstrip_with is_space_float (lstrip_with is_space_float s) in
  let '(neg, body) := split_sign t in
  let low := str_lower body in
  if (String.eqb low "inf" || String.eqb low "infinity")%bool
  then Ok (S754_infinity neg)
  else if String.eqb low "nan" then Ok S754_nan
  else
    match parse_floatnumber body with
    | Some (m, e10) => Ok (float_of_decimal neg m e10)
    | None => Raise ValueError
    end.

(** [float(n)] for an [int]. *)
Definition float_of_int (n : Z) : result float :=
  match float_of_Z n with
  | S754_infinity _ => Raise OverflowError
  | f => Ok f
  end.

(** ** Values and library functions *)

(** What a cell of a row can hold: nothing, text, an [int] or a
    [float]. *)
Inductive value : Type :=
  | VNone
  | VStr (s : string)
  | VInt (n : Z)
  | VFloat (x : float).

(** A row of the table: [df.iloc[idx].to_dict()], or the [_test] dict. *)
Definition row : Type := gmap string value.

(** Library functions the program calls and that are not part of it.
    - [float_repr]: the text [str] gives a finite float;
    - [num2words_id]: [num2words(n, lang="id")], which may raise;
    - [str_capitalize]: [str.capitalize];
    - [exn_str]: the text [str] gives an exception. *)
Class PyLib : Type := {
  float_repr : float -> string;
  num2words_id : Z -> result string;
  str_capitalize : string -> string;
  exn_str : exn -> string;
}.

Section Program.

Context `{PyLib}.

(** [str(v)] *)
Definition py_str (v : value) : string :=
  match v with
  | VNone => "None"
  | VStr s => s
  | VInt n => str_of_Z n
  | VFloat S754_nan => "nan"
  | VFloat (S754_infinity false) => "inf"
  | VFloat (S754_infinity true) => "-inf"
  | VFloat x => float_repr x
  end.

(** [float(v)] *)
Definition py_float (v : value) : result float :=
  match v with
  | VNone => Raise TypeError
  | VStr s => float_of_str s
  | VInt n => float_of_int n
  | VFloat x => Ok x
  end.

(** [pd.isna(v)] *)
Definition pd_isna (v : value) : bool :=
  match v with
  | VNone | VFloat S754_nan => true
  | _ => false
  end.

(** ** CONFIG *)

Definition DOCX_TEMPLATE : string := "template.docx".
Definition EMAIL_COLUMN : string := "E-mail".

(** [d.get(k, default)] *)
Definition dict_get_default (d : gmap string string) (k dflt : string) : string :=
  default dflt (d !! k).

Definition COLUMNS : gmap string string :=
  foldl
    (fun cols i =>
       <["Price " +:+ str_of_Z i := "Price " +:+ str_of_Z i]>
         (<["Qty " +:+ str_of_Z i := "Qty " +:+ str_of_Z i]>
            (<["Service " +:+ str_of_Z i := "Service " +:+ str_of_Z i]> cols)))
    (<["Due Date" := "Due Date"]>
       (<["Invoice Date" := "Invoice Date"]>
          (<["No. Quotation" := "No. Quotation"]>
             (<["No. Invoice" := "No. Invoice"]>
                (<["Address" := "Address"]>
                   (<["E-mail" := "E-mail"]>
                      (<["Contact" := "Contact"]>
                         (<["PIC" := "PIC"]>
                            (<["Client" := "Client"]> ∅)))))))))
    (seqZ 1 6).

(** ** helpers *)

(** [fmt_idr(value)]: 1500000 -> '1.500.000' *)
Definition fmt_idr (v : value) : result string :=
  try_except
    (x ← py_float v;
     n ← py_round x;
     Ok (str_replace "," "." (format_comma n)))
    ValueError_or_TypeError
    (Ok (py_str v)).

(** [to_terbilang(total)]: number -> Indonesian words + ' rupiah' *)
Definition to_terbilang (total : float) : result string :=
  try_except
    (n ← py_round total;
     words ← num2words_id n;
     Ok (str_capitalize words +:+ " rupiah"))
    any_Exception
    (fmt_idr (VFloat total)).

(** [safe(row, key)]: lookup that turns NaN into the empty string. *)
Definition safe (r : row) (key : string) : string :=
  let v := default (VStr "") (r !! key) in
  if pd_isna v then "" else str_strip (py_str v).

(** ** invoice generation *)

(** What a paragraph holds: runs, and hyperlinks, which have runs of
    their own.  Each is given by its text, as [run.text] and the text
    of the hyperlink read it. *)
Inductive inline : Type :=
  | Run (run_text : string)
  | Hyperlink (link_text : string).

Record paragraph : Type := Paragraph { content : list inline }.

Definition inline_text (x : inline) : string :=
  match x with
  | Run s => s
  | Hyperlink s => s
  end.

(** [paragraph.runs]: the runs that are children of the paragraph.  The
    runs inside a hyperlink are not among them. *)
Definition runs (p : paragraph) : list string :=
  flat_map (fun x => match x with Run s => [s] | Hyperlink _ => [] end) (content p).

(** [paragraph.text]: the text of the runs and of the hyperlinks, in
    the order of the paragraph (python-docx reads the hyperlinks too
    since its version 1.0). *)
Definition text (p : paragraph) : string := str_concat (map inline_text (content p)).

(** The characters a text node of the document can hold: writing any
    other makes the XML library raise [ValueError]. *)
Definition xml_char (c : ascii) : bool :=
  let n := code c in ((n =? 9) || (n =? 10) || (n =? 13) || (32 <=? n))%N.

Definition xml_compatible (s : string) : bool :=
  forallb xml_char (list_ascii_of_string s).

(** What [run.text] reads after [run.text = s]: a carriage return is
    stored as a line break, as a line feed is, and reads back as a line
    feed. *)
Definition stored_char (c : ascii) : ascii :=
  if (code c =? 13)%N then "010"%char else c.

Fixpoint stored (s : string) : string :=
  match s with
  | EmptyString => EmptyString
  | String c s' => String (stored_char c) (stored s')
  end.

(** [run.text = s]: the text the run holds afterwards. *)
Definition set_run_text (s : string) : result string :=
  if xml_compatible s then Ok (stored s) else Raise ValueError.

(** The placeholder map: a [dict] with its insertion order, which is the
    order [items()] goes through. *)
Definition dict : Type := list (string * string).

(** [d[k] = v] *)
Fixpoint dict_set (d : dict) (k v : string) : dict :=
  match d with
  | [] => [(k, v)]
  | (k', v') :: d' =>
      if String.eqb k' k then (k', v) :: d' else (k', v') :: dict_set d' k v
  end.

Fixpoint dict_get (d : dict) (k : string) : option string :=
  match d with
  | [] => None
  | (k', v') :: d' => if String.eqb k' k then Some v' else dict_get d' k
  end.

(** The loop [for old, val in replacements.items(): new = new.replace(old, val)] *)
Definition replace_all (replacements : dict) (full : string) : string :=
  fold_left (fun new '(old, val) => str_replace old val new) replacements full.

(** [for run in runs: run.text = ""]; the hyperlinks stay. *)
Definition blank_runs (l : list inline) : list inline :=
  map (fun x => match x with Run _ => Run EmptyString | Hyperlink s => Hyperlink s end) l.

(** The content once the first run holds [new] and every other run is
    blank. *)
Fixpoint write_runs (new : string) (l : list inline) : list inline :=
  match l with
  | [] => []
  | Run _ :: rest => Run new :: blank_runs rest
  | Hyperlink s :: rest => Hyperlink s :: write_runs new rest
  end.

(** [_replace_in_paragraph(paragraph, replacements)]: the paragraph after
    the call, or the exception of [paragraph.runs[0].text = new]. *)
Definition _replace_in_paragraph (p : paragraph) (replacements : dict)
    : result paragraph :=
  let full := text p in
  let new := replace_all replacements full in
  if negb (String.eqb new full) && negb (bool_decide (runs p = [])) then
    first ← set_run_text new;
    Ok (Paragraph (write_runs first (content p)))
  else Ok p.

(** A loop [for i in l: st = body(st, i)] whose body may raise. *)
Fixpoint for_each {S : Type} (l : list Z) (body : S -> Z -> result S) (st : S)
    : result S :=
  match l with
  | [] => Ok st
  | i :: l' => st' ← body st i; for_each l' body st'
  end.

(** The same loop over the items of any sequence. *)
Fixpoint for_in {A S : Type} (l : list A) (body : S -> A -> result S) (st : S)
    : result S :=
  match l with
  | [] => Ok st
  | a :: l' => st' ← body st a; for_in l' body st'
  end.

(** [range(1, 7)] *)
Definition line_indices : list Z := seqZ 1 6.

(** [COLUMNS.get(f"<name> {i}", "")] *)
Definition line_column (name : string) (i : Z) : string :=
  dict_get_default COLUMNS (name +:+ " " +:+ str_of_Z i) "".

(** [s or 0] *)
Definition or_zero (s : string) : value :=
  if nonempty s then VStr s else VInt 0.

(** The [try] block that computes [sub] for a line with a service. *)
Definition line_product (r : row) (i : Z) : result float :=
  try_except
    (q ← py_float (or_zero (safe r (line_column "Qty" i)));
     p ← py_float (or_zero (safe r (line_column "Price" i)));
     Ok (float_mul q p))
    only_ValueError
    (Ok float_zero).

(** One turn of the first loop of [generate_pdf], on the pair
    [(subtotals, total)]. *)
Definition subtotal_step (r : row) (st : gmap Z float * float) (i : Z)
    : result (gmap Z float * float) :=
  let '(subtotals, total) := st in
  if negb (nonempty (safe r (line_column "Service" i))) then
    Ok (<[i := float_zero]> subtotals, total)
  else
    sub ← line_product r i;
    Ok (<[i := sub]> subtotals, float_add total sub).

(** The "calculated columns" block. *)
Definition calculated_columns (r : row) : result (gmap Z float * float) :=
  for_each line_indices (subtotal_step r) (∅, float_zero).

(** [subtotals[i]] *)
Definition subtotal_item (subtotals : gmap Z float) (i : Z) : result float :=
  match subtotals !! i with
  | Some x => Ok x
  | None => Raise KeyError
  end.

Definition token (name : string) : string := "{{" +:+ name +:+ "}}".

(** [f"{{{{<name> {i}}}}}"] *)
Definition line_token (name : string) (i : Z) : string :=
  "{{" +:+ name +:+ " " +:+ str_of_Z i +:+ "}}".

Definition header_fields : list string :=
  ["Client"; "PIC"; "Contact"; "E-mail"; "Address";
   "No. Invoice"; "No. Quotation"; "Invoice Date"; "Due Date"].

(** The loop over the header fields. *)
Definition header_step (r : row) (replacements : dict) (field : string) : dict :=
  dict_set replacements (token field) (safe r (dict_get_default COLUMNS field field)).

(** The text put under [{{Qty i}}] for a line with a service. *)
Definition qty_text (raw_qty : string) : result string :=
  try_except
    (if nonempty raw_qty
     then x ← float_of_str raw_qty; n ← int_of_float x; Ok (str_of_Z n)
     else Ok "")
    ValueError_or_TypeError
    (Ok raw_qty).

(** One turn of the loop over the lines that fills the placeholder map. *)
Definition line_step (r : row) (subtotals : gmap Z float) (replacements : dict)
    (i : Z) : result dict :=
  let svc := safe r (line_column "Service" i) in
  let replacements := dict_set replacements (line_token "Service" i) svc in
  if nonempty svc then
    let raw_qty := safe r (line_column "Qty" i) in
    qty ← qty_text raw_qty;
    let replacements := dict_set replacements (line_token "Qty" i) qty in
    price ← fmt_idr (VStr (safe r (line_column "Price" i)));
    let replacements := dict_set replacements (line_token "Price" i) price in
    sub ← subtotal_item subtotals i;
    subtotal ← fmt_idr (VFloat sub);
    Ok (dict_set replacements (line_token "Subtotal" i) subtotal)
  else
    let replacements := dict_set replacements (line_token "Qty" i) "" in
    let replacements := dict_set replacements (line_token "Price" i) "" in
    Ok (dict_set replacements (line_token "Subtotal" i) "").

(** The placeholder map of a row: everything [generate_pdf] computes
    before it touches the document. *)
Definition build_replacements (r : row) : result dict :=
  '(subtotals, total) ← calculated_columns r;
  let replacements := fold_left (header_step r) header_fields [] in
  replacements ← for_each line_indices (line_step r subtotals) replacements;
  total_text ← fmt_idr (VFloat total);
  let replacements := dict_set replacements "{{Total}}" total_text in
  words ← to_terbilang total;
  Ok (dict_set replacements "{{Terbilang}}" words).

(** A document is a store of paragraphs, which the filler changes in
    place, and the sequences the filler goes through, each paragraph
    being named by its position in the store: [doc.paragraphs]; for
    each table of [doc.tables], each row and each cell of [row.cells],
    the paragraphs of the cell; and the paragraphs of each header or
    footer part.  A paragraph can come up more than once: [row.cells]
    lists a merged cell once for every column it spans.  And
    [row.cells] raises on a row that cannot be laid out, such as one
    with a cell merged with a cell above that is not there. *)
Definition cells : Type := result (list (list nat)).

Record document : Type := Document {
  store : list paragraph;
  paragraphs : list nat;
  tables : list (list cells);
  header_footer_parts : list (list nat);
}.

(** [_replace_in_paragraph(paragraph, replacements)] on the paragraph at
    position [i] of the store.  (The sequences of a document that was
    read from a file name paragraphs of its store only; a position that
    names none leaves the store as it is.) *)
Definition fill_paragraph (replacements : dict) (st : list paragraph) (i : nat)
    : result (list paragraph) :=
  match st !! i with
  | Some p => p' ← _replace_in_paragraph p replacements; Ok (<[i := p']> st)
  | None => Ok st
  end.

(** [for paragraph in paragraphs: _replace_in_paragraph(paragraph, replacements)] *)
Definition fill_paragraphs (replacements : dict) (ps : list nat)
    (st : list paragraph) : result (list paragraph) :=
  for_in ps (fill_paragraph replacements) st.

(** The loops over the tables, their rows and the cells of each row. *)
Definition fill_tables (replacements : dict) (ts : list (list cells))
    (st : list paragraph) : result (list paragraph) :=
  for_in ts
    (fun st table =>
       for_in table
         (fun st tbl_row =>
            row_cells ← tbl_row;
            for_in row_cells (fun st cell => fill_paragraphs replacements cell st) st)
         st)
    st.

(** The "apply replacements to body, tables, and footers" block. *)
Definition fill_document (doc : document) (replacements : dict) : result document :=
  st ← fill_paragraphs replacements (paragraphs doc) (store doc);
  st ← fill_tables replacements (tables doc) st;
  st ← for_in (header_footer_parts doc)
         (fun st part => fill_paragraphs replacements part st) st;
  Ok (Document st (paragraphs doc) (tables doc) (header_footer_parts doc)).

(** ** Notions used to state the properties *)

(** The names of the four placeholders of a line. *)
Definition line_names : list string := ["Service"; "Qty"; "Price"; "Subtotal"].

Definition line_keys (i : Z) : list string :=
  map (fun name => line_token name i) line_names.

(** A line item is present when its trimmed service name is not empty. *)
Definition present (r : row) (i : Z) : bool :=
  nonempty (safe r (line_column "Service" i)).

(** The number a quantity or price cell stands for: an empty cell counts
    as [0], text that [float] refuses has none. *)
Definition parsed (s : string) : option float :=
  match py_float (or_zero s) with
  | Ok x => Some x
  | Raise _ => None
  end.

(** The subtotal of a line as the data model defines it: quantity times
    price for a present line whose two numbers parse, zero otherwise. *)
Definition line_subtotal (r : row) (i : Z) : float :=
  if present r i then
    match parsed (safe r (line_column "Qty" i)),
          parsed (safe r (line_column "Price" i)) with
    | Some q, Some p => float_mul q p
    | _, _ => float_zero
    end
  else float_zero.

(** The sum, in line order and from [0.0], of the subtotals of the
    present lines. *)
Definition sum_of_present (r : row) : float :=
  fold_left float_add
    (map (line_subtotal r) (List.filter (present r) line_indices)) float_zero.

(** The tokens of the placeholder map, in the order [generate_pdf]
    writes them. *)
Definition dict_keys (d : dict) : list string := map fst d.

Definition placeholder_tokens : list string :=
  map token header_fields ++ flat_map line_keys line_indices
  ++ ["{{Total}}"; "{{Terbilang}}"].

(** [c in s] for a character. *)
Definition has_char (c : ascii) (s : string) : bool :=
  existsb (Ascii.eqb c) (list_ascii_of_string s).

(** What the filler must leave as it found it: in every paragraph the
    runs, as many as there were, and the hyperlinks with their text, in
    the same places; and the sequences of the document. *)
Definition paragraph_shape (p : paragraph) : list (option string) :=
  map (fun x => match x with Run _ => None | Hyperlink s => Some s end) (content p).

Definition document_shape (doc : document)
    : list (list (option string)) * list nat * list (list cells)
      * list (list nat) :=
  (map paragraph_shape (store doc), paragraphs doc, tables doc,
   header_footer_parts doc).

(** A document in which every row of every table can be laid out. *)
Definition laid_out (doc : document) : bool :=
  forallb (forallb is_Ok) (tables doc).

(** A paragraph without hyperlinks. *)
Definition hyperlink_free (p : paragraph) : bool :=
  forallb (fun x => match x with Run _ => true | Hyperlink _ => false end) (content p).

(** Text that [run.text = s] stores and reads back as it is. *)
Definition storable (s : string) : bool :=
  xml_compatible s && negb (has_char "013" s).

(** Text without braces. *)
Definition brace_free (s : string) : bool :=
  negb (has_char "{" s) && negb (has_char "}" s).

(** The text of a paragraph of a template, cut in pieces: literal text
    and placeholders, given by their names. *)
Inductive piece : Type :=
  | Lit (s : string)
  | Tok (name : string).

Definition piece_text (x : piece) : string :=
  match x with
  | Lit s => s
  | Tok name => token name
  end.

Definition render (pieces : list piece) : string :=
  str_concat (map piece_text pieces).

(** A piece is plain when its literal text holds no opening brace, or
    when the name of its placeholder holds no brace at all. *)
Definition plain (x : piece) : bool :=
  match x with
  | Lit s => negb (has_char "{" s)
  | Tok name => brace_free name
  end.

(** The piece once the map is applied: a placeholder of the map becomes
    its value, any other piece stays. *)
Definition fill_piece (d : dict) (x : piece) : piece :=
  match x with
  | Lit s => Lit s
  | Tok name =>
      match dict_get d (token name) with
      | Some v => Lit v
      | None => Tok name
      end
  end.

(** The names of the placeholders of the map. *)
Definition placeholder_names : list string :=
  header_fields
  ++ flat_map (fun i => map (fun name => name +:+ " " +:+ str_of_Z i) line_names)
       line_indices
  ++ ["Total"; "Terbilang"].

(** One placeholder filled in a piece: what a single
    [new.replace(old, val)] does to it. *)
Definition fill_one (g v : string) (x : piece) : piece :=
  match x with
  | Lit s => Lit s
  | Tok name => if String.eqb name g then Lit v else Tok name
  end.

(** The keys of a dict after [d[k] = v]: a new key goes to the end. *)
Definition add_key (ks : list string) (k : string) : list string :=
  if existsb (fun k' => String.eqb k' k) ks then ks else ks ++ [k].

(** A present line whose quantity and price cells read as the decimal
    text of two integers [q] and [p] that a binary64 holds exactly. *)
Definition integer_line (r : row) (i q p : Z) : Prop :=
  present r i = true
  /\ safe r (line_column "Qty" i) = str_of_Z q
  /\ safe r (line_column "Price" i) = str_of_Z p
  /\ 0 <= q < 2 ^ 53 /\ 0 <= p < 2 ^ 53.

(** What the turn of a line needs in order not to raise. *)
Definition line_renders (r : row) (i : Z) : bool :=
  negb (present r i)
  || (is_Ok (qty_text (safe r (line_column "Qty" i)))
      && is_Ok (fmt_idr (VStr (safe r (line_column "Price" i))))
      && is_Ok (fmt_idr (VFloat (line_subtotal r i)))).

(** ** Rendering and mail: the outside world *)

(** A computation that runs in a world of type [W] (the file system,
    the installed word processor, the mail server) and may raise. *)
Definition io (W A : Type) : Type := W -> W * result A.

Definition io_ret {W A : Type} (a : A) : io W A := fun w => (w, Ok a).

Definition io_lift {W A : Type} (c : result A) : io W A := fun w => (w, c).

Global Instance io_bind {W : Type} : MBind (io W) := fun A B k c w =>
  match c w with
  | (w', Ok a) => k a w'
  | (w', Raise e) => (w', Raise e)
  end.

(** [try: c  except Exception as exc: h(exc)] *)
Definition io_try {W A : Type} (c : io W A) (h : exn -> io W A) : io W A :=
  fun w =>
    match c w with
    | (w', Ok a) => (w', Ok a)
    | (w', Raise e) => h e w'
    end.

Definition bytes : Type := list Byte.byte.

(** What the program asks of the outside:
    - [open_template]: [Document(path)];
    - [convert_to_pdf]: saving the document in a temporary directory,
      converting it with [docx2pdf] and reading the result back;
    - [smtp_deliver]: the SMTP session of [send_email], given the
      recipient, the attachment and its file name. *)
Class Outside (W : Type) : Type := {
  open_template : string -> io W document;
  convert_to_pdf : document -> io W bytes;
  smtp_deliver : string -> bytes -> string -> io W unit;
}.

Section World.

Context {W : Type} `{Outside W}.

(** [generate_pdf(row)] *)
Definition generate_pdf (r : row) : io W bytes :=
  doc ← open_template DOCX_TEMPLATE;
  replacements ← io_lift (build_replacements r);
  doc ← io_lift (fill_document doc replacements);
  convert_to_pdf doc.

(** [send_email(recipient, pdf_bytes, filename)] *)
Definition send_email (recipient : string) (pdf_bytes : bytes)
    (filename : string) : io W unit :=
  smtp_deliver recipient pdf_bytes (filename +:+ ".pdf").

(** ** The "Generate & Send Emails" loop *)

(** [df.iloc[idx].to_dict()] on a table given as the list of its rows. *)
Definition df_iloc (df : list row) (idx : Z) : result row :=
  let pos := if idx <? 0 then Z.of_nat (length df) + idx else idx in
  if pos <? 0 then Raise IndexError
  else match df !! Z.to_nat pos with
       | Some r => Ok r
       | None => Raise IndexError
       end.

Definition _client_col : string := dict_get_default COLUMNS "Client" "Client".

(** [(safe(row, _client_col) or f"invoice_{idx}").replace(" ", "_")] *)
Definition invoice_name (r : row) (idx : Z) : string :=
  let client := safe r _client_col in
  str_replace " " "_"
    (if nonempty client then client else "invoice_" +:+ str_of_Z idx).

(** An entry of [results]: its kind and its message. *)
Definition outcome : Type := string * string.

Definition no_address (idx : Z) (name : string) : outcome :=
  ("error", "Row " +:+ str_of_Z idx +:+ " (" +:+ name +:+ "): no email address").

Definition failed (recipient : string) (exc : exn) : outcome :=
  ("error", recipient +:+ ": " +:+ exn_str exc).

Definition sent (recipient : string) : outcome := ("success", recipient).

(** One turn of the loop, on the list [results]. *)
Definition send_step (df : list row) (results : list outcome) (idx : Z)
    : io W (list outcome) :=
  r ← io_lift (df_iloc df idx);
  let recipient := safe r EMAIL_COLUMN in
  let name := invoice_name r idx in
  if negb (nonempty recipient) then
    io_ret (results ++ [no_address idx name])
  else
    io_try
      (pdf ← generate_pdf r;
       _ ← send_email recipient pdf name;
       io_ret (results ++ [sent recipient]))
      (fun exc => io_ret (results ++ [failed recipient exc])).

(** [for idx in selected: ...] *)
Fixpoint send_loop (df : list row) (selected : list Z) (results : list outcome)
    : io W (list outcome) :=
  match selected with
  | [] => io_ret results
  | idx :: rest => results' ← send_step df results idx; send_loop df rest results'
  end.

(** The body of the button: [results = []] and the loop. *)
Definition generate_and_send (df : list row) (selected : list Z)
    : io W (list outcome) :=
  send_loop df selected [].

(** ** The "Generate PDFs" loop *)

(** [for idx in selected: gen[idx] = (name, generate_pdf(row))], on the
    dict [gen]. *)
Fixpoint generate_loop (df : list row) (selected : list Z)
    (gen : gmap Z (string * bytes)) : io W (gmap Z (string * bytes)) :=
  match selected with
  | [] => io_ret gen
  | idx :: rest =>
      r ← io_lift (df_iloc df idx);
      let name := invoice_name r idx in
      pdf ← generate_pdf r;
      generate_loop df rest (<[idx := (name, pdf)]> gen)
  end.

(** The body of the button: [gen = {}] and the loop; its result is what
    is stored under [st.session_state["generated"]]. *)
Definition generate_all (df : list row) (selected : list Z)
    : io W (gmap Z (string * bytes)) :=
  generate_loop df selected ∅.

(** *** What a batch owes each row

    The outcome of one row in the world [w], case by case: no address,
    a failure while the PDF is made, a failure while it is sent, or a
    message sent.  [batch_outcomes] threads the world through the rows
    in order: every row gets its turn and exactly one outcome. *)
Inductive row_outcome (df : list row) (idx : Z) (w : W) : outcome -> W -> Prop :=
  | row_no_address r :
      df_iloc df idx = Ok r ->
      safe r EMAIL_COLUMN = "" ->
      row_outcome df idx w (no_address idx (invoice_name r idx)) w
  | row_not_generated r w1 exc :
      df_iloc df idx = Ok r ->
      safe r EMAIL_COLUMN <> "" ->
      generate_pdf r w = (w1, Raise exc) ->
      row_outcome df idx w (failed (safe r EMAIL_COLUMN) exc) w1
  | row_not_sent r w1 pdf w2 exc :
      df_iloc df idx = Ok r ->
      safe r EMAIL_COLUMN <> "" ->
      generate_pdf r w = (w1, Ok pdf) ->
      send_email (safe r EMAIL_COLUMN) pdf (invoice_name r idx) w1 = (w2, Raise exc) ->
      row_outcome df idx w (failed (safe r EMAIL_COLUMN) exc) w2
  | row_sent r w1 pdf w2 u :
      df_iloc df idx = Ok r ->
      safe r EMAIL_COLUMN <> "" ->
      generate_pdf r w = (w1, Ok pdf) ->
      send_email (safe r EMAIL_COLUMN) pdf (invoice_name r idx) w1 = (w2, Ok u) ->
      row_outcome df idx w (sent (safe r EMAIL_COLUMN)) w2.

Inductive batch_outcomes (df : list row) : list Z -> W -> list outcome -> W -> Prop :=
  | batch_done w : batch_outcomes df [] w [] w
  | batch_next idx rest w o w1 os w2 :
      row_outcome df idx w o w1 ->
      batch_outcomes df rest w1 os w2 ->
      batch_outcomes df (idx :: rest) w (o :: os) w2.

End World.

End Program.

(** ** Instances for the examples

    A stand-in for the library functions, used where an example has to
    run: the words of the numbers 0 to 10 (any other number raises),
    capitalisation of ASCII letters, and the text of a float that holds
    an integer below 10^16.  The outside world counts the calls made to
    it; it delivers every message but those for [bounce@example.com]. *)

Definition ascii_upper (c : ascii) : ascii :=
  let n := code c in
  if ((97 <=? n) && (n <=? 122))%N then ascii_of_N (n - 32) else c.

Definition sample_capitalize (s : string) : string :=
  match s with
  | EmptyString => EmptyString
  | String c s' => String (ascii_upper c) (str_lower s')
  end.

Definition sample_words (n : Z) : result string :=
  if (0 <=? n) && (n <=? 10) then
    Ok (nth (Z.to_nat n)
          ["nol"; "satu"; "dua"; "tiga"; "empat"; "lima"; "enam"; "tujuh";
           "delapan"; "sembilan"; "sepuluh"] "")
  else Raise OtherException.

Definition sample_float_repr (x : float) : string :=
  match int_of_float x with
  | Ok n => str_of_Z n +:+ ".0"
  | Raise _ => ""
  end.

Definition sample_exn_str (e : exn) : string :=
  match e with
  | ValueError => "ValueError"
  | TypeError => "TypeError"
  | OverflowError => "cannot convert float infinity to integer"
  | KeyError => "KeyError"
  | IndexError => "IndexError"
  | OtherException => "connection refused"
  end.

Definition sample_lib : PyLib := {|
  float_repr := sample_float_repr;
  num2words_id := sample_words;
  str_capitalize := sample_capitalize;
  exn_str := sample_exn_str;
|}.

Definition sample_template : document :=
  Document [Paragraph [Run "Invoice for {{Cli"; Run "ent}}"];
            Paragraph [Run "{{Service 1}}"];
            Paragraph [Run "{{Subtotal 1}}"];
            Paragraph [Run "Total: "; Run "{{Total}}"]]
           [0%nat]
           [[Ok [[1%nat]; [2%nat]]]]
           [[3%nat]].

Definition sample_outside : Outside nat := {|
  open_template := fun _ w => (S w, Ok sample_template);
  convert_to_pdf := fun _ w => (S w, Ok []);
  smtp_deliver := fun recipient _ _ w =>
    (S w, if String.eqb recipient "bounce@example.com"
          then Raise OtherException else Ok tt);
|}.

(** Rows for the examples. *)

Definition row_of (cells : list (string * value)) : row := list_to_map cells.

(** Line 1 is a service of 3 units at 500000; line 2 has a quantity and
    a price but only blanks for a service. *)
Definition row_blank_service : row :=
  row_of [("Client", VStr "PT Test Company"); ("E-mail", VStr "test@example.com");
          ("Service 1", VStr "Layanan contoh 1"); ("Qty 1", VStr "3");
          ("Price 1", VInt 500000);
          ("Service 2", VStr "  "); ("Qty 2", VStr "3"); ("Price 2", VInt 500000)].

(** Line 1 is a discount: a quantity of -1. *)
Definition row_discount : row :=
  row_of [("Service 1", VStr "Diskon"); ("Qty 1", VStr "-1");
          ("Price 1", VStr "50000")].

(** The quantity of line 1 is the text [nan]; that of line 2 is [N/A]. *)
Definition row_nan_quantity : row :=
  row_of [("Service 1", VStr "Konsultasi"); ("Qty 1", VStr "nan");
          ("Price 1", VStr "1000");
          ("Service 2", VStr "Instalasi"); ("Qty 2", VStr "N/A");
          ("Price 2", VStr "1000")].

(** The quantity of line 1 is the text [inf]. *)
Definition row_inf_quantity : row :=
  row_of [("Service 1", VStr "Konsultasi"); ("Qty 1", VStr "inf");
          ("Price 1", VStr "1000")].


(** A table of five rows; the third has no address, the fifth bounces. *)
Definition table_of_five : list row :=
  [row_of [("Client", VStr "PT Satu"); ("E-mail", VStr "satu@example.com")];
   row_of [("Client", VStr "PT Dua"); ("E-mail", VStr "dua@example.com")];
   row_of [("Client", VStr "PT Tiga"); ("E-mail", VStr "   ")];
   row_of [("Client", VStr "PT Empat"); ("E-mail", VStr "empat@example.com")];
   row_of [("Client", VStr "PT Lima"); ("E-mail", VStr "bounce@example.com")]].

(** The row of the test mode: three sample services, the quantity of
    service [j] being [2 j] and its price [500000 j], and three empty
    lines. *)
Definition _test : row :=
  let header : row :=
    row_of [("Client", VStr "PT Test Company"); ("PIC", VStr "John Doe");
            ("Contact", VStr "+62 812 3456 7890"); ("E-mail", VStr "test@example.com");
            ("Address", VStr "Jalan Test 123, Bandung, Jawa Barat");
            ("No. Invoice", VStr "INV-2025-001");
            ("No. Quotation", VStr "QUO-2025-001");
            ("Invoice Date", VStr "01 Januari 2025");
            ("Due Date", VStr "31 Januari 2025")] in
  let services : row :=
    fold_left
      (fun t j =>
         <["Price " +:+ str_of_Z j := VStr (str_of_Z (500000 * j))]>
           (<["Qty " +:+ str_of_Z j := VStr (str_of_Z (j * 2))]>
              (<["Service " +:+ str_of_Z j := VStr ("Layanan contoh " +:+ str_of_Z j)]> t)))
      (seqZ 1 3) header in
  fold_left
    (fun t j =>
       <["Price " +:+ str_of_Z j := VStr ""]>
         (<["Qty " +:+ str_of_Z j := VStr ""]>
            (<["Service " +:+ str_of_Z j := VStr ""]> t)))
    (seqZ 4 3) services.

(** The amounts of the lines of the test row. *)
Definition test_amount (j : Z) : Z :=
  if (1 <=? j) && (j <=? 3) then (j * 2) * (500000 * j) else 0.

(** A table of two invoices with services. *)
Definition table_of_services : list row := [row_blank_service; _test].

(** A template with a hyperlink, and one whose table has a cell merged
    over two columns, which its row lists twice. *)
Definition linked_paragraph : paragraph :=
  Paragraph [Run "Hello "; Hyperlink "{{Client}}"; Run "!"].

Definition merged_template : document :=
  Document [Paragraph [Run "{{Client}}"]] [] [[Ok [[0%nat]; [0%nat]]]] [].

(** A table whose second row has the quantity [inf]. *)
Definition table_with_overflow : list row :=
  [row_blank_service; row_inf_quantity; row_discount].

(** * Properties *)

(** ** Text *)

Lemma append_empty_r (s : string) : s +:+ "" = s.
Proof.
  induction s as [|c s IH]; [reflexivity|].
  change (String c (s +:+ "") = String c s). by rewrite IH.
Qed.

Lemma append_assoc (a b c : string) : (a +:+ b) +:+ c = a +:+ (b +:+ c).
Proof.
  induction a as [|x a IH]; [reflexivity|].
  change (String x ((a +:+ b) +:+ c) = String x (a +:+ (b +:+ c))).
  by rewrite IH.
Qed.

Lemma str_concat_blanks {A : Type} (l : list A) :
  str_concat (map (fun _ => EmptyString) l) = "".
Proof. induction l as [|x l IH]; [reflexivity|]. exact IH. Qed.

Lemma str_concat_first_only {A : Type} (new : string) (rest : list A) :
  str_concat (new :: map (fun _ => EmptyString) rest) = new.
Proof. cbn [str_concat]. rewrite str_concat_blanks. apply append_empty_r. Qed.

Lemma replace_from_empty (old new : string) (k : nat) :
  replace_from old new k "" = "".
Proof. reflexivity. Qed.

Lemma str_replace_empty_text (c : ascii) (old new : string) :
  str_replace (String c old) new "" = "".
Proof. reflexivity. Qed.

Section Filler.

Context `{PyLib}.

(** ** The substitution pass *)

Lemma replace_all_app (d1 d2 : dict) (s : string) :
  replace_all (d1 ++ d2) s = replace_all d2 (replace_all d1 s).
Proof. unfold replace_all. apply fold_left_app. Qed.

(** What the pass writes, seen through [paragraph.runs], through the
    shape of the paragraph and through [paragraph.text]. *)
Lemma runs_blank (l : list inline) :
  runs (Paragraph (blank_runs l)) = map (fun _ => EmptyString) (runs (Paragraph l)).
Proof.
  unfold runs. cbn [content]. induction l as [|[s|s] l IH]; [done| |done].
  cbn [blank_runs map flat_map app]. by f_equal.
Qed.

Lemma runs_written (new first : string) (rest : list string) (l : list inline) :
  runs (Paragraph l) = first :: rest ->
  runs (Paragraph (write_runs new l)) = new :: map (fun _ => EmptyString) rest.
Proof.
  induction l as [|[s|s] l IH]; [done| |exact IH].
  intros [= _ <-]. cbn [write_runs]. change (Run new :: blank_runs l)
    with ([Run new] ++ blank_runs l).
  unfold runs. cbn [content]. rewrite flat_map_app. cbn [flat_map app].
  f_equal. apply runs_blank.
Qed.

Lemma shape_blank (l : list inline) :
  paragraph_shape (Paragraph (blank_runs l)) = paragraph_shape (Paragraph l).
Proof.
  unfold paragraph_shape, blank_runs. cbn [content]. rewrite map_map.
  apply map_ext. by intros [s|s].
Qed.

Lemma shape_written (new : string) (l : list inline) :
  paragraph_shape (Paragraph (write_runs new l)) = paragraph_shape (Paragraph l).
Proof.
  induction l as [|[s|s] l IH]; [done| |].
  - cbn [write_runs]. pose proof (shape_blank l) as Hb.
    unfold paragraph_shape in Hb |- *. cbn [content map] in Hb |- *. by f_equal.
  - unfold paragraph_shape in IH |- *. cbn [content write_runs map] in IH |- *.
    by f_equal.
Qed.

Lemma text_blank (l : list inline) :
  forallb (fun x => match x with Run _ => true | Hyperlink _ => false end) l = true ->
  text (Paragraph (blank_runs l)) = "".
Proof.
  unfold text. cbn [content]. induction l as [|[s|s] l IH]; [done| |done].
  cbn [forallb andb blank_runs map str_concat inline_text]. exact IH.
Qed.

Lemma text_written (new : string) (p : paragraph) :
  hyperlink_free p = true -> runs p <> [] ->
  text (Paragraph (write_runs new (content p))) = new.
Proof.
  unfold hyperlink_free. destruct p as [[|[s|s] l]]; [done| |done].
  cbn [content forallb andb write_runs]. intros Hl _.
  pose proof (text_blank l Hl) as Hb. unfold text in Hb |- *.
  cbn [content map str_concat inline_text] in Hb |- *.
  rewrite Hb. apply append_empty_r.
Qed.

Lemma stored_storable (s : string) : storable s = true -> stored s = s.
Proof.
  unfold storable, has_char. intros [_ Hs%negb_true_iff]%andb_true_iff.
  induction s as [|c s IH]; [done|].
  cbn [list_ascii_of_string existsb] in Hs. apply orb_false_iff in Hs as [Hc Hs].
  cbn [stored]. rewrite (IH Hs). f_equal. unfold stored_char.
  destruct (code c =? 13)%N eqn:E; [|done].
  apply N.eqb_eq in E. unfold code in E.
  rewrite <- (ascii_N_embedding c), E in Hc. done.
Qed.

Lemma replace_in_paragraph_changed (p : paragraph) (replacements : dict) :
  runs p <> [] ->
  replace_all replacements (text p) <> text p ->
  _replace_in_paragraph p replacements =
    (first ← set_run_text (replace_all replacements (text p));
     Ok (Paragraph (write_runs first (content p)))).
Proof.
  intros Hruns Hne. unfold _replace_in_paragraph.
  apply String.eqb_neq in Hne. rewrite Hne.
  by rewrite (bool_decide_eq_false_2 _ Hruns).
Qed.

Lemma replace_in_paragraph_unchanged (p : paragraph) (replacements : dict) :
  replace_all replacements (text p) = text p ->
  _replace_in_paragraph p replacements = Ok p.
Proof.
  intros Heq. unfold _replace_in_paragraph.
  rewrite Heq, String.eqb_refl. reflexivity.
Qed.

Lemma replace_in_paragraph_no_runs (p : paragraph) (replacements : dict) :
  runs p = [] -> _replace_in_paragraph p replacements = Ok p.
Proof.
  intros Hruns. unfold _replace_in_paragraph.
  rewrite (bool_decide_eq_true_2 _ Hruns). by rewrite andb_false_r.
Qed.

(** The pass never changes the shape of a paragraph. *)
Lemma replace_in_paragraph_shape (p p' : paragraph) (replacements : dict) :
  _replace_in_paragraph p replacements = Ok p' ->
  paragraph_shape p' = paragraph_shape p.
Proof.
  unfold _replace_in_paragraph. destruct (_ && _); [|by intros [= <-]].
  destruct (set_run_text _) as [first|]; [|done]. cbn [mbind result_bind].
  intros [= <-]. destruct p as [l]. apply shape_written.
Qed.

(** The text after the pass on a paragraph without hyperlinks that has
    a run, when the substituted text can be stored as it is. *)
Lemma replace_in_paragraph_text (p : paragraph) (replacements : dict) :
  hyperlink_free p = true -> runs p <> [] ->
  storable (replace_all replacements (text p)) = true ->
  exists p', _replace_in_paragraph p replacements = Ok p'
             /\ text p' = replace_all replacements (text p).
Proof.
  intros Hfree Hruns Hst.
  destruct (String.eqb_spec (replace_all replacements (text p)) (text p)) as [Heq|Hne].
  - exists p. by rewrite replace_in_paragraph_unchanged.
  - rewrite (replace_in_paragraph_changed p replacements Hruns Hne).
    unfold set_run_text. pose proof Hst as [-> _]%andb_true_iff.
    rewrite (stored_storable _ Hst). cbn [mbind result_bind].
    eexists. split; [done|]. by apply text_written.
Qed.

(** C1, as amended.  The pass matches against the text of the
    paragraph, which is that of its runs and hyperlinks in order, and
    applies the replacements one after the other to that string.  When
    the result differs from the original text and the paragraph has a
    run, the result goes into the first run and every other run is
    blanked, the hyperlinks staying where they are; unless the result
    holds a character XML cannot hold, in which case the pass raises
    [ValueError].  When nothing changes, or there is no run, the
    paragraph is left as it is.  On a paragraph without hyperlinks that
    has a run, the text after the pass is the substituted string
    (provided it can be stored as it is), so two such paragraphs with
    the same text come out with the same text, however the runs split
    it. *)
Theorem C1_replace_in_paragraph (p : paragraph) (replacements : dict) :
  let new := replace_all replacements (text p) in
  (forall first rest, runs p = first :: rest -> new <> text p ->
     xml_compatible new = true ->
     exists p', _replace_in_paragraph p replacements = Ok p'
       /\ runs p' = stored new :: map (fun _ => EmptyString) rest
       /\ paragraph_shape p' = paragraph_shape p)
  /\ (runs p <> [] -> new <> text p -> xml_compatible new = false ->
      _replace_in_paragraph p replacements = Raise ValueError)
  /\ (new = text p -> _replace_in_paragraph p replacements = Ok p)
  /\ (runs p = [] -> _replace_in_paragraph p replacements = Ok p)
  /\ (hyperlink_free p = true -> runs p <> [] -> storable new = true ->
      exists p', _replace_in_paragraph p replacements = Ok p' /\ text p' = new)
  /\ (forall q, hyperlink_free p = true -> hyperlink_free q = true ->
        runs p <> [] -> runs q <> [] -> text q = text p ->
        (q' ← _replace_in_paragraph q replacements; Ok (text q'))
        = (p' ← _replace_in_paragraph p replacements; Ok (text p'))).
Proof.
  cbn zeta. split; [|split; [|split; [|split; [|split]]]].
  - intros first rest Hr Hne Hxml.
    assert (runs p <> []) as Hruns by (by rewrite Hr).
    rewrite (replace_in_paragraph_changed p replacements Hruns Hne).
    unfold set_run_text. rewrite Hxml. cbn [mbind result_bind].
    eexists. split; [done|]. destruct p as [l]. split.
    + by apply (runs_written _ first).
    + apply shape_written.
  - intros Hruns Hne Hxml.
    rewrite (replace_in_paragraph_changed p replacements Hruns Hne).
    unfold set_run_text. by rewrite Hxml.
  - apply replace_in_paragraph_unchanged.
  - apply replace_in_paragraph_no_runs.
  - apply replace_in_paragraph_text.
  - intros q Hp Hq Hrp Hrq Heq.
    destruct (String.eqb_spec (replace_all replacements (text p)) (text p)) as [Hsame|Hne].
    + rewrite (replace_in_paragraph_unchanged p) by done.
      rewrite (replace_in_paragraph_unchanged q) by (by rewrite Heq).
      cbn [mbind result_bind]. by rewrite Heq.
    + rewrite (replace_in_paragraph_changed p replacements Hrp Hne).
      rewrite (replace_in_paragraph_changed q replacements Hrq) by (by rewrite Heq).
      rewrite Heq. destruct (set_run_text _) as [first|]; [|done].
      cbn [mbind result_bind]. by rewrite !text_written.
Qed.

(** A token split over three runs. *)
Lemma C1_replace_in_paragraph_witness :
  exists p',
    _replace_in_paragraph (Paragraph [Run "Dear {{Cli"; Run "ent"; Run "}},"])
      [("{{Client}}", "ACME")] = Ok p'
    /\ runs p' = ["Dear ACME,"; ""; ""]
    /\ text p' = "Dear ACME,".
Proof.
  pose proof (C1_replace_in_paragraph
                (Paragraph [Run "Dear {{Cli"; Run "ent"; Run "}},"])
                [("{{Client}}", "ACME")]) as (Hruns & _ & _ & _ & _).
  destruct (Hruns "Dear {{Cli" ["ent"; "}},"]) as (p' & Hp & Hr & _).
  - reflexivity.
  - vm_compute. discriminate.
  - reflexivity.
  - exists p'. split; [exact Hp|]. split; [exact Hr|].
    vm_compute in Hp. by injection Hp as <-.
Defined.

(** C1 as stated fails on a paragraph in which nothing matches: its runs
    are kept, the text is not moved into the first run.  It fails on its
    last clause when a value holds a token, which stays in the output,
    and when the token stands in a hyperlink, which the pass does not
    write to.  And nothing is written at all when the substituted text
    holds a control character: the pass raises. *)
Lemma C1_counterexample :
  (let p := Paragraph [Run "Dear "; Run "client"] in
   let replacements := [("{{Client}}", "ACME")] in
   _replace_in_paragraph p replacements = Ok p
   /\ runs p <> [replace_all replacements (text p); ""])
  /\ (let p := Paragraph [Run "{{Cli"; Run "ent}}"] in
      let replacements := [("{{Client}}", "A {{Client}} B")] in
      _replace_in_paragraph p replacements
      = Ok (Paragraph [Run "A {{Client}} B"; Run ""])
      /\ occurs "{{Client}}" "A {{Client}} B" = true)
  /\ (let p := Paragraph [Run "Hello "; Hyperlink "{{Client}}"; Run "!"] in
      let replacements := [("{{Client}}", "ACME")] in
      _replace_in_paragraph p replacements
      = Ok (Paragraph [Run "Hello ACME!"; Hyperlink "{{Client}}"; Run ""])
      /\ text (Paragraph [Run "Hello ACME!"; Hyperlink "{{Client}}"; Run ""])
         = "Hello ACME!{{Client}}")
  /\ (let p := Paragraph [Run "{{Client}}"] in
      let replacements := [("{{Client}}", String "001" "B")] in
      _replace_in_paragraph p replacements = Raise ValueError).
Proof.
  cbn zeta. split; [|split; [|split]].
  - split; [reflexivity|]. vm_compute. discriminate.
  - split; reflexivity.
  - split; reflexivity.
  - reflexivity.
Qed.

(** C9.  The replacements of one paragraph are applied one after the
    other to the same buffer: when the value of a placeholder holds the
    token of a placeholder that comes later in the map, that token is
    replaced too.  Here the client of the row is the text of the total
    token, and the map is the one [generate_pdf] builds. *)
Theorem C9_sequential_replacement :
  exists (r : row) (p : paragraph) (replacements : dict) (p' : paragraph),
    build_replacements r = Ok replacements
    /\ dict_get replacements "{{Client}}" = Some "{{Total}}"
    /\ dict_get replacements "{{Total}}" = Some "0"
    /\ text p = "Bill to {{Client}}"
    /\ _replace_in_paragraph p replacements = Ok p'
    /\ text p' = "Bill to 0"
    /\ occurs "{{Total}}" (text p') = false.
Proof.
  exists {[ "Client" := VStr "{{Total}}" ]},
         (Paragraph [Run "Bill to {{Cl"; Run "ient}}"]).
  destruct H as [repr words capitalize estr].
  destruct (words 0) as [w|e] eqn:Hw.
  - eexists _, _. split.
    { vm_compute. rewrite Hw. reflexivity. }
    do 4 (split; [vm_compute; reflexivity|]). split; vm_compute; reflexivity.
  - eexists _, _. split.
    { vm_compute. rewrite Hw. reflexivity. }
    do 4 (split; [vm_compute; reflexivity|]). split; vm_compute; reflexivity.
Qed.

(** ** The placeholder map *)

Lemma dict_get_set_eq (d : dict) (k v : string) :
  dict_get (dict_set d k v) k = Some v.
Proof.
  induction d as [|[k' v'] d IH]; cbn.
  - by rewrite String.eqb_refl.
  - destruct (String.eqb k' k) eqn:E; cbn; rewrite E; [done|exact IH].
Qed.

Lemma dict_get_set_ne (d : dict) (k k' v : string) :
  k <> k' -> dict_get (dict_set d k v) k' = dict_get d k'.
Proof.
  intros Hne. induction d as [|[k0 v0] d IH]; cbn.
  - apply String.eqb_neq in Hne. by rewrite Hne.
  - destruct (String.eqb k0 k) eqn:E; cbn.
    + apply String.eqb_eq in E. subst k0.
      apply String.eqb_neq in Hne. by rewrite Hne.
    + destruct (String.eqb k0 k'); [done|exact IH].
Qed.

Lemma for_each_app {S : Type} (l1 l2 : list Z) (body : S -> Z -> result S) (st : S) :
  for_each (l1 ++ l2) body st = (st' ← for_each l1 body st; for_each l2 body st').
Proof.
  revert st. induction l1 as [|i l1 IH]; intros st; cbn; [done|].
  destruct (body st i) as [st'|e]; cbn; [apply IH|done].
Qed.

Lemma line_index_cases (i : Z) :
  1 <= i <= 6 -> i = 1 \/ i = 2 \/ i = 3 \/ i = 4 \/ i = 5 \/ i = 6.
Proof. lia. Qed.

Lemma line_index_elem (i : Z) : 1 <= i <= 6 <-> i ∈ line_indices.
Proof. unfold line_indices. rewrite elem_of_seqZ. lia. Qed.

(** The column of a line field is the field name with the line number. *)
Lemma line_column_spec (i : Z) :
  1 <= i <= 6 ->
  line_column "Service" i = "Service " +:+ str_of_Z i
  /\ line_column "Qty" i = "Qty " +:+ str_of_Z i
  /\ line_column "Price" i = "Price " +:+ str_of_Z i.
Proof.
  intros Hi. destruct (line_index_cases i Hi) as [->|[->|[->|[->|[->| ->]]]]];
    vm_compute; done.
Qed.

(** The tokens of two different lines are different, and none of them is
    the token of the total or of its words. *)
Lemma line_keys_disjoint (i j : Z) (k : string) :
  1 <= i <= 6 -> 1 <= j <= 6 -> i <> j -> k ∈ line_keys i -> k ∉ line_keys j.
Proof.
  intros Hi Hj Hne Hk Hk'.
  destruct (line_index_cases i Hi) as [->|[->|[->|[->|[->| ->]]]]];
    destruct (line_index_cases j Hj) as [->|[->|[->|[->|[->| ->]]]]];
    try done; clear Hi Hj Hne;
    vm_compute in Hk, Hk';
    repeat (apply elem_of_cons in Hk as [->|Hk]; [|]);
    try (by apply elem_of_nil in Hk);
    repeat (apply elem_of_cons in Hk' as [E|Hk']; [discriminate E|]);
    by apply elem_of_nil in Hk'.
Qed.

(** ** Calculated columns *)

Lemma float_of_str_raises_ValueError (s : string) (e : exn) :
  float_of_str s = Raise e -> e = ValueError.
Proof.
  unfold float_of_str.
  destruct (split_sign _) as [neg body].
  destruct (_ || _)%bool; [done|].
  destruct (String.eqb _ "nan"); [done|].
  destruct (parse_floatnumber body) as [[m e10]|]; [done|].
  by intros [= <-].
Qed.

Lemma py_float_or_zero_raises_ValueError (s : string) (e : exn) :
  py_float (or_zero s) = Raise e -> e = ValueError.
Proof.
  unfold or_zero. destruct (nonempty s); cbn.
  - apply float_of_str_raises_ValueError.
  - vm_compute. done.
Qed.

Lemma py_float_parsed (s : string) :
  py_float (or_zero s) = match parsed s with
                         | Some x => Ok x
                         | None => Raise ValueError
                         end.
Proof.
  unfold parsed. destruct (py_float (or_zero s)) as [x|e] eqn:E; [done|].
  by rewrite (py_float_or_zero_raises_ValueError s e E).
Qed.

(** The [try] block of a line never lets an exception out. *)
Lemma line_product_spec (r : row) (i : Z) :
  line_product r i =
    Ok match parsed (safe r (line_column "Qty" i)),
             parsed (safe r (line_column "Price" i)) with
       | Some q, Some p => float_mul q p
       | _, _ => float_zero
       end.
Proof.
  unfold line_product. rewrite !py_float_parsed.
  destruct (parsed (safe r (line_column "Qty" i))) as [q|]; cbn; [|done].
  destruct (parsed (safe r (line_column "Price" i))) as [p|]; cbn; done.
Qed.

Lemma subtotal_step_spec (r : row) (subtotals : gmap Z float) (total : float) (i : Z) :
  subtotal_step r (subtotals, total) i =
    Ok (<[i := line_subtotal r i]> subtotals,
        if present r i then float_add total (line_subtotal r i) else total).
Proof.
  unfold subtotal_step, line_subtotal, present.
  destruct (nonempty (safe r (line_column "Service" i))); cbn; [|done].
  by rewrite line_product_spec.
Qed.

Lemma for_each_subtotal_step (r : row) (l : list Z) (subtotals : gmap Z float)
    (total : float) :
  for_each l (subtotal_step r) (subtotals, total) =
    Ok (foldl (fun m i => <[i := line_subtotal r i]> m) subtotals l,
        fold_left float_add (map (line_subtotal r) (List.filter (present r) l)) total).
Proof.
  revert subtotals total. induction l as [|i l IH]; intros subtotals total; [done|].
  cbn [for_each]. rewrite subtotal_step_spec. cbn [mbind result_bind].
  rewrite IH. cbn [foldl List.filter].
  destruct (present r i); done.
Qed.

Lemma lookup_foldl_insert (f : Z -> float) (l : list Z) (m : gmap Z float) (i : Z) :
  i ∈ l -> foldl (fun m i => <[i := f i]> m) m l !! i = Some (f i).
Proof.
  revert m. induction l as [|j l IH]; intros m Hi.
  - by apply elem_of_nil in Hi.
  - cbn [foldl]. destruct (decide (i ∈ l)) as [Hl|Hl]; [by apply IH|].
    apply elem_of_cons in Hi as [->|Hi]; [|done].
    clear IH. revert m. induction l as [|k l IH]; intros m; cbn [foldl].
    + apply lookup_insert_eq.
    + apply not_elem_of_cons in Hl as [Hne Hl].
      rewrite <- (IH Hl (<[k := f k]> m)). f_equal. f_equal.
      by apply insert_insert_ne.
Qed.

(** The first block of [generate_pdf] always runs to its end; it leaves
    the subtotal of every line in [subtotals] and the sum of the present
    lines in [total]. *)
Lemma calculated_columns_spec (r : row) :
  exists subtotals,
    calculated_columns r = Ok (subtotals, sum_of_present r)
    /\ forall i, 1 <= i <= 6 -> subtotals !! i = Some (line_subtotal r i).
Proof.
  unfold calculated_columns. rewrite for_each_subtotal_step.
  eexists. split; [reflexivity|].
  intros i Hi. apply lookup_foldl_insert. by apply line_index_elem.
Qed.

(** ** The lines of the placeholder map *)

(** A turn of the loop only writes the four tokens of its line. *)
Lemma line_step_other (r : row) (subtotals : gmap Z float) (d d' : dict)
    (i : Z) (k : string) :
  line_step r subtotals d i = Ok d' -> k ∉ line_keys i ->
  dict_get d' k = dict_get d k.
Proof.
  intros Hstep Hk.
  assert (forall name, name ∈ line_names -> line_token name i <> k) as Hne.
  { intros name Hname <-. apply Hk. unfold line_keys.
    by apply (list_elem_of_fmap_2 (fun name => line_token name i)). }
  assert (line_token "Service" i <> k) as H1 by (apply Hne; set_solver).
  assert (line_token "Qty" i <> k) as H2 by (apply Hne; set_solver).
  assert (line_token "Price" i <> k) as H3 by (apply Hne; set_solver).
  assert (line_token "Subtotal" i <> k) as H4 by (apply Hne; set_solver).
  unfold line_step in Hstep.
  destruct (nonempty (safe r (line_column "Service" i))).
  - destruct (qty_text _) as [qty|]; [|done]. cbn in Hstep.
    destruct (fmt_idr (VStr _)) as [price|]; [|done]. cbn in Hstep.
    destruct (subtotal_item subtotals i) as [sub|]; [|done]. cbn in Hstep.
    destruct (fmt_idr (VFloat sub)) as [subtotal|]; [|done]. cbn in Hstep.
    injection Hstep as <-. by rewrite !dict_get_set_ne.
  - injection Hstep as <-. by rewrite !dict_get_set_ne.
Qed.

Lemma for_each_line_step_other (r : row) (subtotals : gmap Z float) (l : list Z)
    (d d' : dict) (k : string) :
  for_each l (line_step r subtotals) d = Ok d' ->
  (forall j, j ∈ l -> k ∉ line_keys j) ->
  dict_get d' k = dict_get d k.
Proof.
  revert d. induction l as [|j l IH]; intros d Hrun Hk.
  - by injection Hrun as <-.
  - cbn [for_each] in Hrun.
    destruct (line_step r subtotals d j) as [d1|] eqn:Hstep; [|done].
    cbn in Hrun. rewrite (IH d1 Hrun) by (intros; apply Hk; set_solver).
    apply (line_step_other _ _ _ _ _ _ Hstep). apply Hk. set_solver.
Qed.

(** What the loop over the lines leaves under the tokens of line [i] is
    what the turn of line [i] put there. *)
Lemma for_each_line_step_at (r : row) (subtotals : gmap Z float) (d d' : dict)
    (i : Z) :
  1 <= i <= 6 ->
  for_each line_indices (line_step r subtotals) d = Ok d' ->
  exists d0 d1,
    line_step r subtotals d0 i = Ok d1
    /\ forall k, k ∈ line_keys i -> dict_get d' k = dict_get d1 k.
Proof.
  intros Hi Hrun.
  assert (exists l1 l2, line_indices = l1 ++ i :: l2
                        /\ forall j, j ∈ l2 -> 1 <= j <= 6 /\ i <> j)
    as (l1 & l2 & Hsplit & Hl2).
  { destruct (line_index_cases i Hi) as [->|[->|[->|[->|[->| ->]]]]];
      [exists [], [2;3;4;5;6] | exists [1], [3;4;5;6] | exists [1;2], [4;5;6]
      | exists [1;2;3], [5;6] | exists [1;2;3;4], [6] | exists [1;2;3;4;5], []];
      (split; [reflexivity|]); intros j Hj;
      repeat (apply elem_of_cons in Hj as [->|Hj]; [lia|]);
      by apply elem_of_nil in Hj. }
  rewrite Hsplit, for_each_app in Hrun.
  destruct (for_each l1 (line_step r subtotals) d) as [d0|]; [|done].
  cbn [mbind result_bind for_each] in Hrun.
  destruct (line_step r subtotals d0 i) as [d1|] eqn:Hstep; [|done].
  cbn [mbind result_bind] in Hrun.
  exists d0, d1. split; [done|]. intros k Hk.
  apply (for_each_line_step_other _ _ _ _ _ _ Hrun).
  intros j Hj. destruct (Hl2 j Hj) as [Hj6 Hne].
  by apply (line_keys_disjoint i j).
Qed.

Lemma line_keys_not_total (i : Z) (k : string) :
  1 <= i <= 6 -> k ∈ line_keys i -> "{{Total}}" <> k /\ "{{Terbilang}}" <> k.
Proof.
  intros Hi Hk.
  destruct (line_index_cases i Hi) as [->|[->|[->|[->|[->| ->]]]]];
    vm_compute in Hk;
    repeat (apply elem_of_cons in Hk as [->|Hk]; [done|]);
    by apply elem_of_nil in Hk.
Qed.

(** The tokens of line [i] in the finished map hold what the turn of
    line [i] wrote, from the subtotals of the first block. *)
Lemma build_replacements_line (r : row) (replacements : dict) (i : Z) :
  1 <= i <= 6 ->
  build_replacements r = Ok replacements ->
  exists subtotals d0 d1,
    subtotals !! i = Some (line_subtotal r i)
    /\ line_step r subtotals d0 i = Ok d1
    /\ forall k, k ∈ line_keys i -> dict_get replacements k = dict_get d1 k.
Proof.
  intros Hi Hbuild. unfold build_replacements in Hbuild.
  destruct (calculated_columns_spec r) as (subtotals & Hcalc & Hsub).
  rewrite Hcalc in Hbuild. cbn [mbind result_bind] in Hbuild.
  destruct (for_each line_indices _ _) as [d|] eqn:Hrun; [|done].
  cbn [mbind result_bind] in Hbuild.
  destruct (fmt_idr _) as [total_text|]; [|done]. cbn [mbind result_bind] in Hbuild.
  destruct (to_terbilang _) as [words|]; [|done]. cbn [mbind result_bind] in Hbuild.
  injection Hbuild as <-.
  destruct (for_each_line_step_at _ _ _ _ i Hi Hrun) as (d0 & d1 & Hstep & Hget).
  exists subtotals, d0, d1. split; [by apply Hsub|]. split; [done|].
  intros k Hk. destruct (line_keys_not_total i k Hi Hk) as [Ht Hw].
  rewrite !dict_get_set_ne by done. by apply Hget.
Qed.

Lemma line_keys_distinct (i : Z) :
  1 <= i <= 6 -> NoDup (line_keys i).
Proof.
  intros Hi.
  destruct (line_index_cases i Hi) as [->|[->|[->|[->|[->| ->]]]]];
    apply (bool_decide_unpack _); vm_compute; exact I.
Qed.

Lemma dict_get_line (d : dict) (i : Z) (service qty price subtotal : string) :
  1 <= i <= 6 ->
  let d' := dict_set (dict_set (dict_set (dict_set d
              (line_token "Service" i) service) (line_token "Qty" i) qty)
              (line_token "Price" i) price) (line_token "Subtotal" i) subtotal in
  dict_get d' (line_token "Service" i) = Some service
  /\ dict_get d' (line_token "Qty" i) = Some qty
  /\ dict_get d' (line_token "Price" i) = Some price
  /\ dict_get d' (line_token "Subtotal" i) = Some subtotal.
Proof.
  intros Hi d'. subst d'.
  assert (line_token "Qty" i <> line_token "Service" i
          /\ line_token "Price" i <> line_token "Service" i
          /\ line_token "Subtotal" i <> line_token "Service" i
          /\ line_token "Price" i <> line_token "Qty" i
          /\ line_token "Subtotal" i <> line_token "Qty" i
          /\ line_token "Subtotal" i <> line_token "Price" i)
    as (H1 & H2 & H3 & H4 & H5 & H6).
  { destruct (line_index_cases i Hi) as [->|[->|[->|[->|[->| ->]]]]];
      vm_compute; repeat split; discriminate. }
  repeat split.
  - rewrite (dict_get_set_ne _ _ _ _ H3), (dict_get_set_ne _ _ _ _ H2),
      (dict_get_set_ne _ _ _ _ H1). apply dict_get_set_eq.
  - rewrite (dict_get_set_ne _ _ _ _ H5), (dict_get_set_ne _ _ _ _ H4).
    apply dict_get_set_eq.
  - rewrite (dict_get_set_ne _ _ _ _ H6). apply dict_get_set_eq.
  - apply dict_get_set_eq.
Qed.

Lemma line_token_keys (i : Z) :
  line_token "Service" i ∈ line_keys i /\ line_token "Qty" i ∈ line_keys i
  /\ line_token "Price" i ∈ line_keys i /\ line_token "Subtotal" i ∈ line_keys i.
Proof.
  unfold line_keys.
  repeat split; apply (list_elem_of_fmap_2 (fun name => line_token name i));
    unfold line_names; set_solver.
Qed.

Lemma nonempty_false (s : string) : nonempty s = false -> s = "".
Proof. by destruct s. Qed.

(** The four tokens of an absent line in the finished map. *)
Lemma build_replacements_absent_line (r : row) (replacements : dict) (i : Z) :
  1 <= i <= 6 -> present r i = false ->
  build_replacements r = Ok replacements ->
  dict_get replacements (line_token "Service" i) = Some ""
  /\ dict_get replacements (line_token "Qty" i) = Some ""
  /\ dict_get replacements (line_token "Price" i) = Some ""
  /\ dict_get replacements (line_token "Subtotal" i) = Some "".
Proof.
  intros Hi Habs Hbuild.
  destruct (build_replacements_line r replacements i Hi Hbuild)
    as (subtotals & d0 & d1 & _ & Hstep & Hget).
  destruct (line_token_keys i) as (K1 & K2 & K3 & K4).
  rewrite (Hget _ K1), (Hget _ K2), (Hget _ K3), (Hget _ K4).
  unfold line_step in Hstep. unfold present in Habs. rewrite Habs in Hstep.
  rewrite (nonempty_false _ Habs) in Hstep.
  injection Hstep as <-. by apply dict_get_line.
Qed.

(** The four tokens of a present line in the finished map. *)
Lemma build_replacements_present_line (r : row) (replacements : dict) (i : Z) :
  1 <= i <= 6 -> present r i = true ->
  build_replacements r = Ok replacements ->
  exists qty price subtotal,
    qty_text (safe r (line_column "Qty" i)) = Ok qty
    /\ fmt_idr (VStr (safe r (line_column "Price" i))) = Ok price
    /\ fmt_idr (VFloat (line_subtotal r i)) = Ok subtotal
    /\ dict_get replacements (line_token "Service" i)
       = Some (safe r (line_column "Service" i))
    /\ dict_get replacements (line_token "Qty" i) = Some qty
    /\ dict_get replacements (line_token "Price" i) = Some price
    /\ dict_get replacements (line_token "Subtotal" i) = Some subtotal.
Proof.
  intros Hi Hpres Hbuild.
  destruct (build_replacements_line r replacements i Hi Hbuild)
    as (subtotals & d0 & d1 & Hsub & Hstep & Hget).
  destruct (line_token_keys i) as (K1 & K2 & K3 & K4).
  rewrite (Hget _ K1), (Hget _ K2), (Hget _ K3), (Hget _ K4).
  unfold line_step in Hstep. unfold present in Hpres. rewrite Hpres in Hstep.
  destruct (qty_text _) as [qty|]; [|done]. cbn in Hstep.
  destruct (fmt_idr (VStr _)) as [price|]; [|done]. cbn in Hstep.
  unfold subtotal_item in Hstep. rewrite Hsub in Hstep. cbn in Hstep.
  destruct (fmt_idr (VFloat _)) as [subtotal|]; [|done]. cbn in Hstep.
  injection Hstep as <-.
  exists qty, price, subtotal. repeat split; try done; by apply dict_get_line.
Qed.

(** C3.  On a line whose trimmed service name is empty the subtotal is
    [0.0] and the turn of the loop writes the empty string under the
    Service, Qty, Price and Subtotal tokens, whatever the row holds for
    the quantity and the price; these four entries are what the finished
    map holds. *)
Theorem C3_blank_service_line (r : row) (i : Z) :
  1 <= i <= 6 ->
  safe r (line_column "Service" i) = "" ->
  (exists subtotals total,
      calculated_columns r = Ok (subtotals, total)
      /\ subtotals !! i = Some float_zero)
  /\ (forall subtotals d,
        line_step r subtotals d i =
          Ok (dict_set (dict_set (dict_set (dict_set d
                (line_token "Service" i) "") (line_token "Qty" i) "")
                (line_token "Price" i) "") (line_token "Subtotal" i) ""))
  /\ (forall replacements,
        build_replacements r = Ok replacements ->
        dict_get replacements (line_token "Service" i) = Some ""
        /\ dict_get replacements (line_token "Qty" i) = Some ""
        /\ dict_get replacements (line_token "Price" i) = Some ""
        /\ dict_get replacements (line_token "Subtotal" i) = Some "").
Proof.
  intros Hi Hblank.
  assert (present r i = false) as Habs by (unfold present; by rewrite Hblank).
  repeat split.
  - destruct (calculated_columns_spec r) as (subtotals & Hcalc & Hsub).
    exists subtotals, (sum_of_present r). split; [done|].
    rewrite (Hsub i Hi). unfold line_subtotal. by rewrite Habs.
  - intros subtotals d. unfold line_step. by rewrite Hblank.
  - by apply (build_replacements_absent_line r replacements i).
  - by apply (build_replacements_absent_line r replacements i).
  - by apply (build_replacements_absent_line r replacements i).
  - by apply (build_replacements_absent_line r replacements i).
Qed.

End Filler.


(** ** The batch loop *)

Section Batch.

Context `{PyLib} {W : Type} `{Outside W}.

Lemma df_iloc_in_range (df : list row) (idx : Z) :
  0 <= idx < Z.of_nat (length df) -> exists r, df_iloc df idx = Ok r.
Proof.
  intros Hidx. unfold df_iloc.
  destruct (idx <? 0) eqn:E; [lia|]. rewrite E.
  destruct (df !! Z.to_nat idx) as [r|] eqn:Hr; [by exists r|].
  apply lookup_ge_None in Hr. lia.
Qed.

(** One turn of the loop appends exactly one outcome, the one the row is
    owed, whatever happens while the PDF is made or sent. *)
Lemma send_step_outcome (df : list row) (results : list outcome) (idx : Z)
    (r : row) (w : W) :
  df_iloc df idx = Ok r ->
  exists o w', send_step df results idx w = (w', Ok (results ++ [o]))
               /\ row_outcome df idx w o w'.
Proof.
  intros Hr. unfold send_step, mbind, io_bind, io_lift. rewrite Hr.
  destruct (nonempty (safe r EMAIL_COLUMN)) eqn:Haddr; cbn [negb].
  - assert (safe r EMAIL_COLUMN <> "") as Hne by (intros E; by rewrite E in Haddr).
    unfold io_try, io_ret.
    destruct (generate_pdf r w) as [w1 [pdf|exc]] eqn:Hgen.
    + destruct (send_email (safe r EMAIL_COLUMN) pdf (invoice_name r idx) w1)
        as [w2 [u|exc]] eqn:Hsend.
      * eexists _, _. split; [reflexivity|]. by eapply row_sent.
      * eexists _, _. split; [reflexivity|]. by eapply row_not_sent.
    + eexists _, _. split; [reflexivity|]. by eapply row_not_generated.
  - apply nonempty_false in Haddr.
    eexists _, _. split; [reflexivity|]. by eapply row_no_address.
Qed.

Lemma send_loop_outcomes (df : list row) (selected : list Z)
    (results : list outcome) (w : W) :
  (forall idx, idx ∈ selected -> 0 <= idx < Z.of_nat (length df)) ->
  exists outs w',
    send_loop df selected results w = (w', Ok (results ++ outs))
    /\ batch_outcomes df selected w outs w'.
Proof.
  revert results w. induction selected as [|idx rest IH]; intros results w Hsel.
  - exists [], w. rewrite app_nil_r. split; [reflexivity|constructor].
  - destruct (df_iloc_in_range df idx) as [r Hr]; [apply Hsel, elem_of_cons; by left|].
    destruct (send_step_outcome df results idx r w Hr) as (o & w1 & Hstep & Ho).
    destruct (IH (results ++ [o]) w1) as (outs & w2 & Hloop & Houts).
    { intros j Hj. apply Hsel, elem_of_cons. by right. }
    exists (o :: outs), w2. split; [|by econstructor].
    cbn [send_loop]. unfold mbind, io_bind. rewrite Hstep, Hloop.
    by rewrite <- app_assoc.
Qed.

Lemma batch_outcomes_length (df : list row) (selected : list Z) (w w' : W)
    (outs : list outcome) :
  batch_outcomes df selected w outs w' -> length outs = length selected.
Proof. induction 1; cbn; congruence. Qed.

(** C8.  For every selection of rows of the table, the loop runs to its
    end and yields one outcome per row, in order: an error naming the row
    when the address is empty, an error for the recipient when making or
    sending the PDF raises, a success otherwise; no failure stops the
    rows that follow from being attempted. *)
Theorem C8_one_outcome_per_row (df : list row) (selected : list Z) (w : W) :
  (forall idx, idx ∈ selected -> 0 <= idx < Z.of_nat (length df)) ->
  exists outs w',
    generate_and_send df selected w
      = (w', Ok outs)
    /\ length outs = length selected
    /\ batch_outcomes df selected w outs w'.
Proof.
  intros Hsel. unfold generate_and_send.
  destruct (send_loop_outcomes df selected [] w Hsel) as (outs & w' & Hloop & Houts).
  exists outs, w'. split; [exact Hloop|]. split; [|exact Houts].
  by apply (batch_outcomes_length df selected w w').
Qed.

End Batch.


(** ** Rounding to binary64 *)

Lemma iter_pos_nat {A : Type} (f : A -> A) (p : positive) (x : A) :
  SpecFloat.iter_pos f p x = Nat.iter (Pos.to_nat p) f x.
Proof.
  revert x. induction p as [p IH|p IH|]; intros x; cbn [SpecFloat.iter_pos].
  - rewrite !IH, Pos2Nat.inj_xI. cbn [Nat.mul].
    rewrite Nat.add_0_r, <- Nat.add_succ_r, Nat.iter_add.
    f_equal. by rewrite Nat.iter_succ_r.
  - rewrite !IH, Pos2Nat.inj_xO. cbn [Nat.mul].
    by rewrite Nat.add_0_r, Nat.iter_add.
  - reflexivity.
Qed.

Lemma shr_1_m (mrs : shr_record) :
  0 <= shr_m mrs -> shr_m (shr_1 mrs) = shr_m mrs / 2.
Proof.
  destruct mrs as [m r s]. cbn [shr_m]. intros Hm.
  destruct m as [|[p|p|]|p]; cbn [shr_1 shr_m]; try lia.
  - reflexivity.
  - rewrite Pos2Z.inj_xI. apply (Z.div_unique _ _ _ 1); lia.
  - rewrite Pos2Z.inj_xO. apply (Z.div_unique _ _ _ 0); lia.
  - reflexivity.
Qed.

Lemma shr_iter_m (n : nat) (mrs : shr_record) :
  0 <= shr_m mrs ->
  shr_m (Nat.iter n shr_1 mrs) = shr_m mrs / 2 ^ Z.of_nat n.
Proof.
  intros Hm. induction n as [|n IH].
  - cbn. by rewrite Z.div_1_r.
  - rewrite Nat.iter_succ, shr_1_m.
    + rewrite IH, Nat2Z.inj_succ, Z.pow_succ_r by lia.
      rewrite Z.div_div by lia. f_equal. lia.
    + rewrite IH. apply Z.div_pos; lia.
Qed.

Lemma shr_1_even (m : Z) :
  0 <= m ->
  shr_1 (Build_shr_record (2 * m) false false) = Build_shr_record m false false.
Proof. destruct m; [done|done|lia]. Qed.

(** Shifting out bits that are all zero loses nothing. *)
Lemma shr_iter_exact (n : nat) (m : Z) :
  0 <= m ->
  Nat.iter n shr_1 (Build_shr_record (m * 2 ^ Z.of_nat n) false false)
  = Build_shr_record m false false.
Proof.
  revert m. induction n as [|n IH]; intros m Hm.
  - cbn. f_equal. lia.
  - rewrite Nat.iter_succ_r.
    replace (m * 2 ^ Z.of_nat (S n)) with (2 * (m * 2 ^ Z.of_nat n))
      by (rewrite Nat2Z.inj_succ, Z.pow_succ_r by lia; lia).
    rewrite shr_1_even by (apply Z.mul_nonneg_nonneg; lia).
    by apply IH.
Qed.

Lemma Zdigits2_log2 (m : Z) : 0 < m -> Zdigits2 m = Z.log2 m + 1.
Proof.
  destruct m as [|p|p]; try lia. intros _. cbn [Zdigits2].
  induction p as [p IH|p IH|]; cbn [digits2_pos].
  - rewrite Pos2Z.inj_succ, IH, Pos2Z.inj_xI.
    rewrite (Z.log2_succ_double (Z.pos p)) by lia. lia.
  - rewrite Pos2Z.inj_succ, IH, Pos2Z.inj_xO.
    rewrite (Z.log2_double (Z.pos p)) by lia. lia.
  - reflexivity.
Qed.

Lemma Zdigits2_nonneg (m : Z) : 0 <= Zdigits2 m.
Proof. destruct m; cbn; lia. Qed.

(** A number of [d] digits is below [2^d], and the other way round. *)
Lemma Zdigits2_le (m d : Z) : 0 < m -> 0 <= d -> (Zdigits2 m <= d <-> m < 2 ^ d).
Proof.
  intros Hm Hd. rewrite Zdigits2_log2 by done.
  destruct (Z.eq_dec d 0) as [->|Hd0].
  - pose proof (Z.log2_nonneg m). cbn. lia.
  - rewrite (Z.log2_lt_pow2 m d) by lia. lia.
Qed.

Lemma shr_m_of_loc (m : Z) (l : location) : shr_m (shr_record_of_loc m l) = m.
Proof. by destruct l as [|[]]. Qed.

(** The mantissa and the exponent [shr_fexp] gives. *)
Lemma shr_fexp_spec (m e : Z) (l : location) :
  0 <= m ->
  let k := fexp prec emax (Zdigits2 m + e) - e in
  let '(mrs, e') := shr_fexp prec emax m e l in
  (0 < k -> shr_m mrs = m / 2 ^ k /\ e' = e + k)
  /\ (k <= 0 -> mrs = shr_record_of_loc m l /\ e' = e).
Proof.
  intros Hm k. unfold shr_fexp, shr. fold k.
  destruct k as [|p|p] eqn:Hk.
  - split; [lia|done].
  - split; [|lia]. intros _. split; [|done].
    rewrite iter_pos_nat, shr_iter_m by (by rewrite shr_m_of_loc).
    by rewrite shr_m_of_loc, positive_nat_Z.
  - split; [lia|done].
Qed.

Lemma fexp_unfold (e : Z) : fexp prec emax e = Z.max (e - 53) (-1074).
Proof. reflexivity. Qed.

Lemma is_binary64_fits53 (x : float) : is_binary64 x = true -> fits53 x.
Proof.
  destruct x as [| | |s m e]; try done. cbn -[fexp Z.sub].
  unfold bounded, canonical_mantissa. rewrite fexp_unfold.
  intros [Hc He]%andb_true_iff. apply Z.eqb_eq in Hc. apply Z.leb_le in He.
  unfold emax, prec in He. lia.
Qed.

Lemma round_nearest_even_nonneg (m : Z) (l : location) :
  0 <= m -> 0 <= round_nearest_even m l.
Proof.
  intros Hm. destruct l as [|[]]; cbn; try lia. destruct (Z.even m); lia.
Qed.

(** What [binary_round_aux] can return: a zero, an infinity or a finite
    float of at most 53 bits, with the sign it was given; never a NaN. *)
Lemma binary_round_aux_shape (sx : bool) (mx ex : Z) (lx : location) :
  0 <= mx ->
  binary_round_aux prec emax sx mx ex lx = S754_zero sx
  \/ binary_round_aux prec emax sx mx ex lx = S754_infinity sx
  \/ exists m e, binary_round_aux prec emax sx mx ex lx = S754_finite sx m e
                 /\ Zdigits2 (Zpos m) <= 53 /\ e <= 971.
Proof.
  intros Hmx. unfold binary_round_aux.
  pose proof (shr_fexp_spec mx ex lx Hmx) as H1.
  destruct (shr_fexp prec emax mx ex lx) as [mrs' e']. cbn zeta in H1.
  assert (0 <= shr_m mrs') as Hm1.
  { destruct H1 as [Hpos Hnon].
    destruct (Z_lt_le_dec 0 (fexp prec emax (Zdigits2 mx + ex) - ex)) as [Hk|Hk].
    - destruct (Hpos Hk) as [-> _]. apply Z.div_pos; lia.
    - destruct (Hnon Hk) as [-> _]. by rewrite shr_m_of_loc. }
  pose proof (round_nearest_even_nonneg _ (loc_of_shr_record mrs') Hm1) as Hm2.
  set (m2 := round_nearest_even (shr_m mrs') (loc_of_shr_record mrs')) in *.
  pose proof (shr_fexp_spec m2 e' loc_Exact Hm2) as H2.
  destruct (shr_fexp prec emax m2 e' loc_Exact) as [mrs'' e'']. cbn zeta in H2.
  rewrite fexp_unfold in H2. destruct H2 as [Hpos Hnon].
  destruct (shr_m mrs'') as [|m|m] eqn:Hm3; [by left| |].
  - destruct (e'' <=? emax - prec) eqn:He; [|by (right; left)].
    right; right. exists m, e''. split; [done|].
    apply Z.leb_le in He. split; [|unfold emax, prec in He; lia].
    apply Zdigits2_le; [lia|lia|].
    destruct (Z_lt_le_dec 0 (Z.max (Zdigits2 m2 + e' - 53) (-1074) - e')) as [Hk|Hk].
    + destruct (Hpos Hk) as [Hq _]. rewrite Hq.
      assert (0 < m2) as Hm2'.
      { destruct (Z.eq_dec m2 0) as [E|E]; [|lia].
        rewrite E, Zdiv_0_l in Hq. lia. }
      apply Z.div_lt_upper_bound; [lia|].
      rewrite <- Z.pow_add_r by lia.
      pose proof (proj1 (Zdigits2_le m2 (Zdigits2 m2) Hm2' (Zdigits2_nonneg m2))
                    (Z.le_refl _)) as Hlt.
      eapply Z.lt_le_trans; [exact Hlt|].
      apply Z.pow_le_mono_r; lia.
    + destruct (Hnon Hk) as [Hrec _]. rewrite Hrec in Hm3. cbn in Hm3.
      rewrite <- Hm3.
      pose proof (Zdigits2_nonneg m2).
      assert (Zdigits2 m2 <= 53) as Hd by lia.
      apply (Zdigits2_le m2 53); lia.
  - exfalso.
    destruct (Z_lt_le_dec 0 (Z.max (Zdigits2 m2 + e' - 53) (-1074) - e')) as [Hk|Hk].
    + destruct (Hpos Hk) as [Hq _].
      assert (0 <= m2 / 2 ^ (Z.max (Zdigits2 m2 + e' - 53) (-1074) - e'))
        by (apply Z.div_pos; lia). lia.
    + destruct (Hnon Hk) as [Hrec _]. rewrite Hrec in Hm3. cbn in Hm3. lia.
Qed.

Lemma Zdigits2_mul_pow2 (m k : Z) :
  0 < m -> 0 <= k -> Zdigits2 (m * 2 ^ k) = Zdigits2 m + k.
Proof.
  intros Hm Hk.
  assert (0 < 2 ^ k) by (apply Z.pow_pos_nonneg; lia).
  rewrite !Zdigits2_log2 by nia.
  rewrite Z.log2_mul_pow2 by lia. lia.
Qed.

(** [shr_fexp] on a mantissa whose bits to drop are all zero. *)
Lemma shr_fexp_exact (m k e : Z) :
  0 < m -> 0 <= k ->
  fexp prec emax (Zdigits2 (m * 2 ^ k) + e) = e + k ->
  shr_fexp prec emax (m * 2 ^ k) e loc_Exact
  = (Build_shr_record m false false, e + k).
Proof.
  intros Hm Hk Hf. unfold shr_fexp, shr. rewrite Hf.
  replace (e + k - e) with k by lia.
  destruct k as [|p|p]; [| |lia].
  - cbn [shr_record_of_loc]. f_equal; [f_equal|]; lia.
  - rewrite iter_pos_nat. cbn [shr_record_of_loc].
    rewrite <- (positive_nat_Z p) at 1.
    rewrite shr_iter_exact by lia. done.
Qed.

(** Rounding a number that needs no rounding gives the number back. *)
Lemma binary_round_aux_exact (sx : bool) (m : positive) (k e : Z) :
  0 <= k ->
  fexp prec emax (Zdigits2 (Zpos m * 2 ^ k) + e) = e + k ->
  e + k <= 971 ->
  binary_round_aux prec emax sx (Zpos m * 2 ^ k) e loc_Exact
  = S754_finite sx m (e + k).
Proof.
  intros Hk Hf He. unfold binary_round_aux.
  rewrite shr_fexp_exact by (done || lia).
  cbn [shr_m loc_of_shr_record round_nearest_even].
  assert (shr_fexp prec emax (Z.pos m) (e + k) loc_Exact
          = (Build_shr_record (Z.pos m) false false, e + k)) as ->.
  { pose proof (shr_fexp_exact (Z.pos m) 0 (e + k)) as Hx.
    rewrite Z.pow_0_r, Z.mul_1_r, Z.add_0_r in Hx. apply Hx; [lia|lia|].
    rewrite Zdigits2_mul_pow2 in Hf by lia.
    rewrite <- Hf. f_equal. lia. }
  cbn [shr_m].
  assert ((e + k <=? emax - prec) = true) as -> by (apply Z.leb_le; unfold emax, prec; lia).
  done.
Qed.

Lemma pos_iter_xO (n k : positive) :
  Zpos (Pos.iter xO n k) = Zpos n * 2 ^ Zpos k.
Proof.
  rewrite Pos2Nat.inj_iter, <- (positive_nat_Z k).
  induction (Pos.to_nat k) as [|j IH].
  - cbn. lia.
  - cbn [nat_rect]. rewrite Pos2Z.inj_xO, IH, Nat2Z.inj_succ, Z.pow_succ_r by lia.
    lia.
Qed.

(** The float nearest to an integer that a binary64 can hold is that
    integer. *)
Lemma binary_round_exact (sx : bool) (n : positive) :
  let d := Zdigits2 (Zpos n) in
  d <= 1024 ->
  (53 < d -> Zpos n mod 2 ^ (d - 53) = 0) ->
  exists m e,
    binary_round prec emax sx n 0 = S754_finite sx m e
    /\ round_half_even (Zpos m) e = Zpos n.
Proof.
  intros d Hd Hrep. unfold binary_round.
  assert (1 <= d) as Hd1.
  { unfold d. cbn [Zdigits2]. lia. }
  unfold shl_align. rewrite Z.add_0_r, fexp_unfold.
  change (Z.pos (digits2_pos n)) with d.
  assert (d = Zdigits2 (Z.pos n)) as Hdef by reflexivity. clearbody d.
  destruct (Z_lt_le_dec d 53) as [Hlt|Hge].
  - (* fewer than 53 bits: the mantissa is moved up *)
    replace (Z.max (d - 53) (-1074) - 0) with (Z.neg (Z.to_pos (53 - d)))
      by (rewrite <- Pos2Z.opp_pos, Z2Pos.id; lia).
    cbn beta iota.
    replace (Z.max (d - 53) (-1074)) with (d - 53) by lia.
    exists (Pos.iter xO n (Z.to_pos (53 - d))), (d - 53 + 0).
    split.
    + rewrite <- binary_round_aux_exact; [|lia| |lia].
      * by rewrite pos_iter_xO, Z2Pos.id, Z.pow_0_r, Z.mul_1_r by lia.
      * rewrite pos_iter_xO, Z2Pos.id, Z.pow_0_r, Z.mul_1_r by lia.
        rewrite fexp_unfold, Zdigits2_mul_pow2 by lia. lia.
    + unfold round_half_even.
      destruct (0 <=? d - 53 + 0) eqn:E; [lia|].
      rewrite pos_iter_xO, Z2Pos.id by lia.
      replace (- (d - 53 + 0)) with (53 - d) by lia.
      assert (0 < 2 ^ (53 - d)) by (apply Z.pow_pos_nonneg; lia).
      rewrite Z_mod_mult, Z_div_mult by lia.
      rewrite Z.mul_0_r.
      destruct (Z.compare_spec 0 (2 ^ (53 - d))); [lia|done|lia].
  - (* 53 bits or more: the low bits, all zero, are dropped *)
    assert (exists m : positive, Zpos n = Zpos m * 2 ^ (d - 53)) as [m Hm].
    { destruct (Z.eq_dec d 53) as [E|E].
      - exists n. rewrite E. cbn. lia.
      - assert (0 < 2 ^ (d - 53)) by (apply Z.pow_pos_nonneg; lia).
        pose proof (Z.div_mod (Zpos n) (2 ^ (d - 53))) as Hdm.
        rewrite Hrep in Hdm by lia.
        assert (0 < Zpos n / 2 ^ (d - 53)) by nia.
        exists (Z.to_pos (Zpos n / 2 ^ (d - 53))). rewrite Z2Pos.id by lia. lia. }
    replace (Z.max (d - 53) (-1074) - 0) with (d - 53) by lia.
    assert (match d - 53 with
            | Z.neg d0 => (Pos.iter xO n d0, Z.max (d - 53) (-1074))
            | _ => (n, 0)
            end = (n, 0)) as ->.
    { destruct (d - 53) eqn:E; first [done|lia]. }
    exists m, (0 + (d - 53)). split.
    + rewrite Hm. apply binary_round_aux_exact; [lia| |lia].
      rewrite <- Hm, Z.add_0_r, <- Hdef, fexp_unfold. lia.
    + unfold round_half_even.
      destruct (0 <=? 0 + (d - 53)) eqn:E; [|lia].
      rewrite Hm. by rewrite Z.add_0_l.
Qed.

Lemma round_half_even_nonneg (m e : Z) : 0 <= m -> 0 <= round_half_even m e.
Proof.
  intros Hm. unfold round_half_even.
  destruct (0 <=? e) eqn:E.
  - apply Z.leb_le in E. apply Z.mul_nonneg_nonneg; [lia|]. by apply Z.pow_nonneg.
  - apply Z.leb_gt in E.
    assert (0 < 2 ^ (- e)) by (apply Z.pow_pos_nonneg; lia).
    assert (0 <= m / 2 ^ (- e)) by (apply Z.div_pos; lia).
    destruct (_ ?= _); [destruct (Z.even _)| |]; lia.
Qed.

Lemma round_half_even_le (m e : Z) :
  0 <= m -> e < 0 -> round_half_even m e <= m / 2 + 1.
Proof.
  intros Hm He. unfold round_half_even.
  destruct (0 <=? e) eqn:E; [apply Z.leb_le in E; lia|].
  assert (m / 2 ^ (- e) <= m / 2).
  { replace (- e) with (1 + (- e - 1)) by lia.
    rewrite Z.pow_add_r, Z.pow_1_r by lia.
    assert (0 < 2 ^ (- e - 1)) by (apply Z.pow_pos_nonneg; lia).
    rewrite <- Z.div_div by lia.
    apply Z.div_le_upper_bound; [lia|].
    assert (0 <= m / 2) by (apply Z.div_pos; lia). nia. }
  destruct (_ ?= _); [destruct (Z.even _)| |]; lia.
Qed.

(** The integer nearest to a binary64 is an integer a binary64 holds:
    turned into a float again and rounded, it comes back. *)
Lemma round_half_even_representable (sx : bool) (m : positive) (e : Z) (n : positive) :
  Zdigits2 (Zpos m) <= 53 -> e <= 971 ->
  round_half_even (Zpos m) e = Zpos n ->
  exists m' e',
    binary_round prec emax sx n 0 = S754_finite sx m' e'
    /\ round_half_even (Zpos m') e' = Zpos n.
Proof.
  intros Hm He Hn.
  assert (Zpos m < 2 ^ 53) as Hm53 by (by apply Zdigits2_le).
  apply binary_round_exact.
  - destruct (Z_lt_le_dec e 0) as [Hneg|Hpos].
    + pose proof (round_half_even_le (Zpos m) e ltac:(lia) Hneg) as Hle.
      rewrite Hn in Hle.
      assert (Zpos m / 2 < 2 ^ 52).
      { apply Z.div_lt_upper_bound; [lia|]. change (2 * 2 ^ 52) with (2 ^ 53). lia. }
      assert (Zdigits2 (Z.pos n) <= 53); [|lia].
      apply Zdigits2_le; [lia|lia|].
      change (2 ^ 53) with (2 * 2 ^ 52). lia.
    + unfold round_half_even in Hn.
      destruct (0 <=? e) eqn:E; [|apply Z.leb_gt in E; lia].
      rewrite <- Hn, Zdigits2_mul_pow2 by lia. lia.
  - intros Hbig.
    destruct (Z_lt_le_dec e 0) as [Hneg|Hpos].
    + exfalso.
      pose proof (round_half_even_le (Zpos m) e ltac:(lia) Hneg) as Hle.
      rewrite Hn in Hle.
      assert (Zpos m / 2 < 2 ^ 52).
      { apply Z.div_lt_upper_bound; [lia|]. change (2 * 2 ^ 52) with (2 ^ 53). lia. }
      assert (Zdigits2 (Z.pos n) <= 53); [|lia].
      apply Zdigits2_le; [lia|lia|].
      change (2 ^ 53) with (2 * 2 ^ 52). lia.
    + unfold round_half_even in Hn.
      destruct (0 <=? e) eqn:E; [|apply Z.leb_gt in E; lia].
      rewrite <- Hn in *. rewrite Zdigits2_mul_pow2 in * by lia.
      set (j := Zdigits2 (Z.pos m) + e - 53) in *.
      replace e with ((e - j) + j) at 1 by lia.
      rewrite Z.pow_add_r, Z.mul_assoc by lia.
      apply Z_mod_mult.
Qed.


(** ** Integers as text *)

Lemma digit_char_spec (d : Z) :
  0 <= d < 10 -> is_digit (digit_char d) = true /\ digit_val (digit_char d) = d.
Proof.
  intros Hd.
  assert (d = 0 \/ d = 1 \/ d = 2 \/ d = 3 \/ d = 4 \/ d = 5 \/ d = 6 \/ d = 7
          \/ d = 8 \/ d = 9) as Hc by lia.
  destruct Hc as [->|[->|[->|[->|[->|[->|[->|[->|[->| ->]]]]]]]]]; by vm_compute.
Qed.

Lemma digits_of_all_digits (fuel : nat) (n : Z) (acc : list ascii) :
  0 <= n -> Forall (fun c => is_digit c = true) acc ->
  Forall (fun c => is_digit c = true) (digits_of fuel n acc).
Proof.
  revert n acc. induction fuel as [|fuel IH]; intros n acc Hn Hacc; [done|].
  cbn [digits_of].
  assert (Forall (fun c => is_digit c = true) (digit_char (n mod 10) :: acc)) as Hacc'.
  { constructor; [|done]. apply digit_char_spec. apply Z.mod_pos_bound. lia. }
  destruct (n <? 10); [done|]. apply IH; [|done].
  apply Z.div_pos; lia.
Qed.

Lemma digits_of_nonempty (fuel : nat) (n : Z) (acc : list ascii) :
  digits_of (S fuel) n acc <> [].
Proof.
  revert n acc. induction fuel as [|fuel IH]; intros n acc.
  - cbn. by destruct (n <? 10).
  - cbn [digits_of]. destruct (n <? 10); [done|]. apply IH.
Qed.

Lemma digits_of_value (fuel : nat) (n : Z) (acc : list ascii) :
  0 <= n < 2 ^ Z.of_nat fuel ->
  fold_left (fun a c => 10 * a + digit_val c) (digits_of fuel n acc) 0
  = fold_left (fun a c => 10 * a + digit_val c) acc n.
Proof.
  revert n acc. induction fuel as [|fuel IH]; intros n acc Hn.
  - cbn in Hn. cbn [digits_of]. by replace n with 0 by lia.
  - cbn [digits_of].
    assert (digit_val (digit_char (n mod 10)) = n mod 10) as Hd.
    { apply digit_char_spec. apply Z.mod_pos_bound. lia. }
    destruct (n <? 10) eqn:E.
    + apply Z.ltb_lt in E. cbn [fold_left]. rewrite Hd, Z.mod_small by lia.
      by rewrite Z.mul_0_r, Z.add_0_l.
    + rewrite IH.
      * cbn [fold_left]. rewrite Hd. f_equal.
        pose proof (Z.div_mod n 10). lia.
      * rewrite Nat2Z.inj_succ, Z.pow_succ_r in Hn by lia.
        split; [apply Z.div_pos; lia|].
        apply Z.div_lt_upper_bound; lia.
Qed.

Lemma decimal_digits_spec (n : Z) :
  0 <= n ->
  decimal_digits n <> []
  /\ Forall (fun c => is_digit c = true) (decimal_digits n)
  /\ digits_value (string_of_list_ascii (decimal_digits n)) = n.
Proof.
  intros Hn. unfold decimal_digits. split; [apply digits_of_nonempty|].
  split; [by apply digits_of_all_digits|].
  unfold digits_value. rewrite list_ascii_of_string_of_list_ascii.
  rewrite digits_of_value; [done|].
  split; [done|].
  rewrite Nat2Z.inj_succ, Z2Nat.id by apply Z.log2_nonneg.
  destruct (Z.eq_dec n 0) as [->|Hne]; [done|].
  apply Z.log2_spec. lia.
Qed.

(** ** Grouping *)

Lemma group3_ind (P : list ascii -> Prop) :
  P [] -> (forall a, P [a]) -> (forall a b, P [a; b]) -> (forall a b c, P [a; b; c]) ->
  (forall a b c d rest, P (d :: rest) -> P (a :: b :: c :: d :: rest)) ->
  forall l, P l.
Proof.
  intros H0 H1 H2 H3 Hstep l.
  assert (forall n l, (length l <= n)%nat -> P l) as Hall.
  { clear l. induction n as [|n IH]; intros l Hl.
    - destruct l; [done|cbn in Hl; lia].
    - destruct l as [|a [|b [|c [|d rest]]]]; try done.
      apply Hstep, IH. cbn in Hl |- *. lia. }
  by apply (Hall (length l)).
Qed.

Lemma group3_map (f : ascii -> ascii) (sep : ascii) (l : list ascii) :
  map f (group3 sep l) = group3 (f sep) (map f l).
Proof.
  induction l as [| | | |a b c d rest IH] using group3_ind; try done.
  change (group3 sep (a :: b :: c :: d :: rest))
    with (a :: b :: c :: sep :: group3 sep (d :: rest)).
  cbn [map] in *.
  change (group3 (f sep) (f a :: f b :: f c :: f d :: map f rest))
    with (f a :: f b :: f c :: f sep :: group3 (f sep) (f d :: map f rest)).
  by rewrite IH.
Qed.

Lemma group3_filter (p : ascii -> bool) (sep : ascii) (l : list ascii) :
  p sep = false -> Forall (fun c => p c = true) l ->
  List.filter p (group3 sep l) = l.
Proof.
  intros Hsep.
  induction l as [| | | |a b c d rest IH] using group3_ind; intros Hl.
  - done.
  - cbn. by rewrite (Forall_inv Hl).
  - apply Forall_cons in Hl as [Ha Hl]. apply Forall_cons in Hl as [Hb _].
    cbn. by rewrite Ha, Hb.
  - apply Forall_cons in Hl as [Ha Hl]. apply Forall_cons in Hl as [Hb Hl].
    apply Forall_cons in Hl as [Hc _]. cbn. by rewrite Ha, Hb, Hc.
  - apply Forall_cons in Hl as [Ha Hl]. apply Forall_cons in Hl as [Hb Hl].
    apply Forall_cons in Hl as [Hc Hl].
    change (group3 sep (a :: b :: c :: d :: rest))
      with (a :: b :: c :: sep :: group3 sep (d :: rest)).
    cbn [List.filter]. rewrite Ha, Hb, Hc, Hsep.
    by rewrite (IH Hl).
Qed.


(** ** Replacing one character *)

Lemma prefix_empty (s : string) : String.prefix "" s = true.
Proof. by destruct s. Qed.

Lemma str_replace_char (c : ascii) (new : string) (l : list ascii) :
  str_replace (String c "") new (string_of_list_ascii l)
  = str_concat (map (fun x => if Ascii.eqb x c then new else String x "") l).
Proof.
  unfold str_replace. induction l as [|x l IH]; [done|].
  cbn [string_of_list_ascii replace_from String.prefix map str_concat String.length].
  rewrite prefix_empty.
  destruct (ascii_dec c x) as [->|Hne].
  - rewrite Ascii.eqb_refl. cbn [Nat.sub]. by rewrite IH.
  - assert (Ascii.eqb x c = false) as -> by (apply Ascii.eqb_neq; congruence).
    by rewrite IH.
Qed.

Lemma str_concat_chars (f : ascii -> ascii) (l : list ascii) :
  str_concat (map (fun x => String (f x) "") l) = string_of_list_ascii (map f l).
Proof. induction l as [|x l IH]; [done|]. cbn. by rewrite <- IH. Qed.

Lemma str_concat_filter (p : ascii -> bool) (l : list ascii) :
  str_concat (map (fun x => if p x then String x "" else "") l)
  = string_of_list_ascii (List.filter p l).
Proof.
  induction l as [|x l IH]; [done|]. cbn [map str_concat List.filter].
  rewrite IH. by destruct (p x).
Qed.

Lemma map_ext_Forall {A B : Type} (f g : A -> B) (l : list A) :
  Forall (fun x => f x = g x) l -> map f l = map g l.
Proof. induction 1; cbn; congruence. Qed.

Lemma digit_differs (c x : ascii) :
  is_digit c = true -> is_digit x = false -> Ascii.eqb c x = false.
Proof. intros Hc Hx. apply Ascii.eqb_neq. intros ->. congruence. Qed.

(** The text of an integer with groups: the list of its characters. *)
Lemma format_grouped_chars (sep : ascii) (n : Z) :
  format_grouped sep n =
    string_of_list_ascii
      ((if n <? 0 then ["-"%char] else [])
       ++ rev (group3 sep (rev (decimal_digits (Z.abs n))))).
Proof. unfold format_grouped. by destruct (n <? 0). Qed.

Lemma str_of_Z_chars (n : Z) :
  str_of_Z n =
    string_of_list_ascii
      ((if n <? 0 then ["-"%char] else []) ++ decimal_digits (Z.abs n)).
Proof.
  unfold str_of_Z. destruct (n <? 0) eqn:E.
  - apply Z.ltb_lt in E. by rewrite Z.abs_neq by lia.
  - apply Z.ltb_ge in E. by rewrite Z.abs_eq by lia.
Qed.

(** [f"{n:,}".replace(",", ".")] is the grouping with periods. *)
Lemma format_comma_periods (n : Z) :
  str_replace "," "." (format_comma n) = format_grouped "." n.
Proof.
  unfold format_comma. rewrite !format_grouped_chars, str_replace_char.
  pose proof (decimal_digits_spec (Z.abs n) (Z.abs_nonneg n)) as (_ & Hdig & _).
  set (f := fun x : ascii => if Ascii.eqb x "," then "."%char else x).
  rewrite (map_ext_Forall _ (fun x => String (f x) "")).
  2: { apply Forall_forall. intros x _. unfold f. by destruct (Ascii.eqb x ","). }
  rewrite str_concat_chars. f_equal.
  rewrite map_app, map_rev, group3_map, map_rev. f_equal.
  - by destruct (n <? 0).
  - change (f ","%char) with "."%char. do 3 f_equal.
    rewrite <- (map_id (decimal_digits (Z.abs n))) at 2.
    apply map_ext_Forall. eapply Forall_impl; [exact Hdig|].
    intros c Hc. unfold f. by rewrite (digit_differs c ","%char Hc).
Qed.

(** Taking the periods out of the grouped text gives [str(n)]. *)
Lemma format_grouped_ungroup (n : Z) :
  str_replace "." "" (format_grouped "." n) = str_of_Z n.
Proof.
  rewrite format_grouped_chars, str_of_Z_chars, str_replace_char.
  pose proof (decimal_digits_spec (Z.abs n) (Z.abs_nonneg n)) as (_ & Hdig & _).
  set (p := fun x : ascii => negb (Ascii.eqb x ".")).
  rewrite (map_ext_Forall _ (fun x => if p x then String x "" else "")).
  2: { apply Forall_forall. intros x _. unfold p. by destruct (Ascii.eqb x "."). }
  rewrite str_concat_filter. f_equal.
  rewrite List.filter_app, List.filter_rev. f_equal.
  - by destruct (n <? 0).
  - rewrite group3_filter; [by rewrite rev_involutive|done|].
    apply Forall_rev. eapply Forall_impl; [exact Hdig|].
    intros c Hc. unfold p. by rewrite (digit_differs c "."%char Hc).
Qed.


(** ** Reading an integer back *)

Lemma is_digit_code (c : ascii) : is_digit c = true -> (48 <= code c <= 57)%N.
Proof.
  unfold is_digit. intros [H1 H2]%andb_true_iff.
  apply N.leb_le in H1, H2. lia.
Qed.

Lemma digit_not_space (c : ascii) : is_digit c = true -> is_space_float c = false.
Proof.
  intros Hc%is_digit_code. unfold is_space_float.
  destruct (9 <=? code c)%N eqn:E1; destruct (code c <=? 13)%N eqn:E2;
    destruct (code c =? 32)%N eqn:E3; destruct (code c =? 133)%N eqn:E4;
    destruct (code c =? 160)%N eqn:E5; try done;
    try apply N.leb_le in E2; try apply N.eqb_eq in E3;
    try apply N.eqb_eq in E4; try apply N.eqb_eq in E5; lia.
Qed.

Lemma digit_lower (c : ascii) : is_digit c = true -> ascii_lower c = c.
Proof.
  intros Hc%is_digit_code. unfold ascii_lower.
  destruct (65 <=? code c)%N eqn:E; [|done].
  apply N.leb_le in E. lia.
Qed.

Lemma digit_code_neq (c : ascii) (k : N) :
  is_digit c = true -> (k < 48 \/ 57 < k)%N -> (code c =? k)%N = false.
Proof. intros Hc%is_digit_code Hk. apply N.eqb_neq. lia. Qed.

Lemma strip_unspaced (sp : ascii -> bool) (l : list ascii) :
  Forall (fun c => sp c = false) l ->
  rstrip_with sp (lstrip_with sp (string_of_list_ascii l)) = string_of_list_ascii l.
Proof.
  intros Hl.
  assert (lstrip_with sp (string_of_list_ascii l) = string_of_list_ascii l) as ->.
  { destruct Hl as [|c l Hc Hl]; [done|]. cbn. by rewrite Hc. }
  induction Hl as [|c l Hc Hl IH]; [done|].
  cbn [string_of_list_ascii rstrip_with]. rewrite IH.
  destruct (string_of_list_ascii l); [by rewrite Hc|done].
Qed.

Lemma digit_run_digits (l : list ascii) (after_digit : bool) :
  Forall (fun c => is_digit c = true) l ->
  digit_run after_digit (string_of_list_ascii l) = (string_of_list_ascii l, "").
Proof.
  intros Hl. revert after_digit.
  induction Hl as [|c l Hc Hl IH]; intros after_digit; [done|].
  cbn [string_of_list_ascii digit_run]. by rewrite Hc, IH.
Qed.

Lemma parse_floatnumber_digits (l : list ascii) :
  l <> [] -> Forall (fun c => is_digit c = true) l ->
  parse_floatnumber (string_of_list_ascii l)
  = Some (digits_value (string_of_list_ascii l), 0).
Proof.
  intros Hne Hl. unfold parse_floatnumber.
  rewrite digit_run_digits by done.
  assert (nonempty (string_of_list_ascii l) = true) as -> by (by destruct l).
  cbn. by rewrite append_empty_r.
Qed.

Lemma digits_not_keyword (c : ascii) (l : list ascii) :
  is_digit c = true ->
  let low := str_lower (string_of_list_ascii (c :: l)) in
  String.eqb low "inf" = false /\ String.eqb low "infinity" = false
  /\ String.eqb low "nan" = false.
Proof.
  intros Hc. cbn [string_of_list_ascii str_lower]. rewrite (digit_lower c Hc).
  repeat split; cbn [String.eqb].
  - by rewrite (digit_differs c "i"%char Hc).
  - by rewrite (digit_differs c "i"%char Hc).
  - by rewrite (digit_differs c "n"%char Hc).
Qed.

(** [float(str(n))] is the binary64 nearest to [n]. *)
Lemma float_of_str_of_Z (n : Z) :
  float_of_str (str_of_Z n) =
    Ok match n with
       | 0 => S754_zero false
       | Zpos p => binary_round prec emax false p 0
       | Zneg p => binary_round prec emax true p 0
       end.
Proof.
  pose proof (decimal_digits_spec (Z.abs n) (Z.abs_nonneg n)) as (Hne & Hdig & Hval).
  rewrite str_of_Z_chars. unfold float_of_str.
  rewrite strip_unspaced.
  2: { apply Forall_app. split.
       - destruct (n <? 0); [|done]. by repeat constructor.
       - eapply Forall_impl; [exact Hdig|]. apply digit_not_space. }
  destruct (decimal_digits (Z.abs n)) as [|c l] eqn:Hds; [done|].
  apply Forall_cons in Hdig as Hc. destruct Hc as [Hc _].
  assert (split_sign (string_of_list_ascii
            ((if n <? 0 then ["-"%char] else []) ++ c :: l))
          = (n <? 0, string_of_list_ascii (c :: l))) as ->.
  { destruct (n <? 0); [done|]. cbn [app string_of_list_ascii split_sign].
    by rewrite !(digit_code_neq c) by (done || lia). }
  destruct (digits_not_keyword c l Hc) as (K1 & K2 & K3).
  cbn zeta in K1, K2, K3. rewrite K1, K2, K3. cbn [orb].
  rewrite parse_floatnumber_digits, Hval by done.
  f_equal. unfold float_of_decimal.
  change (0 <=? 0) with true. change (Z.to_pos (10 ^ 0)) with 1%positive.
  destruct n as [|p|p]; [done| |].
  - change (Z.abs (Z.pos p)) with (Z.pos p). cbv iota. by rewrite Pos.mul_1_r.
  - change (Z.abs (Z.neg p)) with (Z.pos p). cbv iota. by rewrite Pos.mul_1_r.
Qed.


(** ** Floats the program can meet *)

Lemma binary_round_aux_fits53 (sx : bool) (mx ex : Z) (lx : location) :
  0 <= mx -> fits53 (binary_round_aux prec emax sx mx ex lx).
Proof.
  intros Hmx.
  destruct (binary_round_aux_shape sx mx ex lx Hmx)
    as [->|[->|(m & e & -> & Hd & He)]]; done.
Qed.

Lemma binary_round_fits53 (sx : bool) (mx : positive) (ex : Z) :
  fits53 (binary_round prec emax sx mx ex).
Proof.
  unfold binary_round. destruct (shl_align _ _ _) as [mz ez].
  by apply binary_round_aux_fits53.
Qed.

Lemma SFdiv_fits53 (sx sy : bool) (mx my : positive) (ex ey : Z) :
  fits53 (SFdiv prec emax (S754_finite sx mx ex) (S754_finite sy my ey)).
Proof.
  unfold SFdiv, SFdiv_core_binary.
  set (s := _ - _ - _).
  set (m' := match s with Z.pos _ => Z.shiftl (Z.pos mx) s | 0 => Z.pos mx | _ => 0 end).
  assert (0 <= m') as Hm'.
  { unfold m'. destruct s; [lia| |lia]. by apply Z.shiftl_nonneg. }
  pose proof (Z.div_pos m' (Z.pos my) Hm' ltac:(lia)) as Hq.
  unfold Z.div in Hq. destruct (Z.div_eucl m' (Z.pos my)) as [q r].
  by apply binary_round_aux_fits53.
Qed.

Lemma float_of_decimal_fits53 (sign : bool) (m e10 : Z) :
  fits53 (float_of_decimal sign m e10).
Proof.
  unfold float_of_decimal. destruct m as [|p|p]; try done.
  destruct (0 <=? e10); [apply binary_round_fits53|apply SFdiv_fits53].
Qed.

Lemma float_of_str_fits53 (s : string) (x : float) :
  float_of_str s = Ok x -> fits53 x.
Proof.
  unfold float_of_str. destruct (split_sign _) as [neg body].
  destruct (_ || _)%bool; [by intros [= <-]|].
  destruct (String.eqb _ "nan"); [by intros [= <-]|].
  destruct (parse_floatnumber body) as [[m e10]|]; [|done].
  intros [= <-]. apply float_of_decimal_fits53.
Qed.

Lemma float_of_int_fits53 (n : Z) (x : float) :
  float_of_int n = Ok x -> fits53 x.
Proof.
  unfold float_of_int, float_of_Z, binary_normalize.
  destruct n as [|p|p].
  - by intros [= <-].
  - pose proof (binary_round_fits53 false p 0) as Hf.
    destruct (binary_round prec emax false p 0); try done; by intros [= <-].
  - pose proof (binary_round_fits53 true p 0) as Hf.
    destruct (binary_round prec emax true p 0); try done; by intros [= <-].
Qed.

(** The integer nearest to a float of the program, read back from its
    decimal text, rounds to itself. *)
Lemma round_of_str_of_round (x : float) (n : Z) :
  fits53 x -> py_round x = Ok n ->
  exists y, float_of_str (str_of_Z n) = Ok y /\ py_round y = Ok n.
Proof.
  intros Hx Hn. rewrite float_of_str_of_Z.
  destruct x as [s0| | |s m e]; try done.
  - injection Hn as <-. by eexists.
  - cbn [py_round] in Hn. injection Hn as <-. cbn [fits53] in Hx.
    destruct Hx as [Hd He].
    pose proof (round_half_even_nonneg (Zpos m) e ltac:(lia)) as Hnn.
    destruct (round_half_even (Z.pos m) e) as [|p|p] eqn:Hr; [| |lia].
    + destruct s; by eexists.
    + destruct (round_half_even_representable s m e p Hd He Hr)
        as (m' & e' & Hb & Hr').
      exists (S754_finite s m' e').
      destruct s; (split; [by rewrite <- Hb|]); cbn [py_round]; by rewrite Hr'.
Qed.


(** ** The currency formatter *)

Section Formatter.

Context `{PyLib}.

Lemma fmt_idr_number (v : value) (x : float) (n : Z) :
  py_float v = Ok x -> py_round x = Ok n ->
  fmt_idr v = Ok (format_grouped "." n).
Proof.
  intros Hx Hn. unfold fmt_idr. rewrite Hx. cbn [mbind result_bind].
  rewrite Hn. cbn [mbind result_bind try_except]. by rewrite format_comma_periods.
Qed.

Lemma fmt_idr_not_converted (v : value) (e : exn) :
  py_float v = Raise e -> e <> OverflowError -> fmt_idr v = Ok (py_str v).
Proof.
  intros Hx He.
  assert (ValueError_or_TypeError e = true) as Hc.
  { destruct v as [|s|n|x]; cbn [py_float] in Hx.
    - by injection Hx as <-.
    - by rewrite (float_of_str_raises_ValueError s e Hx).
    - unfold float_of_int in Hx.
      destruct (float_of_Z n); try discriminate. injection Hx as <-. done.
    - discriminate. }
  unfold fmt_idr. rewrite Hx. cbn [mbind result_bind try_except]. by rewrite Hc.
Qed.

Lemma fmt_idr_nan (v : value) :
  py_float v = Ok S754_nan -> fmt_idr v = Ok (py_str v).
Proof. intros Hx. unfold fmt_idr. by rewrite Hx. Qed.

Lemma fmt_idr_infinity (v : value) (s : bool) :
  py_float v = Ok (S754_infinity s) -> fmt_idr v = Raise OverflowError.
Proof. intros Hx. unfold fmt_idr. by rewrite Hx. Qed.

Lemma py_round_finite (x : float) :
  float_is_finite x = true -> exists n, py_round x = Ok n.
Proof. destruct x; try done; by eexists. Qed.

(** [round_half_even] gives an integer nearest to [m * 2^e]. *)
Lemma round_half_even_nearest (m e : Z) :
  0 <= m ->
  (0 <= e -> round_half_even m e = m * 2 ^ e)
  /\ (e < 0 -> 2 * Z.abs (round_half_even m e * 2 ^ (- e) - m) <= 2 ^ (- e)).
Proof.
  intros Hm. unfold round_half_even. split; intros He.
  - destruct (0 <=? e) eqn:E; [done|apply Z.leb_gt in E; lia].
  - destruct (0 <=? e) eqn:E; [apply Z.leb_le in E; lia|].
    assert (0 < 2 ^ (- e)) as Hp by (apply Z.pow_pos_nonneg; lia).
    pose proof (Z.div_mod m (2 ^ (- e)) ltac:(lia)) as Hdm.
    pose proof (Z.mod_pos_bound m (2 ^ (- e)) Hp) as Hr.
    set (d := 2 ^ (- e)) in *. set (q := m / d) in *. set (r := m mod d) in *.
    destruct (Z.compare_spec (2 * r) d); [destruct (Z.even q)| |]; nia.
Qed.

(** C5, as amended.  [fmt_idr] returns a string for every value whose
    conversion to a float neither overflows nor gives an infinity: a
    value that converts to a finite float is rounded to a nearest
    integer (ties to even) and grouped with periods; a value that does
    not convert, or converts to NaN, is returned as [str(value)], not
    trimmed. *)
Theorem C5_fmt_idr (v : value) :
  (forall x, py_float v = Ok x -> float_is_finite x = true ->
     exists n, py_round x = Ok n /\ fmt_idr v = Ok (format_grouped "." n)
               /\ str_replace "." "" (format_grouped "." n) = str_of_Z n)
  /\ (forall s m e, py_float v = Ok (S754_finite s m e) ->
        exists n, py_round (S754_finite s m e) = Ok (cond_Zopp s n)
                  /\ (0 <= e -> n = Zpos m * 2 ^ e)
                  /\ (e < 0 -> 2 * Z.abs (n * 2 ^ (- e) - Zpos m) <= 2 ^ (- e)))
  /\ (forall e, py_float v = Raise e -> e <> OverflowError ->
        fmt_idr v = Ok (py_str v))
  /\ (py_float v = Ok S754_nan -> fmt_idr v = Ok (py_str v))
  /\ ((forall s, py_float v <> Ok (S754_infinity s)) ->
      py_float v <> Raise OverflowError ->
      exists t, fmt_idr v = Ok t).
Proof.
  repeat split.
  - intros x Hx Hfin. destruct (py_round_finite x Hfin) as [n Hn].
    exists n. split; [done|]. split; [by apply (fmt_idr_number v x)|].
    apply format_grouped_ungroup.
  - intros s m e Hx. exists (round_half_even (Zpos m) e). split; [done|].
    apply round_half_even_nearest. lia.
  - apply fmt_idr_not_converted.
  - apply fmt_idr_nan.
  - intros Hinf Hov. destruct (py_float v) as [x|e] eqn:Hx.
    + destruct x as [s|s| |s m e].
      * eexists. by apply (fmt_idr_number v (S754_zero s) 0).
      * by destruct (Hinf s).
      * eexists. by apply fmt_idr_nan.
      * eexists. by eapply (fmt_idr_number v (S754_finite s m e)).
    + eexists. apply (fmt_idr_not_converted v e Hx). congruence.
Qed.

(** C7.  For a value that converts to a finite float, formatting it,
    taking the periods out of the result, reading that back and
    formatting again gives the first string. *)
Theorem C7_format_round_trip (v : value) (x : float) :
  py_float v = Ok x ->
  float_is_finite x = true ->
  match v with VFloat y => is_binary64 y = true | _ => True end ->
  exists s, fmt_idr v = Ok s
            /\ fmt_idr (VStr (str_replace "." "" s)) = Ok s.
Proof.
  intros Hx Hfin Hwf.
  assert (fits53 x) as Hfit.
  { destruct v as [|s|n|y]; cbn [py_float] in Hx.
    - done.
    - by apply (float_of_str_fits53 s).
    - by apply (float_of_int_fits53 n).
    - injection Hx as <-. by apply is_binary64_fits53. }
  destruct (py_round_finite x Hfin) as [n Hn].
  exists (format_grouped "." n). split; [by apply (fmt_idr_number v x)|].
  rewrite format_grouped_ungroup.
  destruct (round_of_str_of_round x n Hfit Hn) as (y & Hy & Hyn).
  by apply (fmt_idr_number _ y).
Qed.

(** C6: on an infinite total the word conversion fails, the fallback
    [fmt_idr(total)] raises as well, and the caller gets the
    exception. *)
Theorem C6_to_terbilang_infinity (s : bool) :
  to_terbilang (S754_infinity s) = Raise OverflowError.
Proof. reflexivity. Qed.

(** What [to_terbilang] does otherwise: the capitalised words with the
    suffix when the conversion succeeds, [fmt_idr(total)] when it
    fails. *)
Lemma to_terbilang_spec (total : float) :
  (forall n words, py_round total = Ok n -> num2words_id n = Ok words ->
     to_terbilang total = Ok (str_capitalize words +:+ " rupiah"))
  /\ (forall n e, py_round total = Ok n -> num2words_id n = Raise e ->
        to_terbilang total = fmt_idr (VFloat total))
  /\ (forall e, py_round total = Raise e ->
        to_terbilang total = fmt_idr (VFloat total)).
Proof.
  unfold to_terbilang. repeat split.
  - intros n words -> Hw. cbn. by rewrite Hw.
  - intros n e -> Hw. cbn. by rewrite Hw.
  - by intros e ->.
Qed.

End Formatter.


(** ** Line items *)

Section Lines.

Context `{PyLib}.

Lemma float_is_negative_sign (x : float) :
  float_is_negative x =
    match x with
    | S754_finite s _ _ | S754_infinity s => s
    | _ => false
    end.
Proof. by destruct x as [[]|[]| |[] m e]. Qed.

(** The product of two finite floats that are not negative is neither
    negative nor NaN. *)
Lemma float_mul_not_negative (q p : float) :
  float_is_finite q = true -> float_is_negative q = false ->
  float_is_finite p = true -> float_is_negative p = false ->
  float_is_negative (float_mul q p) = false
  /\ float_is_nan (float_mul q p) = false.
Proof.
  intros Hfq Hnq Hfp Hnp. rewrite float_is_negative_sign in Hnq, Hnp.
  destruct q as [sq|sq| |sq mq eq]; try done;
    destruct p as [sp|sp| |sp mp ep]; try done.
  subst sq sp. unfold float_mul, SFmul. cbn [xorb].
  by destruct (binary_round_aux_shape false (Z.pos (mq * mp)) (eq + ep) loc_Exact
                 ltac:(lia)) as [->|[->|(m & e & -> & _)]].
Qed.


Lemma parsed_nonempty (s : string) :
  s <> "" -> parsed s = match float_of_str s with Ok x => Some x | Raise _ => None end.
Proof. intros Hs. unfold parsed, or_zero. by destruct s. Qed.

Lemma float_of_str_empty : float_of_str "" = Raise ValueError.
Proof. reflexivity. Qed.

(** C2, as amended.  The first block of [generate_pdf] never raises; the
    total it leaves is the float sum, in line order from [0.0], of the
    subtotals of the present lines; a present line whose quantity or
    price does not parse has subtotal [0.0], one whose two numbers parse
    has their float product, and that product is neither negative nor
    NaN when both numbers are finite and not negative. *)
Theorem C2_total_of_present_lines (r : row) :
  (exists subtotals,
      calculated_columns r = Ok (subtotals, sum_of_present r)
      /\ forall i, 1 <= i <= 6 -> subtotals !! i = Some (line_subtotal r i))
  /\ (forall i, present r i = false -> line_subtotal r i = float_zero)
  /\ (forall i, present r i = true ->
        parsed (safe r (line_column "Qty" i)) = None
        \/ parsed (safe r (line_column "Price" i)) = None ->
        line_subtotal r i = float_zero)
  /\ (forall i q p, present r i = true ->
        parsed (safe r (line_column "Qty" i)) = Some q ->
        parsed (safe r (line_column "Price" i)) = Some p ->
        line_subtotal r i = float_mul q p
        /\ (float_is_finite q = true -> float_is_negative q = false ->
            float_is_finite p = true -> float_is_negative p = false ->
            float_is_negative (line_subtotal r i) = false
            /\ float_is_nan (line_subtotal r i) = false)).
Proof.
  split; [apply calculated_columns_spec|].
  split; [|split].
  - intros i Hi. unfold line_subtotal. by rewrite Hi.
  - intros i Hi Hnone. unfold line_subtotal. rewrite Hi.
    destruct Hnone as [-> | ->]; [done|].
    by destruct (parsed (safe r (line_column "Qty" i))).
  - intros i q p Hi Hq Hp. unfold line_subtotal. rewrite Hi, Hq, Hp.
    split; [done|]. apply float_mul_not_negative.
Qed.

Lemma qty_text_spec (raw : string) :
  (forall e, float_of_str raw = Raise e -> qty_text raw = Ok raw)
  /\ (forall x, float_of_str raw = Ok x -> float_is_finite x = true ->
        exists n, int_of_float x = Ok n /\ qty_text raw = Ok (str_of_Z n))
  /\ (float_of_str raw = Ok S754_nan -> qty_text raw = Ok raw).
Proof.
  unfold qty_text. repeat split.
  - intros e He. destruct raw as [|c raw]; [done|]. cbn [nonempty].
    rewrite He. cbn. by rewrite (float_of_str_raises_ValueError _ e He).
  - intros x Hx Hfin. destruct raw as [|c raw]; [done|]. cbn [nonempty].
    rewrite Hx. destruct x as [s|s| |s m e]; try done; by eexists.
  - intros Hx. destruct raw as [|c raw]; [done|]. cbn [nonempty]. by rewrite Hx.
Qed.

(** C4, as amended.  On a line with a service: a quantity that [float]
    refuses is echoed as it is and, when it is not empty, the line has
    subtotal [0.0]; a quantity that parses to a finite number is shown
    as its integer part; a quantity that parses to NaN is echoed as it
    is; in the finished map the price and the subtotal are what
    [fmt_idr] returns for them. *)
Theorem C4_quantity_text (r : row) (i : Z) :
  1 <= i <= 6 ->
  present r i = true ->
  let raw_qty := safe r (line_column "Qty" i) in
  (forall e, float_of_str raw_qty = Raise e ->
     qty_text raw_qty = Ok raw_qty
     /\ (raw_qty <> "" -> line_subtotal r i = float_zero))
  /\ (forall x, float_of_str raw_qty = Ok x -> float_is_finite x = true ->
        exists n, int_of_float x = Ok n /\ qty_text raw_qty = Ok (str_of_Z n))
  /\ (float_of_str raw_qty = Ok S754_nan -> qty_text raw_qty = Ok raw_qty)
  /\ (forall replacements, build_replacements r = Ok replacements ->
        exists qty price subtotal,
          qty_text raw_qty = Ok qty
          /\ dict_get replacements (line_token "Qty" i) = Some qty
          /\ fmt_idr (VStr (safe r (line_column "Price" i))) = Ok price
          /\ dict_get replacements (line_token "Price" i) = Some price
          /\ fmt_idr (VFloat (line_subtotal r i)) = Ok subtotal
          /\ dict_get replacements (line_token "Subtotal" i) = Some subtotal).
Proof.
  intros Hi Hpres raw_qty.
  destruct (qty_text_spec raw_qty) as (Hraise & Hfin & Hnan).
  split; [|split; [exact Hfin|split; [exact Hnan|]]].
  - intros e He. split; [by apply (Hraise e)|].
    intros Hne. unfold line_subtotal. rewrite Hpres.
    fold raw_qty. by rewrite (parsed_nonempty raw_qty Hne), He.
  - intros replacements Hbuild.
    destruct (build_replacements_present_line r replacements i Hi Hpres Hbuild)
      as (qty & price & subtotal & Hq & Hp & Hs & _ & Gq & Gp & Gs).
    by exists qty, price, subtotal.
Qed.


End Lines.


(** ** Integers a binary64 holds exactly *)

Lemma Zdigits2_pos (n : Z) : 0 < n -> 1 <= Zdigits2 n.
Proof. intros Hn. rewrite Zdigits2_log2 by done. pose proof (Z.log2_nonneg n). lia. Qed.

Lemma Zdigits2_small (n : Z) : 0 < n < 2 ^ 53 -> 1 <= Zdigits2 n <= 53.
Proof.
  intros [Hn Hlt]. split; [by apply Zdigits2_pos|].
  apply Zdigits2_le; lia.
Qed.

Lemma exact_float_mantissa (n : Z) :
  0 < n < 2 ^ 53 ->
  Zpos (Z.to_pos (n * 2 ^ (53 - Zdigits2 n))) = n * 2 ^ (53 - Zdigits2 n).
Proof.
  intros Hn. pose proof (Zdigits2_small n Hn).
  assert (0 < 2 ^ (53 - Zdigits2 n)) by (apply Z.pow_pos_nonneg; lia).
  rewrite Z2Pos.id; nia.
Qed.

(** Rounding [n * 2^(-e)] at exponent [e], with nothing to shift in:
    the result is the float of [n]. *)
Lemma binary_round_aux_int (sx : bool) (M : positive) (e n : Z) :
  0 < n < 2 ^ 53 -> e <= Zdigits2 n - 53 ->
  Zpos M = n * 2 ^ (- e) ->
  binary_round_aux prec emax sx (Zpos M) e loc_Exact = exact_float sx n.
Proof.
  intros Hn He HM. pose proof (Zdigits2_small n Hn) as Hd.
  set (d := Zdigits2 n) in *.
  assert (Zpos M = Zpos (Z.to_pos (n * 2 ^ (53 - d))) * 2 ^ (d - 53 - e)) as HM'.
  { subst d. rewrite exact_float_mantissa by done.
    rewrite <- Z.mul_assoc, <- Z.pow_add_r by lia.
    rewrite HM. do 2 f_equal. lia. }
  rewrite HM'. rewrite binary_round_aux_exact.
  - unfold exact_float. destruct n as [|p|p]; [lia| |lia].
    fold d. f_equal. lia.
  - lia.
  - rewrite <- HM', HM, Zdigits2_mul_pow2 by lia. fold d.
    rewrite fexp_unfold. lia.
  - lia.
Qed.

Lemma binary_round_int (sx : bool) (M : positive) (e n : Z) :
  0 < n < 2 ^ 53 -> e <= 0 ->
  Zpos M = n * 2 ^ (- e) ->
  binary_round prec emax sx M e = exact_float sx n.
Proof.
  intros Hn He HM. pose proof (Zdigits2_small n Hn) as Hd.
  unfold binary_round, shl_align.
  assert (Zpos (digits2_pos M) + e = Zdigits2 n) as Hdig.
  { change (Zpos (digits2_pos M)) with (Zdigits2 (Zpos M)).
    rewrite HM, Zdigits2_mul_pow2 by lia. lia. }
  rewrite Hdig, fexp_unfold.
  replace (Z.max (Zdigits2 n - 53) (-1074)) with (Zdigits2 n - 53) by lia.
  destruct (Zdigits2 n - 53 - e) as [|k|k] eqn:Hk.
  - apply binary_round_aux_int; [done|lia|done].
  - apply binary_round_aux_int; [done|lia|done].
  - apply binary_round_aux_int; [done|lia|].
    rewrite pos_iter_xO, HM.
    rewrite <- Z.mul_assoc, <- Z.pow_add_r by lia. do 2 f_equal. lia.
Qed.

(** [float(n)] for a small integer. *)
Lemma float_of_Z_exact (n : Z) :
  0 <= n < 2 ^ 53 -> float_of_Z n = exact_float false n.
Proof.
  intros Hn. unfold float_of_Z, binary_normalize.
  destruct n as [|p|p]; [done| |lia].
  apply binary_round_int; [lia|lia|]. cbn. lia.
Qed.

Lemma round_half_even_exact (n : Z) :
  0 < n < 2 ^ 53 ->
  round_half_even (n * 2 ^ (53 - Zdigits2 n)) (Zdigits2 n - 53) = n
  /\ truncate (n * 2 ^ (53 - Zdigits2 n)) (Zdigits2 n - 53) = n.
Proof.
  intros Hn. pose proof (Zdigits2_small n Hn) as Hd.
  unfold round_half_even, truncate.
  destruct (0 <=? Zdigits2 n - 53) eqn:E.
  - apply Z.leb_le in E. replace (Zdigits2 n) with 53 by lia. cbn. lia.
  - apply Z.leb_gt in E.
    replace (- (Zdigits2 n - 53)) with (53 - Zdigits2 n) by lia.
    assert (0 < 2 ^ (53 - Zdigits2 n)) by (apply Z.pow_pos_nonneg; lia).
    rewrite Z_mod_mult, Z_div_mult by lia. rewrite Z.mul_0_r.
    split; [|done].
    destruct (Z.compare_spec 0 (2 ^ (53 - Zdigits2 n))); [lia|done|lia].
Qed.

(** Rounding and cutting the float of a small integer give the integer
    back. *)
Lemma py_round_exact_float (sx : bool) (n : Z) :
  0 <= n < 2 ^ 53 ->
  py_round (exact_float sx n) = Ok (cond_Zopp sx n)
  /\ int_of_float (exact_float sx n) = Ok (cond_Zopp sx n).
Proof.
  intros Hn. destruct n as [|p|p]; [by destruct sx| |lia].
  unfold exact_float, py_round, int_of_float.
  rewrite exact_float_mantissa by lia.
  destruct (round_half_even_exact (Zpos p) ltac:(lia)) as [-> ->]. done.
Qed.

(** The product of two small integers is exact when it is small. *)
Lemma float_mul_exact (a b : Z) :
  0 <= a -> 0 <= b -> a * b < 2 ^ 53 ->
  a < 2 ^ 53 -> b < 2 ^ 53 ->
  float_mul (exact_float false a) (exact_float false b) = exact_float false (a * b).
Proof.
  intros Ha Hb Hab Ha53 Hb53.
  destruct a as [|pa|pa]; [by destruct b| |lia].
  destruct b as [|pb|pb]; [done| |lia].
  pose proof (Zdigits2_small (Zpos pa) ltac:(lia)) as Hda.
  pose proof (Zdigits2_small (Zpos pb) ltac:(lia)) as Hdb.
  unfold float_mul, exact_float at 1 2, SFmul. cbn [xorb].
  apply binary_round_aux_int.
  - lia.
  - rewrite !Zdigits2_log2 by lia.
    pose proof (Z.log2_mul_below (Zpos pa) (Zpos pb) ltac:(lia) ltac:(lia)).
    rewrite !Zdigits2_log2 in Hda, Hdb by lia. lia.
  - rewrite Pos2Z.inj_mul, !exact_float_mantissa by lia.
    replace (- (Zdigits2 (Z.pos pa) - 53 + (Zdigits2 (Z.pos pb) - 53)))
      with ((53 - Zdigits2 (Z.pos pa)) + (53 - Zdigits2 (Z.pos pb))) by lia.
    rewrite Z.pow_add_r by lia. lia.
Qed.

Lemma shl_align_fst (m : positive) (e e' : Z) :
  e' <= e -> Zpos (fst (shl_align m e e')) = Zpos m * 2 ^ (e - e').
Proof.
  intros He. unfold shl_align.
  destruct (e' - e) as [|k|k] eqn:Hk; cbn [fst].
  - replace (e - e') with 0 by lia. lia.
  - lia.
  - rewrite pos_iter_xO. do 2 f_equal. lia.
Qed.

(** The sum of two small integers is exact when it is small. *)
Lemma float_add_exact (a b : Z) :
  0 <= a -> 0 <= b -> a + b < 2 ^ 53 ->
  float_add (exact_float false a) (exact_float false b) = exact_float false (a + b).
Proof.
  intros Ha Hb Hab.
  destruct a as [|pa|pa]; [by destruct b| |lia].
  destruct b as [|pb|pb]; [done| |lia].
  pose proof (Zdigits2_small (Zpos pa) ltac:(lia)) as Hda.
  pose proof (Zdigits2_small (Zpos pb) ltac:(lia)) as Hdb.
  unfold float_add, exact_float at 1 2, SFadd.
  set (ea := Zdigits2 (Z.pos pa) - 53). set (eb := Zdigits2 (Z.pos pb) - 53).
  set (ez := Z.min ea eb).
  cbn [cond_Zopp].
  rewrite !shl_align_fst by lia. rewrite !exact_float_mantissa by lia.
  assert (Z.pos pa * 2 ^ (53 - Zdigits2 (Z.pos pa)) * 2 ^ (ea - ez)
          + Z.pos pb * 2 ^ (53 - Zdigits2 (Z.pos pb)) * 2 ^ (eb - ez)
          = (Z.pos pa + Z.pos pb) * 2 ^ (- ez)) as Hsum.
  { rewrite <- !Z.mul_assoc, <- !Z.pow_add_r by lia.
    replace (53 - Zdigits2 (Z.pos pa) + (ea - ez)) with (- ez) by lia.
    replace (53 - Zdigits2 (Z.pos pb) + (eb - ez)) with (- ez) by lia. lia. }
  rewrite Hsum.
  assert (0 < 2 ^ (- ez)) by (apply Z.pow_pos_nonneg; lia).
  destruct ((Z.pos pa + Z.pos pb) * 2 ^ (- ez)) as [|M|M] eqn:HM; [nia| |nia].
  unfold binary_normalize. apply binary_round_int; [lia|lia|].
  rewrite <- HM. done.
Qed.


(** ** Cells *)

Lemma rstrip_with_cons (sp : ascii -> bool) (c : ascii) (s : string) :
  rstrip_with sp (String c s) =
    match rstrip_with sp s with
    | EmptyString => if sp c then EmptyString else String c EmptyString
    | r => String c r
    end.
Proof. reflexivity. Qed.

Lemma rstrip_with_idem (sp : ascii -> bool) (s : string) :
  rstrip_with sp (rstrip_with sp s) = rstrip_with sp s.
Proof.
  induction s as [|c s IH]; [done|]. rewrite rstrip_with_cons.
  destruct (rstrip_with sp s) as [|c' r] eqn:Hr.
  - destruct (sp c) eqn:Hc; [done|]. cbn. by rewrite Hc.
  - rewrite rstrip_with_cons. by rewrite IH.
Qed.

Lemma lstrip_with_head (sp : ascii -> bool) (s : string) :
  match lstrip_with sp s with
  | EmptyString => True
  | String c _ => sp c = false
  end.
Proof.
  induction s as [|c s IH]; [done|]. cbn [lstrip_with].
  destruct (sp c) eqn:Hc; [exact IH|exact Hc].
Qed.

Lemma rstrip_with_head (sp : ascii -> bool) (c : ascii) (s : string) :
  sp c = false -> exists t, rstrip_with sp (String c s) = String c t.
Proof.
  intros Hc. rewrite rstrip_with_cons.
  destruct (rstrip_with sp s); [rewrite Hc|]; by eexists.
Qed.

(** Stripping twice is stripping once. *)
Lemma str_strip_idem (s : string) : str_strip (str_strip s) = str_strip s.
Proof.
  unfold str_strip.
  pose proof (lstrip_with_head is_space s) as Hhead.
  destruct (lstrip_with is_space s) as [|c t]; [done|].
  destruct (rstrip_with_head is_space c t Hhead) as [u Hu].
  rewrite Hu. cbn [lstrip_with]. rewrite Hhead, <- Hu.
  apply rstrip_with_idem.
Qed.

Lemma lstrip_with_all (sp : ascii -> bool) (s : string) :
  lstrip_with sp s = "" <-> Forall (fun c => sp c = true) (list_ascii_of_string s).
Proof.
  induction s as [|c s IH]; cbn [lstrip_with list_ascii_of_string].
  - split; [constructor|done].
  - destruct (sp c) eqn:Hc.
    + rewrite IH. split; [by constructor|by intros [_ ?]%Forall_cons].
    + split; [done|]. intros [Hc' _]%Forall_cons. congruence.
Qed.

(** Only white space strips to the empty string. *)
Lemma str_strip_empty (s : string) :
  str_strip s = "" <-> Forall (fun c => is_space c = true) (list_ascii_of_string s).
Proof.
  rewrite <- lstrip_with_all. unfold str_strip.
  pose proof (lstrip_with_head is_space s) as Hhead.
  destruct (lstrip_with is_space s) as [|c t]; [done|].
  destruct (rstrip_with_head is_space c t Hhead) as [u ->]. done.
Qed.

Lemma str_of_Z_unspaced (n : Z) : str_strip (str_of_Z n) = str_of_Z n.
Proof.
  rewrite str_of_Z_chars. apply strip_unspaced.
  pose proof (decimal_digits_spec (Z.abs n) (Z.abs_nonneg n)) as (_ & Hdig & _).
  apply Forall_app. split.
  - destruct (n <? 0); [|done]. by repeat constructor.
  - eapply Forall_impl; [exact Hdig|]. intros c Hc%is_digit_code.
    unfold is_space.
    destruct (9 <=? code c)%N eqn:E1; destruct (code c <=? 13)%N eqn:E2;
      destruct (28 <=? code c)%N eqn:E3; destruct (code c <=? 32)%N eqn:E4;
      destruct (code c =? 133)%N eqn:E5; destruct (code c =? 160)%N eqn:E6;
      try done;
      try apply N.leb_le in E2; try apply N.leb_le in E4;
      try apply N.eqb_eq in E5; try apply N.eqb_eq in E6; lia.
Qed.

Section Cells.

Context `{PyLib}.

(** X1.  What [safe] returns is trimmed: stripping it again changes
    nothing. *)
Theorem safe_is_trimmed (r : row) (key : string) :
  str_strip (safe r key) = safe r key.
Proof.
  unfold safe. destruct (pd_isna _); [done|]. apply str_strip_idem.
Qed.

(** X2.  [safe] reads a cell as the empty string when the key is not in
    the row, when the cell holds [None] or NaN, and, for a cell of text,
    exactly when the text is white space only; a cell holding an [int]
    reads as its decimal text. *)
Theorem safe_blank_cells (r : row) (key : string) :
  (r !! key = None -> safe r key = "")
  /\ (r !! key = Some VNone -> safe r key = "")
  /\ (r !! key = Some (VFloat S754_nan) -> safe r key = "")
  /\ (forall s, r !! key = Some (VStr s) ->
        safe r key = str_strip s
        /\ (safe r key = "" <->
            Forall (fun c => is_space c = true) (list_ascii_of_string s)))
  /\ (forall n, r !! key = Some (VInt n) -> safe r key = str_of_Z n).
Proof.
  unfold safe. split; [by intros ->|]. split; [by intros ->|].
  split; [by intros ->|]. split.
  - intros s ->. cbn. split; [done|apply str_strip_empty].
  - intros n ->. cbn. apply str_of_Z_unspaced.
Qed.

End Cells.


(** ** When the formatter raises *)

Lemma float_of_Z_signed (n : Z) :
  Z.abs n < 2 ^ 53 -> float_of_Z n = exact_float (n <? 0) (Z.abs n).
Proof.
  intros Hn. destruct n as [|p|p]; [done| |].
  - apply float_of_Z_exact. lia.
  - unfold float_of_Z, binary_normalize. cbn [Z.abs Z.ltb Z.compare].
    apply binary_round_int; [lia|lia|]. cbn. lia.
Qed.

Lemma float_of_str_of_Z_exact (n : Z) :
  float_of_str (str_of_Z n) = Ok (float_of_Z n).
Proof. rewrite float_of_str_of_Z. by destruct n. Qed.

Lemma exact_float_finite (sx : bool) (n : Z) :
  float_is_finite (exact_float sx n) = true.
Proof. by destruct n. Qed.

Lemma float_of_int_exact (n : Z) :
  Z.abs n < 2 ^ 53 -> float_of_int n = Ok (float_of_Z n).
Proof.
  intros Hn. unfold float_of_int. rewrite (float_of_Z_signed n Hn).
  by destruct (Z.abs n).
Qed.

Lemma py_round_float_of_Z (n : Z) :
  Z.abs n < 2 ^ 53 ->
  py_round (float_of_Z n) = Ok n /\ int_of_float (float_of_Z n) = Ok n.
Proof.
  intros Hn. rewrite (float_of_Z_signed n Hn).
  destruct (py_round_exact_float (n <? 0) (Z.abs n) ltac:(lia)) as [-> ->].
  assert (cond_Zopp (n <? 0) (Z.abs n) = n) as ->; [|done].
  destruct (n <? 0) eqn:E; cbn [cond_Zopp]; lia.
Qed.

Section Raising.

Context `{PyLib}.

Lemma fmt_idr_decimal_text (n : Z) :
  Z.abs n < 2 ^ 53 -> fmt_idr (VStr (str_of_Z n)) = Ok (format_grouped "." n).
Proof.
  intros Hn. destruct (py_round_float_of_Z n Hn) as [Hr _].
  apply (fmt_idr_number _ (float_of_Z n)); [|done].
  apply float_of_str_of_Z_exact.
Qed.

(** X3.  An integer below 2^53 in absolute value, given as an [int] or
    as its decimal text, is formatted exactly: its own digits, grouped
    by three with periods. *)
Theorem fmt_idr_small_int (n : Z) :
  Z.abs n < 2 ^ 53 ->
  fmt_idr (VInt n) = Ok (format_grouped "." n)
  /\ fmt_idr (VStr (str_of_Z n)) = Ok (format_grouped "." n).
Proof.
  intros Hn. destruct (py_round_float_of_Z n Hn) as [Hr _].
  split; apply (fmt_idr_number _ (float_of_Z n)); try done.
  - by apply float_of_int_exact.
  - apply float_of_str_of_Z_exact.
Qed.

Lemma py_float_raises (v : value) (e : exn) :
  py_float v = Raise e -> e = ValueError \/ e = TypeError \/ e = OverflowError.
Proof.
  destruct v as [|s|n|x]; cbn [py_float].
  - intros [= <-]. auto.
  - intros He. left. by apply (float_of_str_raises_ValueError s).
  - unfold float_of_int. destruct (float_of_Z n); intros [= <-]. auto.
  - done.
Qed.

Lemma fmt_idr_raise_cases (v : value) :
  (forall e, fmt_idr v = Raise e -> e = OverflowError)
  /\ (fmt_idr v = Raise OverflowError <->
      py_float v = Raise OverflowError
      \/ exists s, py_float v = Ok (S754_infinity s)).
Proof.
  unfold fmt_idr.
  destruct (py_float v) as [x|e0] eqn:Hx; cbn [mbind result_bind].
  - destruct x as [s|s| |s m e1]; cbn [py_round mbind result_bind try_except
      ValueError_or_TypeError].
    + split; [done|]. split; [done|]. intros [|[s' ?]]; done.
    + split; [by intros e [= <-]|]. split; [eauto|done].
    + split; [done|]. split; [done|]. intros [|[s' ?]]; done.
    + split; [done|]. split; [done|]. intros [|[s' ?]]; done.
  - cbn [try_except].
    destruct (py_float_raises v e0 Hx) as [->|[->| ->]];
      cbn [ValueError_or_TypeError].
    + split; [done|]. split; [done|]. intros [|[s' ?]]; done.
    + split; [done|]. split; [done|]. intros [|[s' ?]]; done.
    + split; [by intros e [= <-]|]. split; [auto|done].
Qed.

(** X4.  [fmt_idr] raises exactly when the conversion to a float
    overflows or gives an infinity, and what it raises then is
    [OverflowError]. *)
Theorem fmt_idr_raises_iff (v : value) :
  (forall e, fmt_idr v = Raise e -> e = OverflowError)
  /\ (fmt_idr v = Raise OverflowError <->
      py_float v = Raise OverflowError
      \/ exists s, py_float v = Ok (S754_infinity s)).
Proof. exact (fmt_idr_raise_cases v). Qed.

Lemma fmt_idr_VFloat_Ok (x : float) :
  (forall s, x <> S754_infinity s) -> exists t, fmt_idr (VFloat x) = Ok t.
Proof.
  intros Hx. destruct (fmt_idr (VFloat x)) as [t|e] eqn:E; [by eexists|].
  destruct (fmt_idr_raise_cases (VFloat x)) as [Honly Hiff].
  rewrite (Honly e E) in E. apply Hiff in E as [E|[s E]]; [done|].
  injection E as ->. by destruct (Hx s).
Qed.

Lemma to_terbilang_cases (total : float) :
  (forall e, to_terbilang total = Raise e ->
     e = OverflowError /\ exists s, total = S754_infinity s)
  /\ ((forall s, total <> S754_infinity s) ->
      exists t, to_terbilang total = Ok t
        /\ ((exists n words, py_round total = Ok n /\ num2words_id n = Ok words
                             /\ t = str_capitalize words +:+ " rupiah")
            \/ fmt_idr (VFloat total) = Ok t)).
Proof.
  split.
  - intros e He. unfold to_terbilang in He.
    destruct total as [s|s| |s m e1]; cbn [py_round mbind result_bind] in He.
    + destruct (num2words_id 0); cbn [mbind result_bind try_except any_Exception] in He;
        [done|].
      destruct (fmt_idr_VFloat_Ok (S754_zero s)) as [t Ht]; [done|].
      by rewrite Ht in He.
    + cbn in He. injection He as <-. eauto.
    + by cbn in He.
    + destruct (num2words_id _); cbn [mbind result_bind try_except any_Exception] in He;
        [done|].
      destruct (fmt_idr_VFloat_Ok (S754_finite s m e1)) as [t Ht]; [done|].
      by rewrite Ht in He.
  - intros Hfin. destruct (fmt_idr_VFloat_Ok total Hfin) as [t Ht].
    unfold to_terbilang.
    destruct (py_round total) as [n|e] eqn:Hn; cbn [mbind result_bind].
    + destruct (num2words_id n) as [words|e] eqn:Hw; cbn [mbind result_bind try_except].
      * eexists. split; [done|]. left. by exists n, words.
      * exists t. split; [done|]. by right.
    + exists t. cbn [try_except any_Exception]. split; [done|]. by right.
Qed.

(** X5.  [to_terbilang] raises exactly on an infinite total, and what it
    raises then is [OverflowError].  On any other total it returns the
    capitalised words with the suffix when the library gives words for
    the rounded total; and when the library raises, or the total is NaN
    and cannot be rounded, it returns what [fmt_idr] returns for the
    total, which is then a string. *)
Theorem to_terbilang_raises_iff (total : float) :
  (forall e, to_terbilang total = Raise e ->
     e = OverflowError /\ exists s, total = S754_infinity s)
  /\ (forall s, to_terbilang (S754_infinity s) = Raise OverflowError)
  /\ (forall n words, py_round total = Ok n -> num2words_id n = Ok words ->
        to_terbilang total = Ok (str_capitalize words +:+ " rupiah"))
  /\ (forall n e, py_round total = Ok n -> num2words_id n = Raise e ->
        exists t, fmt_idr (VFloat total) = Ok t /\ to_terbilang total = Ok t)
  /\ (total = S754_nan ->
        exists t, fmt_idr (VFloat total) = Ok t /\ to_terbilang total = Ok t).
Proof.
  destruct (to_terbilang_cases total) as [Hraise _].
  destruct (to_terbilang_spec total) as (Hwords & Hlib & Hround).
  split; [exact Hraise|]. split; [done|]. split; [exact Hwords|]. split.
  - intros n e Hn He. rewrite (Hlib n e Hn He).
    destruct (fmt_idr_VFloat_Ok total) as [t Ht]; [|by exists t].
    intros s ->. done.
  - intros ->. rewrite (Hround ValueError eq_refl).
    destruct (fmt_idr_VFloat_Ok S754_nan) as [t Ht]; [done|by exists t].
Qed.

Lemma to_terbilang_Ok_of_fmt (total : float) (t : string) :
  fmt_idr (VFloat total) = Ok t -> exists w, to_terbilang total = Ok w.
Proof.
  intros Ht.
  destruct (to_terbilang_cases total) as [_ Hok].
  destruct Hok as (w & Hw & _); [|by exists w].
  intros s ->. by vm_compute in Ht.
Qed.

(** The text put under a Qty token: raising is raising [OverflowError],
    on a quantity that parses to an infinity. *)
Lemma qty_text_raises (raw : string) (e : exn) :
  qty_text raw = Raise e ->
  e = OverflowError /\ exists s, float_of_str raw = Ok (S754_infinity s).
Proof.
  unfold qty_text. destruct (nonempty raw); [|done].
  destruct (float_of_str raw) as [x|e0] eqn:Hx; cbn [mbind result_bind].
  - destruct x as [s|s| |s m e1]; cbn; try done.
    intros [= <-]. eauto.
  - rewrite (float_of_str_raises_ValueError raw e0 Hx). done.
Qed.

End Raising.


(** ** The whole placeholder map *)

Section Map.

Context `{PyLib}.

Lemma fmt_idr_raises (v : value) (e : exn) :
  fmt_idr v = Raise e -> e = OverflowError.
Proof. apply fmt_idr_raise_cases. Qed.

Lemma to_terbilang_raises (total : float) (e : exn) :
  to_terbilang total = Raise e -> e = OverflowError.
Proof. intros He. by apply (to_terbilang_cases total). Qed.

Lemma for_each_raises {S : Type} (l : list Z) (body : S -> Z -> result S)
    (st : S) (e : exn) :
  for_each l body st = Raise e ->
  exists i st0, i ∈ l /\ body st0 i = Raise e.
Proof.
  revert st. induction l as [|i l IH]; intros st Hrun; [done|].
  cbn [for_each] in Hrun.
  destruct (body st i) as [st'|e'] eqn:Hstep; cbn [mbind result_bind] in Hrun.
  - destruct (IH st' Hrun) as (j & st0 & Hj & Hraise).
    exists j, st0. split; [by apply elem_of_cons; right|done].
  - injection Hrun as ->. exists i, st. split; [by apply elem_of_cons; left|done].
Qed.

Lemma for_each_runs {S : Type} (l : list Z) (body : S -> Z -> result S) (st : S) :
  (forall i st0, i ∈ l -> exists st1, body st0 i = Ok st1) ->
  exists st', for_each l body st = Ok st'.
Proof.
  revert st. induction l as [|i l IH]; intros st Hbody; [by eexists|].
  cbn [for_each].
  destruct (Hbody i st) as [st1 ->]; [by apply elem_of_cons; left|].
  cbn [mbind result_bind]. apply IH.
  intros j st0 Hj. apply Hbody. by apply elem_of_cons; right.
Qed.

(** [generate_pdf] after its first block. *)
Lemma build_replacements_unfold (r : row) :
  exists subtotals,
    (forall i, 1 <= i <= 6 -> subtotals !! i = Some (line_subtotal r i))
    /\ build_replacements r =
         (replacements ← for_each line_indices (line_step r subtotals)
                           (fold_left (header_step r) header_fields []);
          total_text ← fmt_idr (VFloat (sum_of_present r));
          words ← to_terbilang (sum_of_present r);
          Ok (dict_set (dict_set replacements "{{Total}}" total_text)
                "{{Terbilang}}" words)).
Proof.
  destruct (calculated_columns_spec r) as (subtotals & Hcalc & Hsub).
  exists subtotals. split; [done|].
  unfold build_replacements. by rewrite Hcalc.
Qed.

(** Whether the turn of a line raises does not depend on the map it is
    given. *)
Lemma line_step_renders (r : row) (subtotals : gmap Z float) (d : dict) (i : Z) :
  subtotals !! i = Some (line_subtotal r i) ->
  is_Ok (line_step r subtotals d i) = line_renders r i.
Proof.
  intros Hsub. unfold line_step, line_renders, present, subtotal_item.
  rewrite Hsub.
  destruct (nonempty (safe r (line_column "Service" i))); [|done].
  cbn [negb orb].
  destruct (qty_text _) as [qty|]; [|done]. cbn [mbind result_bind is_Ok andb].
  destruct (fmt_idr (VStr _)) as [price|]; [|done].
  cbn [mbind result_bind is_Ok andb].
  by destruct (fmt_idr (VFloat _)) as [subtotal|].
Qed.

Lemma line_step_raises (r : row) (subtotals : gmap Z float) (d : dict) (i : Z)
    (e : exn) :
  subtotals !! i = Some (line_subtotal r i) ->
  line_step r subtotals d i = Raise e -> e = OverflowError.
Proof.
  intros Hsub. unfold line_step, subtotal_item. rewrite Hsub.
  destruct (nonempty (safe r (line_column "Service" i))); [|done].
  destruct (qty_text _) as [qty|e0] eqn:Hq; cbn [mbind result_bind].
  2: { intros [= <-]. by apply (qty_text_raises _ _ Hq). }
  destruct (fmt_idr (VStr _)) as [price|e0] eqn:Hp; cbn [mbind result_bind].
  2: { intros [= <-]. by apply (fmt_idr_raises _ _ Hp). }
  destruct (fmt_idr (VFloat _)) as [subtotal|e0] eqn:Hs; cbn [mbind result_bind].
  - done.
  - intros [= <-]. by apply (fmt_idr_raises _ _ Hs).
Qed.

Lemma build_replacements_raises (r : row) (e : exn) :
  build_replacements r = Raise e -> e = OverflowError.
Proof.
  destruct (build_replacements_unfold r) as (subtotals & Hsub & ->).
  destruct (for_each _ _ _) as [d|e0] eqn:Hrun; cbn [mbind result_bind].
  2: { intros [= <-].
       destruct (for_each_raises _ _ _ _ Hrun) as (i & d0 & Hi & Hstep).
       apply line_index_elem in Hi. by apply (line_step_raises r subtotals d0 i e0); auto. }
  destruct (fmt_idr _) as [t|e0] eqn:Ht; cbn [mbind result_bind].
  2: { intros [= <-]. by apply (fmt_idr_raises _ _ Ht). }
  destruct (to_terbilang _) as [w|e0] eqn:Hw; cbn [mbind result_bind]; [done|].
  intros [= <-]. by apply (to_terbilang_raises _ _ Hw).
Qed.

(** X6.  Whatever the row, the only exception the computation of the
    placeholder map can raise is [OverflowError]: no missing key, no
    text that does not parse and no NaN makes it fail. *)
Theorem build_replacements_raises_only_overflow (r : row) (e : exn) :
  build_replacements r = Raise e -> e = OverflowError.
Proof. exact (build_replacements_raises r e). Qed.

Lemma build_replacements_Ok_iff (r : row) :
  (exists replacements, build_replacements r = Ok replacements) <->
  (forall i, 1 <= i <= 6 -> line_renders r i = true)
  /\ (forall s, sum_of_present r <> S754_infinity s).
Proof.
  destruct (build_replacements_unfold r) as (subtotals & Hsub & ->).
  split.
  - intros [replacements Hbuild].
    destruct (for_each _ _ _) as [d|] eqn:Hrun; [|done].
    cbn [mbind result_bind] in Hbuild. split.
    + intros i Hi.
      destruct (for_each_line_step_at _ _ _ _ i Hi Hrun) as (d0 & d1 & Hstep & _).
      rewrite <- (line_step_renders r subtotals d0 i (Hsub i Hi)). by rewrite Hstep.
    + intros s Hs. rewrite Hs in Hbuild. by vm_compute in Hbuild.
  - intros [Hlines Htotal].
    destruct (for_each_runs line_indices (line_step r subtotals)
                (fold_left (header_step r) header_fields [])) as [d ->].
    { intros i d0 Hi%line_index_elem.
      pose proof (line_step_renders r subtotals d0 i (Hsub i Hi)) as Hr.
      rewrite (Hlines i Hi) in Hr.
      destruct (line_step r subtotals d0 i); [by eexists|done]. }
    cbn [mbind result_bind].
    destruct (fmt_idr_VFloat_Ok _ Htotal) as [t Ht]. rewrite Ht.
    cbn [mbind result_bind].
    destruct (to_terbilang_Ok_of_fmt _ _ Ht) as [w ->]. by eexists.
Qed.

(** X7.  The placeholder map is built exactly when every line renders
    (it is absent, or neither its quantity text, its price nor its
    subtotal makes the formatter raise) and the total is not an
    infinity. *)
Theorem build_replacements_succeeds_iff (r : row) :
  (exists replacements, build_replacements r = Ok replacements) <->
  (forall i, 1 <= i <= 6 -> line_renders r i = true)
  /\ (forall s, sum_of_present r <> S754_infinity s).
Proof. exact (build_replacements_Ok_iff r). Qed.

Lemma token_inj (f g : string) : token f = token g -> f = g.
Proof.
  unfold token. intros Heq. injection Heq as Heq.
  revert g Heq. induction f as [|c f IH]; intros [|c' g] Heq; try done.
  - exfalso. injection Heq as -> Heq. destruct g as [|? [|? ?]]; done.
  - exfalso. injection Heq as -> Heq. destruct f as [|? [|? ?]]; done.
  - injection Heq as -> Heq. f_equal. by apply IH.
Qed.

Lemma header_fold_get (r : row) (fields : list string) (d : dict) (f : string) :
  f ∈ fields ->
  dict_get (fold_left (header_step r) fields d) (token f)
  = Some (safe r (dict_get_default COLUMNS f f)).
Proof.
  revert d. induction fields as [|g fields IH]; intros d Hf.
  - by apply elem_of_nil in Hf.
  - cbn [fold_left]. destruct (decide (f ∈ fields)) as [Hin|Hout]; [by apply IH|].
    apply elem_of_cons in Hf as [->|Hf]; [|done].
    clear IH. revert d. induction fields as [|h fields IH]; intros d.
    + cbn. apply dict_get_set_eq.
    + apply not_elem_of_cons in Hout as [Hne Hout]. cbn [fold_left].
      rewrite <- (IH Hout d) at 1.
      clear IH. revert d.
      assert (forall d1 d2, dict_get d1 (token g) = dict_get d2 (token g) ->
                dict_get (fold_left (header_step r) fields d1) (token g)
                = dict_get (fold_left (header_step r) fields d2) (token g)) as Hcong.
      { clear -Hout. induction fields as [|k fields IH]; intros d1 d2 Hd; [done|].
        apply not_elem_of_cons in Hout as [Hne Hout]. cbn [fold_left].
        apply (IH Hout). unfold header_step.
        rewrite !dict_get_set_ne; [done| |]; intros E%token_inj; congruence. }
      intros d. apply Hcong. unfold header_step.
      rewrite (dict_get_set_ne _ (token h)); [done|].
      intros E%token_inj. congruence.
Qed.

Lemma header_token_not_line (f : string) (i : Z) :
  f ∈ header_fields -> 1 <= i <= 6 -> token f ∉ line_keys i.
Proof.
  intros Hf Hi Hk. unfold header_fields in Hf.
  destruct (line_index_cases i Hi) as [->|[->|[->|[->|[->| ->]]]]];
    repeat (apply elem_of_cons in Hf as [->|Hf];
            [vm_compute in Hk;
             repeat (apply elem_of_cons in Hk as [E|Hk]; [discriminate E|]);
             by apply elem_of_nil in Hk|]);
    by apply elem_of_nil in Hf.
Qed.

(** X8.  In every map that is built, each of the nine header tokens
    holds what [safe] reads in the column of the same name. *)
Theorem header_placeholders (r : row) (replacements : dict) (f : string) :
  build_replacements r = Ok replacements ->
  f ∈ header_fields ->
  dict_get replacements (token f) = Some (safe r f).
Proof.
  intros Hbuild Hf.
  destruct (build_replacements_unfold r) as (subtotals & Hsub & Heq).
  rewrite Heq in Hbuild.
  destruct (for_each _ _ _) as [d|] eqn:Hrun; [|done].
  cbn [mbind result_bind] in Hbuild.
  destruct (fmt_idr _) as [t|]; [|done]. cbn [mbind result_bind] in Hbuild.
  destruct (to_terbilang _) as [w|]; [|done]. cbn [mbind result_bind] in Hbuild.
  injection Hbuild as <-.
  assert ("{{Total}}" <> token f /\ "{{Terbilang}}" <> token f) as [Ht Hw].
  { unfold header_fields in Hf.
    repeat (apply elem_of_cons in Hf as [->|Hf]; [by vm_compute|]).
    by apply elem_of_nil in Hf. }
  rewrite !dict_get_set_ne by done.
  rewrite (for_each_line_step_other _ _ _ _ _ _ Hrun).
  - rewrite (header_fold_get r header_fields [] f Hf). do 2 f_equal.
    unfold header_fields in Hf.
    repeat (apply elem_of_cons in Hf as [->|Hf]; [by vm_compute|]).
    by apply elem_of_nil in Hf.
  - intros j Hj%line_index_elem. by apply header_token_not_line.
Qed.

Lemma build_replacements_total (r : row) (replacements : dict) :
  build_replacements r = Ok replacements ->
  exists total_text words,
    fmt_idr (VFloat (sum_of_present r)) = Ok total_text
    /\ to_terbilang (sum_of_present r) = Ok words
    /\ dict_get replacements "{{Total}}" = Some total_text
    /\ dict_get replacements "{{Terbilang}}" = Some words.
Proof.
  intros Hbuild.
  destruct (build_replacements_unfold r) as (subtotals & Hsub & Heq).
  rewrite Heq in Hbuild.
  destruct (for_each _ _ _) as [d|] eqn:Hrun; [|done].
  cbn [mbind result_bind] in Hbuild.
  destruct (fmt_idr _) as [t|]; [|done]. cbn [mbind result_bind] in Hbuild.
  destruct (to_terbilang _) as [w|]; [|done]. cbn [mbind result_bind] in Hbuild.
  injection Hbuild as <-. exists t, w. repeat split.
  - rewrite dict_get_set_ne by done. apply dict_get_set_eq.
  - apply dict_get_set_eq.
Qed.

(** X9.  In every map that is built, the Total token holds the formatted
    sum of the present lines and the Terbilang token holds what
    [to_terbilang] returns for that sum. *)
Theorem total_placeholders (r : row) (replacements : dict) :
  build_replacements r = Ok replacements ->
  exists total_text words,
    fmt_idr (VFloat (sum_of_present r)) = Ok total_text
    /\ to_terbilang (sum_of_present r) = Ok words
    /\ dict_get replacements "{{Total}}" = Some total_text
    /\ dict_get replacements "{{Terbilang}}" = Some words.
Proof. exact (build_replacements_total r replacements). Qed.

End Map.


(** ** The tokens of the map, and invoices of whole numbers *)

Section Invoice.

Context `{PyLib}.

Lemma dict_keys_set (d : dict) (k v : string) :
  dict_keys (dict_set d k v) = add_key (dict_keys d) k.
Proof.
  unfold add_key, dict_keys. induction d as [|[k' v'] d IH]; [done|].
  cbn [dict_set map fst existsb].
  destruct (String.eqb k' k); [done|]. cbn [orb map fst].
  rewrite IH. by destruct (existsb _ _).
Qed.

Lemma line_step_keys (r : row) (subtotals : gmap Z float) (d d' : dict) (i : Z) :
  line_step r subtotals d i = Ok d' ->
  dict_keys d' = fold_left add_key (line_keys i) (dict_keys d).
Proof.
  unfold line_step.
  destruct (nonempty (safe r (line_column "Service" i))).
  - destruct (qty_text _) as [qty|]; [|done]. cbn [mbind result_bind].
    destruct (fmt_idr (VStr _)) as [price|]; [|done]. cbn [mbind result_bind].
    destruct (subtotal_item subtotals i) as [sub|]; [|done]. cbn [mbind result_bind].
    destruct (fmt_idr (VFloat sub)) as [subtotal|]; [|done]. cbn [mbind result_bind].
    intros [= <-]. by rewrite !dict_keys_set.
  - intros [= <-]. by rewrite !dict_keys_set.
Qed.

Lemma for_each_line_step_keys (r : row) (subtotals : gmap Z float) (l : list Z)
    (d d' : dict) :
  for_each l (line_step r subtotals) d = Ok d' ->
  dict_keys d' = fold_left add_key (flat_map line_keys l) (dict_keys d).
Proof.
  revert d. induction l as [|i l IH]; intros d Hrun.
  - by injection Hrun as <-.
  - cbn [for_each] in Hrun.
    destruct (line_step r subtotals d i) as [d1|] eqn:Hstep; [|done].
    cbn [mbind result_bind] in Hrun.
    rewrite (IH d1 Hrun), (line_step_keys _ _ _ _ _ Hstep).
    cbn [flat_map]. by rewrite fold_left_app.
Qed.

Lemma header_fold_keys (r : row) (fields : list string) (d : dict) :
  dict_keys (fold_left (header_step r) fields d)
  = fold_left add_key (map token fields) (dict_keys d).
Proof.
  revert d. induction fields as [|f fields IH]; intros d; [done|].
  cbn [fold_left map]. rewrite IH. unfold header_step. by rewrite dict_keys_set.
Qed.

Lemma replacements_keys (r : row) (replacements : dict) :
  build_replacements r = Ok replacements ->
  dict_keys replacements = placeholder_tokens
  /\ length replacements = 35%nat.
Proof.
  intros Hbuild.
  assert (dict_keys replacements = placeholder_tokens) as Hkeys.
  { destruct (build_replacements_unfold r) as (subtotals & Hsub & Heq).
    rewrite Heq in Hbuild.
    destruct (for_each _ _ _) as [d|] eqn:Hrun; [|done].
    cbn [mbind result_bind] in Hbuild.
    destruct (fmt_idr _) as [t|]; [|done]. cbn [mbind result_bind] in Hbuild.
    destruct (to_terbilang _) as [w|]; [|done]. cbn [mbind result_bind] in Hbuild.
    injection Hbuild as <-.
    rewrite !dict_keys_set, (for_each_line_step_keys _ _ _ _ _ Hrun),
      header_fold_keys.
    vm_compute. reflexivity. }
  split; [done|].
  rewrite <- (length_map fst). fold (dict_keys replacements). by rewrite Hkeys.
Qed.

(** X10.  Every map that is built has the same 35 tokens in the same
    order, whatever the row holds: the nine header tokens, the four
    tokens of each of the six lines, the total and its words. *)
Theorem replacements_tokens (r : row) (replacements : dict) :
  build_replacements r = Ok replacements ->
  dict_keys replacements = placeholder_tokens
  /\ length replacements = 35%nat.
Proof. exact (replacements_keys r replacements). Qed.

Lemma sum_of_present_blank (r : row) :
  (forall i, 1 <= i <= 6 -> present r i = false) ->
  sum_of_present r = float_zero.
Proof.
  intros Hblank. unfold sum_of_present.
  assert (List.filter (present r) line_indices = []) as ->; [|done].
  assert (forall l, (forall i, i ∈ l -> present r i = false) ->
                    List.filter (present r) l = []) as Hnil.
  { induction l as [|i l IH]; intros Hl; [done|]. cbn [List.filter].
    rewrite (Hl i) by (by apply elem_of_cons; left).
    apply IH. intros j Hj. apply Hl. by apply elem_of_cons; right. }
  apply Hnil. intros i Hi%line_index_elem. by apply Hblank.
Qed.

(** X11.  For a row in which no line has a service the map is always
    built: the total is the formatted zero, its words are what
    [to_terbilang] gives for zero, and the tokens of all six lines hold
    the empty string. *)
Theorem blank_invoice (r : row) :
  (forall i, 1 <= i <= 6 -> present r i = false) ->
  exists replacements words,
    build_replacements r = Ok replacements
    /\ dict_get replacements "{{Total}}" = Some "0"
    /\ to_terbilang float_zero = Ok words
    /\ dict_get replacements "{{Terbilang}}" = Some words
    /\ forall i name, 1 <= i <= 6 -> name ∈ line_names ->
         dict_get replacements (line_token name i) = Some "".
Proof.
  intros Hblank.
  pose proof (sum_of_present_blank r Hblank) as Hsum.
  destruct (proj2 (build_replacements_Ok_iff r)) as [replacements Hbuild].
  { split.
    - intros i Hi. unfold line_renders. by rewrite (Hblank i Hi).
    - by rewrite Hsum. }
  destruct (build_replacements_total r replacements Hbuild)
    as (t & w & Ht & Hw & Gt & Gw).
  rewrite Hsum in Ht, Hw.
  exists replacements, w. split; [done|].
  split; [by vm_compute in Ht; injection Ht as <-|].
  split; [done|]. split; [done|].
  intros i name Hi Hname.
  destruct (build_replacements_absent_line r replacements i Hi (Hblank i Hi) Hbuild)
    as (G1 & G2 & G3 & G4).
  unfold line_names in Hname.
  repeat (apply elem_of_cons in Hname as [->|Hname]; [done|]).
  by apply elem_of_nil in Hname.
Qed.

Lemma str_of_Z_nonempty (n : Z) : nonempty (str_of_Z n) = true.
Proof.
  rewrite str_of_Z_chars.
  pose proof (decimal_digits_spec (Z.abs n) (Z.abs_nonneg n)) as (Hne & _).
  destruct (n <? 0); [done|]. by destruct (decimal_digits (Z.abs n)).
Qed.

Lemma parsed_str_of_Z (n : Z) :
  0 <= n < 2 ^ 53 -> parsed (str_of_Z n) = Some (exact_float false n).
Proof.
  intros Hn. unfold parsed, or_zero. rewrite str_of_Z_nonempty.
  cbn [py_float]. rewrite float_of_str_of_Z_exact. by rewrite float_of_Z_exact.
Qed.

Lemma integer_line_subtotal (r : row) (i q p : Z) :
  integer_line r i q p -> q * p < 2 ^ 53 ->
  line_subtotal r i = exact_float false (q * p).
Proof.
  intros (Hpres & Hq & Hp & Hqr & Hpr) Hprod.
  unfold line_subtotal. rewrite Hpres, Hq, Hp, !parsed_str_of_Z by done.
  apply float_mul_exact; lia.
Qed.

Lemma fmt_idr_exact_float (n : Z) :
  0 <= n < 2 ^ 53 -> fmt_idr (VFloat (exact_float false n)) = Ok (format_grouped "." n).
Proof.
  intros Hn. apply (fmt_idr_number _ (exact_float false n)); [done|].
  by destruct (py_round_exact_float false n Hn) as [-> _].
Qed.

Lemma integer_line_cells (r : row) (i q p : Z) :
  1 <= i <= 6 ->
  integer_line r i q p ->
  q * p < 2 ^ 53 ->
  line_subtotal r i = float_of_Z (q * p)
  /\ qty_text (safe r (line_column "Qty" i)) = Ok (str_of_Z q)
  /\ fmt_idr (VStr (safe r (line_column "Price" i))) = Ok (format_grouped "." p)
  /\ fmt_idr (VFloat (line_subtotal r i)) = Ok (format_grouped "." (q * p))
  /\ (forall replacements, build_replacements r = Ok replacements ->
        dict_get replacements (line_token "Qty" i) = Some (str_of_Z q)
        /\ dict_get replacements (line_token "Price" i) = Some (format_grouped "." p)
        /\ dict_get replacements (line_token "Subtotal" i)
           = Some (format_grouped "." (q * p))).
Proof.
  intros Hi Hline Hprod.
  pose proof (integer_line_subtotal r i q p Hline Hprod) as Hsub.
  destruct Hline as (Hpres & Hq & Hp & Hqr & Hpr).
  assert (0 <= q * p) as Hnn by nia.
  assert (qty_text (safe r (line_column "Qty" i)) = Ok (str_of_Z q)) as Hqty.
  { rewrite Hq. unfold qty_text. rewrite str_of_Z_nonempty, float_of_str_of_Z_exact.
    cbn [mbind result_bind].
    destruct (py_round_float_of_Z q ltac:(lia)) as [_ ->]. done. }
  assert (fmt_idr (VStr (safe r (line_column "Price" i)))
          = Ok (format_grouped "." p)) as Hprice.
  { rewrite Hp. apply fmt_idr_decimal_text. lia. }
  assert (fmt_idr (VFloat (line_subtotal r i))
          = Ok (format_grouped "." (q * p))) as Hsubt.
  { rewrite Hsub. apply fmt_idr_exact_float. lia. }
  split; [by rewrite float_of_Z_exact by lia|].
  split; [done|]. split; [done|]. split; [done|].
  intros replacements Hbuild.
  destruct (build_replacements_present_line r replacements i Hi Hpres Hbuild)
    as (qty & price & subtotal & Gq & Gp & Gs & _ & -> & -> & ->).
  rewrite Hqty in Gq. rewrite Hprice in Gp. rewrite Hsubt in Gs.
  by injection Gq as <-; injection Gp as <-; injection Gs as <-.
Qed.

(** X12.  A line whose quantity and price read as the whole numbers [q]
    and [p], with a product below 2^53, is computed without rounding:
    the quantity is shown as [q], the price as [p] grouped with periods
    and the subtotal as [q * p] grouped with periods. *)
Theorem integer_line_rendering (r : row) (i q p : Z) :
  1 <= i <= 6 ->
  integer_line r i q p ->
  q * p < 2 ^ 53 ->
  line_subtotal r i = float_of_Z (q * p)
  /\ qty_text (safe r (line_column "Qty" i)) = Ok (str_of_Z q)
  /\ fmt_idr (VStr (safe r (line_column "Price" i))) = Ok (format_grouped "." p)
  /\ fmt_idr (VFloat (line_subtotal r i)) = Ok (format_grouped "." (q * p))
  /\ (forall replacements, build_replacements r = Ok replacements ->
        dict_get replacements (line_token "Qty" i) = Some (str_of_Z q)
        /\ dict_get replacements (line_token "Price" i) = Some (format_grouped "." p)
        /\ dict_get replacements (line_token "Subtotal" i)
           = Some (format_grouped "." (q * p))).
Proof. exact (integer_line_cells r i q p). Qed.

End Invoice.


Section WholeNumbers.

Context `{PyLib}.

(** The amount of each line of an invoice of whole numbers: zero on an
    absent line, quantity times price on the others. *)
Lemma line_amount (r : row) (amount : Z -> Z) (i : Z) :
  ((present r i = false /\ amount i = 0)
   \/ exists q p, integer_line r i q p /\ amount i = q * p) ->
  amount i < 2 ^ 53 ->
  0 <= amount i
  /\ (present r i = true -> line_subtotal r i = exact_float false (amount i)).
Proof.
  intros [[Habs ->]|(q & p & Hline & ->)] Hlt.
  - split; [done|]. by rewrite Habs.
  - split.
    + destruct Hline as (_ & _ & _ & Hq & Hp). nia.
    + intros _. by apply integer_line_subtotal.
Qed.

Lemma sum_nonneg (amount : Z -> Z) (l : list Z) :
  (forall i, i ∈ l -> 0 <= amount i) -> 0 <= foldr Z.add 0 (map amount l).
Proof.
  induction l as [|j l IH]; intros Hnn; [done|]. cbn [map foldr].
  assert (0 <= amount j) by (apply Hnn, elem_of_cons; by left).
  assert (0 <= foldr Z.add 0 (map amount l)); [|lia].
  apply IH. intros k Hk. apply Hnn, elem_of_cons. by right.
Qed.

Lemma sum_of_amounts (r : row) (amount : Z -> Z) (l : list Z) (acc : Z) :
  (forall i, i ∈ l ->
     (present r i = false /\ amount i = 0)
     \/ exists q p, integer_line r i q p /\ amount i = q * p) ->
  (forall i, i ∈ l -> 0 <= amount i) ->
  0 <= acc ->
  acc + foldr Z.add 0 (map amount l) < 2 ^ 53 ->
  fold_left float_add (map (line_subtotal r) (List.filter (present r) l))
    (exact_float false acc)
  = exact_float false (acc + foldr Z.add 0 (map amount l)).
Proof.
  revert acc. induction l as [|i l IH]; intros acc Hl Hnn Hacc Hsum.
  - cbn. by rewrite Z.add_0_r.
  - cbn [map foldr] in Hsum |- *.
    assert (0 <= foldr Z.add 0 (map amount l)) as Hrest.
    { apply sum_nonneg. intros j Hj. apply Hnn, elem_of_cons. by right. }
    assert (0 <= amount i) as Hi by (apply Hnn; apply elem_of_cons; by left).
    destruct (line_amount r amount i) as [_ Hsub];
      [apply Hl; apply elem_of_cons; by left|lia|].
    cbn [List.filter]. destruct (present r i) eqn:Hp.
    + cbn [map fold_left]. rewrite (Hsub eq_refl), float_add_exact by lia.
      rewrite IH; [f_equal; lia| | |lia|lia].
      * intros j Hj. apply Hl. apply elem_of_cons; by right.
      * intros j Hj. apply Hnn. apply elem_of_cons; by right.
    + assert (amount i = 0) as Hz.
      { destruct (Hl i) as [[_ Hz]|(q & p & (Hp' & _) & _)];
          [apply elem_of_cons; by left|done|congruence]. }
      rewrite IH; [f_equal; lia| | |lia|lia].
      * intros j Hj. apply Hl. apply elem_of_cons; by right.
      * intros j Hj. apply Hnn. apply elem_of_cons; by right.
Qed.

(** X13.  An invoice of whole numbers: every line is absent or has a
    quantity and a price that read as whole numbers, and the amounts sum
    to less than 2^53.  Then the map is always built, nothing is
    rounded, the total is the sum of the amounts grouped with periods
    and every present line shows its own amount. *)
Theorem integer_invoice (r : row) (amount : Z -> Z) :
  (forall i, 1 <= i <= 6 ->
     (present r i = false /\ amount i = 0)
     \/ exists q p, integer_line r i q p /\ amount i = q * p) ->
  amount 1 + amount 2 + amount 3 + amount 4 + amount 5 + amount 6 < 2 ^ 53 ->
  let total := amount 1 + amount 2 + amount 3 + amount 4 + amount 5 + amount 6 in
  sum_of_present r = float_of_Z total
  /\ exists replacements,
       build_replacements r = Ok replacements
       /\ dict_get replacements "{{Total}}" = Some (format_grouped "." total)
       /\ forall i, 1 <= i <= 6 -> present r i = true ->
            dict_get replacements (line_token "Subtotal" i)
            = Some (format_grouped "." (amount i)).
Proof.
  intros Hlines Hsum total.
  assert (forall i, 1 <= i <= 6 -> 0 <= amount i) as Hnn.
  { intros i Hi. destruct (Hlines i Hi) as [[_ ->]|(q & p & Hline & ->)]; [done|].
    destruct Hline as (_ & _ & _ & Hq & Hp). nia. }
  pose proof (Hnn 1 ltac:(lia)). pose proof (Hnn 2 ltac:(lia)).
  pose proof (Hnn 3 ltac:(lia)). pose proof (Hnn 4 ltac:(lia)).
  pose proof (Hnn 5 ltac:(lia)). pose proof (Hnn 6 ltac:(lia)).
  assert (sum_of_present r = exact_float false total) as Htotal.
  { unfold sum_of_present.
    change float_zero with (exact_float false 0).
    rewrite (sum_of_amounts r amount line_indices 0).
    - f_equal. change line_indices with [1; 2; 3; 4; 5; 6].
      cbn [map foldr]. subst total. lia.
    - intros i Hi%line_index_elem. by apply Hlines.
    - intros i Hi%line_index_elem. by apply Hnn.
    - done.
    - change line_indices with [1; 2; 3; 4; 5; 6]. cbn [map foldr]. lia. }
  assert (forall i, 1 <= i <= 6 -> present r i = true ->
            exists q p, integer_line r i q p /\ amount i = q * p) as Hint.
  { intros i Hi Hp. destruct (Hlines i Hi) as [[Habs _]|Hqp]; [congruence|done]. }
  split; [rewrite float_of_Z_exact; [done|subst total; lia]|].
  destruct (proj2 (build_replacements_Ok_iff r)) as [replacements Hbuild].
  { split.
    - intros i Hi. unfold line_renders.
      destruct (present r i) eqn:Hp; [|done]. cbn [negb orb].
      destruct (Hint i Hi Hp) as (q & p & Hline & Ha).
      assert (q * p < 2 ^ 53) as Hprod.
      { rewrite <- Ha.
        destruct (line_index_cases i Hi) as [->|[->|[->|[->|[->| ->]]]]]; lia. }
      destruct (integer_line_cells r i q p Hi Hline Hprod)
        as (_ & -> & -> & -> & _). done.
    - rewrite Htotal. intros s. by destruct total. }
  exists replacements. split; [done|]. split.
  - destruct (build_replacements_total r replacements Hbuild) as (t & w & Ht & _ & -> & _).
    rewrite Htotal, fmt_idr_exact_float in Ht by (subst total; lia).
    by injection Ht as <-.
  - intros i Hi Hp. destruct (Hint i Hi Hp) as (q & p & Hline & Ha).
    assert (q * p < 2 ^ 53) as Hprod.
    { rewrite <- Ha.
      destruct (line_index_cases i Hi) as [->|[->|[->|[->|[->| ->]]]]]; lia. }
    rewrite Ha. by apply (integer_line_cells r i q p Hi Hline Hprod).
Qed.

End WholeNumbers.


(** ** Paragraphs the pass leaves alone *)

Lemma occurs_cons (needle : string) (c : ascii) (s : string) :
  occurs needle (String c s) = String.prefix needle (String c s) || occurs needle s.
Proof. reflexivity. Qed.

Lemma replace_from_absent (old new s : string) :
  nonempty old = true -> occurs old s = false -> replace_from old new 0 s = s.
Proof.
  intros Hold. induction s as [|c s IH]; [done|].
  rewrite occurs_cons. intros [Hp Ho]%orb_false_iff.
  cbn [replace_from]. rewrite Hp. by rewrite (IH Ho).
Qed.

(** [s.replace(old, new)] is [s] when [old] does not occur in it. *)
Lemma str_replace_absent (old new s : string) :
  nonempty old = true -> occurs old s = false -> str_replace old new s = s.
Proof.
  intros Hold Ho. unfold str_replace. destruct old as [|c old]; [done|].
  by apply replace_from_absent.
Qed.

Lemma replace_all_absent (replacements : dict) (s : string) :
  Forall (fun kv => nonempty kv.1 = true /\ occurs kv.1 s = false) replacements ->
  replace_all replacements s = s.
Proof.
  unfold replace_all. induction 1 as [|[k v] d [Hk Ho] Hd IH]; [done|].
  cbn [fold_left]. cbn [fst] in Hk, Ho. by rewrite str_replace_absent.
Qed.

(** Loops over a sequence: what every turn keeps is kept by the loop,
    and a loop whose turns change nothing changes nothing. *)
Lemma for_in_invariant {A S : Type} (I : S -> Prop) (l : list A)
    (body : S -> A -> result S) (st st' : S) :
  (forall st0 a st1, a ∈ l -> I st0 -> body st0 a = Ok st1 -> I st1) ->
  I st -> for_in l body st = Ok st' -> I st'.
Proof.
  revert st. induction l as [|a l IH]; intros st Hbody Hst Hrun.
  - by injection Hrun as <-.
  - cbn [for_in] in Hrun. destruct (body st a) as [st1|] eqn:Ha; [|done].
    cbn [mbind result_bind] in Hrun. apply (IH st1); [|  |done].
    + intros st0 b st2 Hb. apply Hbody, elem_of_cons. by right.
    + apply (Hbody st a st1); [apply elem_of_cons; by left|done|done].
Qed.

Lemma for_in_fixed {A S : Type} (l : list A) (body : S -> A -> result S) (st : S) :
  (forall a, a ∈ l -> body st a = Ok st) -> for_in l body st = Ok st.
Proof.
  induction l as [|a l IH]; intros Hbody; [done|]. cbn [for_in].
  rewrite (Hbody a) by (apply elem_of_cons; by left). cbn [mbind result_bind].
  apply IH. intros b Hb. apply Hbody, elem_of_cons. by right.
Qed.

Lemma map_insert_same {A B : Type} (f : A -> B) (l : list A) (i : nat) (x y : A) :
  l !! i = Some x -> f y = f x -> map f (<[i := y]> l) = map f l.
Proof.
  revert i. induction l as [|z l IH]; intros [|i] Hx Hf; try done.
  - injection Hx as ->. cbn. by rewrite Hf.
  - cbn. f_equal. by apply IH.
Qed.

Section Untouched.

Context `{PyLib}.

(** X14.  Paragraphs in which no token of the map occurs are left
    exactly as they are, runs included: going through any sequence of
    such paragraphs leaves the store as it was. *)
Theorem paragraph_without_tokens (replacements : dict) (st : list paragraph)
    (ps : list nat) :
  (forall i p, i ∈ ps -> st !! i = Some p ->
     Forall (fun kv => nonempty kv.1 = true /\ occurs kv.1 (text p) = false)
            replacements) ->
  fill_paragraphs replacements ps st = Ok st.
Proof.
  intros Hps. unfold fill_paragraphs. apply for_in_fixed.
  intros i Hi. unfold fill_paragraph.
  destruct (st !! i) as [p|] eqn:Hp; [|done].
  rewrite (replace_in_paragraph_unchanged p replacements).
  - cbn [mbind result_bind]. by rewrite list_insert_id.
  - apply replace_all_absent. by apply (Hps i).
Qed.

Lemma fill_paragraph_shape (replacements : dict) (st st' : list paragraph) (i : nat) :
  fill_paragraph replacements st i = Ok st' ->
  map paragraph_shape st' = map paragraph_shape st.
Proof.
  unfold fill_paragraph. destruct (st !! i) as [p|] eqn:Hp; [|by intros [= <-]].
  destruct (_replace_in_paragraph p replacements) as [p'|] eqn:Hpass; [|done].
  cbn [mbind result_bind]. intros [= <-].
  apply (map_insert_same _ _ _ p); [done|].
  by apply (replace_in_paragraph_shape p p' replacements).
Qed.

Lemma fill_paragraphs_shape (replacements : dict) (ps : list nat)
    (st0 st st' : list paragraph) :
  map paragraph_shape st = map paragraph_shape st0 ->
  fill_paragraphs replacements ps st = Ok st' ->
  map paragraph_shape st' = map paragraph_shape st0.
Proof.
  unfold fill_paragraphs.
  apply (for_in_invariant (fun st => map paragraph_shape st = map paragraph_shape st0)).
  intros st1 i st2 _ Hst1 Hstep. by rewrite (fill_paragraph_shape _ _ _ _ Hstep).
Qed.

(** X15.  Filling, when it ends, keeps the shape of the document: the
    same sequences of paragraphs in the body, the tables, their rows and
    cells and the header and footer parts, and in every paragraph the
    same number of runs and the same hyperlinks in the same places. *)
Theorem fill_document_shape (doc doc' : document) (replacements : dict) :
  fill_document doc replacements = Ok doc' ->
  document_shape doc' = document_shape doc.
Proof.
  unfold fill_document.
  destruct (fill_paragraphs replacements (paragraphs doc) (store doc))
    as [st1|] eqn:H1; [|done]. cbn [mbind result_bind].
  destruct (fill_tables replacements (tables doc) st1) as [st2|] eqn:H2; [|done].
  cbn [mbind result_bind].
  destruct (for_in (header_footer_parts doc) _ st2) as [st3|] eqn:H3; [|done].
  cbn [mbind result_bind]. intros [= <-].
  unfold document_shape. cbn [store paragraphs tables header_footer_parts].
  do 3 f_equal.
  pose (I := fun st => map paragraph_shape st = map paragraph_shape (store doc)).
  assert (I st1) as Hst1.
  { by apply (fill_paragraphs_shape replacements (paragraphs doc) (store doc) (store doc)). }
  assert (I st2) as Hst2.
  { revert H2. unfold fill_tables. apply (for_in_invariant I); [|done].
    intros sa table sb _ Hsa. apply (for_in_invariant I); [|done].
    intros sc [row_cells|e] sd _ Hsc; [|done]. cbn [mbind result_bind].
    apply (for_in_invariant I); [|done].
    intros se cell sf _ Hse. by apply fill_paragraphs_shape. }
  revert H3. apply (for_in_invariant I); [|done].
  intros sa part sb _ Hsa. by apply fill_paragraphs_shape.
Qed.

End Untouched.

(** ** File names *)

Section Names.

Context `{PyLib}.

Lemma has_char_replaced (c d : ascii) (l : list ascii) :
  c <> d ->
  existsb (Ascii.eqb c)
    (map (fun x => if Ascii.eqb x c then d else x) l) = false.
Proof.
  intros Hne. induction l as [|x l IH]; [done|]. cbn [map existsb].
  rewrite IH, orb_false_r.
  destruct (Ascii.eqb_spec x c) as [->|Hx]; apply Ascii.eqb_neq; congruence.
Qed.

Lemma length_string_of_list_ascii (l : list ascii) :
  String.length (string_of_list_ascii l) = length l.
Proof. induction l as [|x l IH]; [done|]. cbn. by rewrite IH. Qed.

Lemma length_list_ascii_of_string (s : string) :
  length (list_ascii_of_string s) = String.length s.
Proof. induction s as [|x s IH]; [done|]. cbn. by rewrite IH. Qed.

(** [s.replace(" ", "_")], character by character. *)
Lemma str_replace_space (s : string) :
  str_replace " " "_" s =
    string_of_list_ascii
      (map (fun x => if Ascii.eqb x " " then "_"%char else x)
           (list_ascii_of_string s)).
Proof.
  rewrite <- (string_of_list_ascii_of_string s) at 1.
  rewrite str_replace_char.
  rewrite (map_ext_Forall _
             (fun x => String (if Ascii.eqb x " " then "_"%char else x) "")).
  - apply str_concat_chars.
  - apply Forall_forall. intros x _. by destruct (Ascii.eqb x " ").
Qed.

Lemma digit_not_blank (c : ascii) : is_digit c = true -> Ascii.eqb c " " = false.
Proof. intros Hc. by apply (digit_differs c " "%char Hc). Qed.

(** X16.  The name under which an invoice is stored or sent is never
    empty and never holds a space: it is the trimmed client name with
    every space turned into an underscore, of the same length, or
    [invoice_<idx>] when the client cell is blank. *)
Theorem invoice_name_spec (r : row) (idx : Z) :
  nonempty (invoice_name r idx) = true
  /\ has_char " " (invoice_name r idx) = false
  /\ (safe r "Client" = "" ->
      invoice_name r idx = "invoice_" +:+ str_of_Z idx)
  /\ (safe r "Client" <> "" ->
      String.length (invoice_name r idx) = String.length (safe r "Client")).
Proof.
  unfold invoice_name. change _client_col with "Client".
  set (base := if nonempty (safe r "Client") then safe r "Client"
               else "invoice_" +:+ str_of_Z idx).
  assert (nonempty base = true) as Hbase.
  { unfold base. by destruct (nonempty (safe r "Client")) eqn:E. }
  rewrite str_replace_space.
  split; [|split; [|split]].
  - destruct base as [|c b]; done.
  - unfold has_char. rewrite list_ascii_of_string_of_list_ascii.
    by apply has_char_replaced.
  - intros Hblank. unfold base. rewrite Hblank. cbn [nonempty].
    rewrite str_of_Z_chars.
    set (l := (if idx <? 0 then ["-"%char] else []) ++ decimal_digits (Z.abs idx)).
    change ("invoice_" +:+ string_of_list_ascii l)
      with (string_of_list_ascii (list_ascii_of_string "invoice_" ++ l)).
    rewrite list_ascii_of_string_of_list_ascii. f_equal.
    rewrite <- (map_id (_ ++ l)) at 2. apply map_ext_Forall.
    apply Forall_app. split; [by repeat constructor|].
    unfold l. apply Forall_app. split.
    + destruct (idx <? 0); by repeat constructor.
    + pose proof (decimal_digits_spec (Z.abs idx) (Z.abs_nonneg idx)) as (_ & Hdig & _).
      eapply Forall_impl; [exact Hdig|]. intros c Hc. by rewrite digit_not_blank.
  - intros Hne. unfold base.
    destruct (safe r "Client") as [|c s] eqn:E; [done|]. cbn [nonempty].
    by rewrite length_string_of_list_ascii, length_map, length_list_ascii_of_string.
Qed.

End Names.


(** ** Text that XML can hold *)

Lemma xml_compatible_cons (c : ascii) (s : string) :
  xml_compatible (String c s) = xml_char c && xml_compatible s.
Proof. reflexivity. Qed.

Lemma xml_compatible_app (a b : string) :
  xml_compatible (a +:+ b) = xml_compatible a && xml_compatible b.
Proof.
  induction a as [|c a IH]; [done|].
  change (String c a +:+ b) with (String c (a +:+ b)).
  by rewrite !xml_compatible_cons, IH, andb_assoc.
Qed.

Lemma replace_from_compatible (old new : string) (skip : nat) (s : string) :
  xml_compatible new = true -> xml_compatible s = true ->
  xml_compatible (replace_from old new skip s) = true.
Proof.
  intros Hnew. revert skip. induction s as [|c s IH]; intros skip; [done|].
  rewrite xml_compatible_cons. intros [Hc Hs]%andb_true_iff.
  cbn [replace_from]. destruct skip as [|k]; [|by apply IH].
  destruct (String.prefix old (String c s)).
  - rewrite xml_compatible_app, Hnew. by apply IH.
  - rewrite xml_compatible_cons, Hc. by apply IH.
Qed.

Lemma interleave_compatible (new s : string) :
  xml_compatible new = true -> xml_compatible s = true ->
  xml_compatible (interleave new s) = true.
Proof.
  intros Hnew. induction s as [|c s IH]; [done|].
  rewrite xml_compatible_cons. intros [Hc Hs]%andb_true_iff.
  cbn [interleave]. rewrite xml_compatible_app, Hnew, xml_compatible_cons, Hc.
  by apply IH.
Qed.

Lemma str_replace_compatible (old new s : string) :
  xml_compatible new = true -> xml_compatible s = true ->
  xml_compatible (str_replace old new s) = true.
Proof.
  intros Hnew Hs. unfold str_replace. destruct old.
  - by apply interleave_compatible.
  - by apply replace_from_compatible.
Qed.

Lemma replace_all_compatible (d : dict) (s : string) :
  Forall (fun kv => xml_compatible kv.2 = true) d ->
  xml_compatible s = true -> xml_compatible (replace_all d s) = true.
Proof.
  unfold replace_all. intros Hd. revert s.
  induction Hd as [|[k v] d Hv Hd IH]; intros s Hs; [done|].
  cbn [fold_left]. apply IH. by apply str_replace_compatible.
Qed.

Lemma stored_compatible (s : string) :
  xml_compatible s = true -> xml_compatible (stored s) = true.
Proof.
  induction s as [|c s IH]; [done|]. cbn [stored].
  rewrite !xml_compatible_cons. intros [Hc Hs]%andb_true_iff.
  rewrite (IH Hs), andb_true_r. unfold stored_char.
  by destruct (code c =? 13)%N.
Qed.

Lemma blank_compatible (l : list inline) :
  xml_compatible (text (Paragraph l)) = true ->
  xml_compatible (text (Paragraph (blank_runs l))) = true.
Proof.
  unfold text. cbn [content]. induction l as [|[s|s] l IH]; [done| |].
  - cbn [blank_runs map inline_text str_concat].
    rewrite xml_compatible_app. intros [_ Hl]%andb_true_iff. by apply IH.
  - cbn [blank_runs map inline_text str_concat].
    rewrite !xml_compatible_app. intros [-> Hl]%andb_true_iff. by apply IH.
Qed.

Lemma written_compatible (new : string) (l : list inline) :
  xml_compatible new = true ->
  xml_compatible (text (Paragraph l)) = true ->
  xml_compatible (text (Paragraph (write_runs new l))) = true.
Proof.
  intros Hnew. unfold text. cbn [content]. induction l as [|[s|s] l IH]; [done| |].
  - cbn [write_runs map inline_text str_concat].
    rewrite !xml_compatible_app, Hnew. intros [_ Hl]%andb_true_iff.
    by apply (blank_compatible l).
  - cbn [write_runs map inline_text str_concat].
    rewrite !xml_compatible_app. intros [-> Hl]%andb_true_iff. by apply IH.
Qed.

(** With values XML can hold, the pass on text XML can hold succeeds and
    leaves such text. *)
Lemma replace_in_paragraph_compatible (p : paragraph) (d : dict) :
  Forall (fun kv => xml_compatible kv.2 = true) d ->
  xml_compatible (text p) = true ->
  exists p', _replace_in_paragraph p d = Ok p' /\ xml_compatible (text p') = true.
Proof.
  intros Hd Hp. unfold _replace_in_paragraph.
  destruct (_ && _); [|by exists p].
  unfold set_run_text. rewrite (replace_all_compatible d _ Hd Hp).
  cbn [mbind result_bind]. eexists. split; [done|].
  destruct p as [l]. apply written_compatible; [|done].
  by apply stored_compatible, replace_all_compatible.
Qed.

Lemma for_in_runs {A S : Type} (I : S -> Prop) (l : list A)
    (body : S -> A -> result S) (st : S) :
  (forall st0 a, a ∈ l -> I st0 -> exists st1, body st0 a = Ok st1 /\ I st1) ->
  I st -> exists st', for_in l body st = Ok st' /\ I st'.
Proof.
  revert st. induction l as [|a l IH]; intros st Hbody Hst; [by exists st|].
  cbn [for_in].
  destruct (Hbody st a) as (st1 & -> & Hst1); [apply elem_of_cons; by left|done|].
  cbn [mbind result_bind]. apply IH; [|done].
  intros st0 b Hb. apply Hbody, elem_of_cons. by right.
Qed.

Lemma fill_paragraphs_compatible (d : dict) (ps : list nat) (st : list paragraph) :
  Forall (fun kv => xml_compatible kv.2 = true) d ->
  Forall (fun p => xml_compatible (text p) = true) st ->
  exists st', fill_paragraphs d ps st = Ok st'
              /\ Forall (fun p => xml_compatible (text p) = true) st'.
Proof.
  intros Hd. unfold fill_paragraphs.
  apply (for_in_runs (Forall (fun p => xml_compatible (text p) = true))).
  intros st0 i _ Hst0. unfold fill_paragraph.
  destruct (st0 !! i) as [p|] eqn:Hp; [|by exists st0].
  destruct (replace_in_paragraph_compatible p d Hd) as (p' & -> & Hp').
  { by apply (Forall_lookup_1 _ _ _ _ Hst0 Hp). }
  cbn [mbind result_bind]. eexists. split; [done|]. by apply Forall_insert.
Qed.

Lemma fill_document_compatible (doc : document) (d : dict) :
  Forall (fun kv => xml_compatible kv.2 = true) d ->
  laid_out doc = true ->
  Forall (fun p => xml_compatible (text p) = true) (store doc) ->
  exists doc', fill_document doc d = Ok doc'.
Proof.
  intros Hd Hrows Hdoc. unfold fill_document.
  unfold laid_out in Hrows. rewrite forallb_forall in Hrows.
  destruct (fill_paragraphs_compatible d (paragraphs doc) _ Hd Hdoc) as (st1 & -> & H1).
  cbn [mbind result_bind].
  pose (I := Forall (fun p : paragraph => xml_compatible (text p) = true)).
  destruct (for_in_runs I (tables doc)
              (fun st table =>
                 for_in table
                   (fun st tbl_row =>
                      row_cells ← tbl_row;
                      for_in row_cells (fun st cell => fill_paragraphs d cell st) st)
                   st) st1) as (st2 & H2 & HI2); [|done|].
  { intros sa table Htable%list_elem_of_In Hsa.
    pose proof (Hrows table Htable) as Htbl. rewrite forallb_forall in Htbl.
    apply (for_in_runs I); [|done].
    intros sb tbl_row Hrow%list_elem_of_In Hsb.
    pose proof (Htbl tbl_row Hrow) as Hok.
    destruct tbl_row as [row_cells|e]; [|done]. cbn [mbind result_bind].
    apply (for_in_runs I); [|done].
    intros sc cell _ Hsc. by apply fill_paragraphs_compatible. }
  unfold fill_tables. rewrite H2. cbn [mbind result_bind].
  destruct (for_in_runs I (header_footer_parts doc)
              (fun st part => fill_paragraphs d part st) st2) as (st3 & -> & _);
    [|done|].
  { intros sa part _ Hsa. by apply fill_paragraphs_compatible. }
  by eexists.
Qed.

(** ** The "Generate PDFs" loop *)

Section Downloads.

Context `{PyLib} {W : Type} `{Outside W}.

Lemma generate_loop_app (df : list row) (done rest : list Z)
    (gen : gmap Z (string * bytes)) (w : W) :
  generate_loop df (done ++ rest) gen w =
    match generate_loop df done gen w with
    | (w1, Ok gen1) => generate_loop df rest gen1 w1
    | (w1, Raise e) => (w1, Raise e)
    end.
Proof.
  revert gen w. induction done as [|idx done IH]; intros gen w; [done|].
  cbn [app generate_loop]. unfold mbind, io_bind, io_lift.
  destruct (df_iloc df idx) as [r|e]; [|done].
  destruct (generate_pdf r w) as [w1 [pdf|e]]; [|done].
  apply IH.
Qed.

(** X17.  The "Generate PDFs" loop stops at the first row whose PDF
    cannot be made: the exception of that row leaves the loop, the rows
    after it are not attempted (the world is as the failing call left
    it) and no dict of PDFs is produced, the ones already made
    included. *)
Theorem generate_stops_at_first_failure (df : list row) (done rest : list Z)
    (idx : Z) (r : row) (gen : gmap Z (string * bytes)) (w w1 w2 : W) (e : exn) :
  generate_all df done w = (w1, Ok gen) ->
  df_iloc df idx = Ok r ->
  generate_pdf r w1 = (w2, Raise e) ->
  generate_all df (done ++ idx :: rest) w = (w2, Raise e).
Proof.
  unfold generate_all. intros Hdone Hr Hpdf.
  rewrite generate_loop_app, Hdone. cbn [generate_loop].
  unfold mbind, io_bind, io_lift. by rewrite Hr, Hpdf.
Qed.

Lemma generate_loop_entries (df : list row) (selected : list Z)
    (gen0 gen : gmap Z (string * bytes)) (w w' : W) :
  generate_loop df selected gen0 w = (w', Ok gen) ->
  dom gen = dom gen0 ∪ (list_to_set selected : gset Z)
  /\ (forall idx, idx ∈ selected ->
        exists r pdf, df_iloc df idx = Ok r
                      /\ gen !! idx = Some (invoice_name r idx, pdf))
  /\ (forall idx, idx ∉ selected -> gen !! idx = gen0 !! idx).
Proof.
  revert gen0 w. induction selected as [|idx rest IH]; intros gen0 w Hrun.
  - injection Hrun as _ <-.
    split; [by rewrite list_to_set_nil, (right_id_L ∅ (∪))|].
    split; [by intros idx ?%elem_of_nil|done].
  - cbn [generate_loop] in Hrun. unfold mbind, io_bind, io_lift in Hrun.
    destruct (df_iloc df idx) as [r|] eqn:Hr; [|done].
    destruct (generate_pdf r w) as [w1 [pdf|]] eqn:Hpdf; [|done].
    destruct (IH _ _ Hrun) as (Hdom & Hin & Hout).
    split; [|split].
    + rewrite Hdom, dom_insert_L, list_to_set_cons.
      by rewrite (assoc_L (∪) (dom gen0)), (comm_L (∪) (dom gen0) {[idx]}).
    + intros j Hj. destruct (decide (j ∈ rest)) as [Hrest|Hrest]; [by apply Hin|].
      apply elem_of_cons in Hj as [->|Hj]; [|done].
      exists r, pdf. split; [done|].
      by rewrite (Hout idx Hrest), lookup_insert_eq.
    + intros j Hj. apply not_elem_of_cons in Hj as [Hne Hj].
      by rewrite (Hout j Hj), lookup_insert_ne.
Qed.

(** X18.  When the "Generate PDFs" loop ends, the dict it leaves has
    exactly the selected indices as keys; under each index it holds the
    file name computed from the row of that index and a PDF; and for a
    selection without repeats it has as many entries as rows were
    selected. *)
Theorem generate_all_entries (df : list row) (selected : list Z)
    (gen : gmap Z (string * bytes)) (w w' : W) :
  generate_all df selected w = (w', Ok gen) ->
  dom gen = (list_to_set selected : gset Z)
  /\ (forall idx, idx ∈ selected ->
        exists r pdf, df_iloc df idx = Ok r
                      /\ gen !! idx = Some (invoice_name r idx, pdf))
  /\ (NoDup selected -> size gen = length selected).
Proof.
  intros Hrun. destruct (generate_loop_entries _ _ _ _ _ _ Hrun) as (Hdom & Hin & _).
  rewrite dom_empty_L, (left_id_L ∅ (∪)) in Hdom.
  split; [done|]. split; [done|].
  intros Hnd. by rewrite <- size_dom, Hdom, size_list_to_set.
Qed.

Lemma generate_pdf_rendered (r : row) (w : W) :
  (forall path w0, exists w1 doc,
     open_template path w0 = (w1, Ok doc)
     /\ laid_out doc = true
     /\ Forall (fun p => xml_compatible (text p) = true) (store doc)) ->
  (forall doc w0, exists w1 pdf, convert_to_pdf doc w0 = (w1, Ok pdf)) ->
  (forall i, 1 <= i <= 6 -> line_renders r i = true) ->
  (forall s, sum_of_present r <> S754_infinity s) ->
  (forall replacements, build_replacements r = Ok replacements ->
     Forall (fun kv => xml_compatible kv.2 = true) replacements) ->
  exists w' pdf, generate_pdf r w = (w', Ok pdf).
Proof.
  intros Hopen Hconv Hlines Htotal Hvalues.
  unfold generate_pdf, mbind, io_bind, io_lift.
  destruct (Hopen DOCX_TEMPLATE w) as (w1 & doc & -> & Hrows & Hdoc).
  destruct (proj2 (build_replacements_Ok_iff r)) as [replacements Hbuild]; [done|].
  rewrite Hbuild.
  destruct (fill_document_compatible doc replacements (Hvalues _ Hbuild) Hrows Hdoc)
    as [doc' ->].
  apply Hconv.
Qed.

(** X19.  With a template that opens and whose tables can be laid out,
    a converter that converts and text that XML can hold (in the
    template and in every value of the map of each row), the "Generate
    PDFs" loop ends normally with its dict for every selection of rows
    of the table in which each row renders: every line is absent or
    formats without overflow, and the total is not an infinity. *)
Theorem generate_all_succeeds (df : list row) (selected : list Z) (w : W) :
  (forall path w0, exists w1 doc,
     open_template path w0 = (w1, Ok doc)
     /\ laid_out doc = true
     /\ Forall (fun p => xml_compatible (text p) = true) (store doc)) ->
  (forall doc w0, exists w1 pdf, convert_to_pdf doc w0 = (w1, Ok pdf)) ->
  (forall idx, idx ∈ selected -> 0 <= idx < Z.of_nat (length df)) ->
  (forall idx r, idx ∈ selected -> df_iloc df idx = Ok r ->
     (forall i, 1 <= i <= 6 -> line_renders r i = true)
     /\ (forall s, sum_of_present r <> S754_infinity s)
     /\ (forall replacements, build_replacements r = Ok replacements ->
           Forall (fun kv => xml_compatible kv.2 = true) replacements)) ->
  exists w' gen, generate_all df selected w = (w', Ok gen).
Proof.
  intros Hopen Hconv Hrange Hrows. unfold generate_all.
  generalize (∅ : gmap Z (string * bytes)) as gen0.
  revert w. induction selected as [|idx rest IH]; intros w gen0; [by eexists _, _|].
  cbn [generate_loop]. unfold mbind, io_bind, io_lift.
  destruct (df_iloc_in_range df idx) as [r Hr]; [apply Hrange, elem_of_cons; by left|].
  rewrite Hr.
  destruct (Hrows idx r) as (Hlines & Htotal & Hvalues);
    [apply elem_of_cons; by left|done|].
  destruct (generate_pdf_rendered r w Hopen Hconv Hlines Htotal Hvalues)
    as (w1 & pdf & ->).
  apply IH.
  - intros j Hj. apply Hrange, elem_of_cons. by right.
  - intros j r' Hj. apply Hrows, elem_of_cons. by right.
Qed.

(** X20.  A row that does not render makes [generate_pdf] raise
    [OverflowError] once the template is open and before anything is
    converted: the world is as opening the template left it. *)
Theorem generate_pdf_unrendered (r : row) (w w1 : W) (doc : document) :
  open_template DOCX_TEMPLATE w = (w1, Ok doc) ->
  (exists i, 1 <= i <= 6 /\ line_renders r i = false)
  \/ (exists s, sum_of_present r = S754_infinity s) ->
  generate_pdf r w = (w1, Raise OverflowError).
Proof.
  intros Hopen Hbad. unfold generate_pdf, mbind, io_bind, io_lift. rewrite Hopen.
  destruct (build_replacements r) as [replacements|e] eqn:Hbuild.
  - exfalso.
    destruct (proj1 (build_replacements_Ok_iff r)) as [Hlines Htotal]; [by eexists|].
    destruct Hbad as [(i & Hi & Hno)|[s Hs]].
    + by rewrite (Hlines i Hi) in Hno.
    + by apply (Htotal s).
  - by rewrite (build_replacements_raises r e Hbuild).
Qed.

End Downloads.

(** ** Templates of plain pieces *)

Lemma has_char_cons (c x : ascii) (s : string) :
  has_char c (String x s) = Ascii.eqb c x || has_char c s.
Proof. reflexivity. Qed.

Lemma has_char_app (c : ascii) (a b : string) :
  has_char c (a +:+ b) = has_char c a || has_char c b.
Proof.
  induction a as [|x a IH]; [done|].
  change (String x a +:+ b) with (String x (a +:+ b)).
  by rewrite !has_char_cons, IH, orb_assoc.
Qed.

Lemma prefix_cons (a b : ascii) (s t : string) :
  String.prefix (String a s) (String b t) = Ascii.eqb a b && String.prefix s t.
Proof.
  cbn [String.prefix]. destruct (ascii_dec a b) as [->|Hne].
  - by rewrite Ascii.eqb_refl.
  - by rewrite (proj2 (Ascii.eqb_neq a b) Hne).
Qed.

Lemma prefix_app (s t : string) : String.prefix s (s +:+ t) = true.
Proof.
  induction s as [|c s IH]; [by destruct t|].
  change (String c s +:+ t) with (String c (s +:+ t)).
  by rewrite prefix_cons, Ascii.eqb_refl.
Qed.

(** A stretch of text without the first character of [old] is passed
    as it is. *)
Lemma replace_from_plain (c : ascii) (old new s t : string) :
  has_char c s = false ->
  replace_from (String c old) new 0 (s +:+ t)
  = s +:+ replace_from (String c old) new 0 t.
Proof.
  induction s as [|x s IH]; [done|].
  rewrite has_char_cons. intros [Hx Hs]%orb_false_iff.
  change (String x s +:+ t) with (String x (s +:+ t)).
  cbn [replace_from]. rewrite prefix_cons, Hx. cbn [andb].
  change (String x s +:+ ?u) with (String x (s +:+ u)). by rewrite IH.
Qed.

Lemma replace_from_skip (old new a t : string) :
  replace_from old new (String.length a) (a +:+ t) = replace_from old new 0 t.
Proof.
  induction a as [|x a IH]; [done|].
  change (String x a +:+ t) with (String x (a +:+ t)). exact IH.
Qed.

(** An occurrence at the very start is replaced, and the search goes on
    behind it. *)
Lemma replace_from_here (old new t : string) :
  nonempty old = true ->
  replace_from old new 0 (old +:+ t) = new +:+ replace_from old new 0 t.
Proof.
  destruct old as [|c old]; [done|]. intros _.
  change (String c old +:+ t) with (String c (old +:+ t)).
  cbn [replace_from].
  change (String c (old +:+ t)) with (String c old +:+ t).
  rewrite prefix_app.
  replace (String.length (String c old) - 1)%nat with (String.length old)
    by (cbn [String.length]; lia).
  by rewrite replace_from_skip.
Qed.

(** Two placeholders of brace-free names match only when they are the
    same. *)
Lemma closing_prefix (g n t : string) :
  has_char "}" g = false -> has_char "}" n = false ->
  String.prefix (g +:+ "}}") (n +:+ "}}" +:+ t) = true -> g = n.
Proof.
  revert n. induction g as [|a g IH]; intros [|b n] Hg Hn.
  - done.
  - change (String b n +:+ ?u) with (String b (n +:+ u)).
    change ("" +:+ "}}") with "}}". rewrite prefix_cons.
    rewrite has_char_cons in Hn. apply orb_false_iff in Hn as [Hb _].
    by rewrite Hb.
  - change (String a g +:+ ?u) with (String a (g +:+ u)).
    change ("" +:+ "}}" +:+ t) with (String "}" (String "}" t)). rewrite prefix_cons.
    rewrite has_char_cons in Hg. apply orb_false_iff in Hg as [Ha _].
    rewrite Ascii.eqb_sym in Ha. by rewrite Ha.
  - change (String a g +:+ ?u) with (String a (g +:+ u)).
    change (String b n +:+ ?u) with (String b (n +:+ u)).
    rewrite prefix_cons. intros [Hab Hp]%andb_true_iff.
    apply Ascii.eqb_eq in Hab as ->.
    rewrite has_char_cons in Hg, Hn.
    apply orb_false_iff in Hg as [_ Hg]. apply orb_false_iff in Hn as [_ Hn].
    f_equal. by apply IH.
Qed.

Lemma brace_free_spec (s : string) :
  brace_free s = true -> has_char "{" s = false /\ has_char "}" s = false.
Proof.
  unfold brace_free. intros [H1 H2]%andb_true_iff.
  by apply negb_true_iff in H1, H2.
Qed.

Lemma token_unfold (name t : string) :
  token name +:+ t = String "{" (String "{" (name +:+ "}}" +:+ t)).
Proof.
  unfold token. rewrite !append_assoc. reflexivity.
Qed.

(** A placeholder of another name is passed as it is. *)
Lemma replace_from_other_token (g n new t : string) :
  brace_free g = true -> brace_free n = true -> g <> n ->
  replace_from (token g) new 0 (token n +:+ t)
  = token n +:+ replace_from (token g) new 0 t.
Proof.
  intros [_ Hg]%brace_free_spec [Hn1 Hn2]%brace_free_spec Hne.
  rewrite !token_unfold.
  change (token g) with (String "{" (String "{" (g +:+ "}}"))).
  cbn [replace_from].
  rewrite !prefix_cons. cbn [Ascii.eqb Bool.eqb andb].
  destruct (String.prefix (g +:+ "}}") (n +:+ "}}" +:+ t)) eqn:Hp.
  { by destruct Hne; apply (closing_prefix g n t). }
  assert (String.prefix (String "{" (g +:+ "}}")) (n +:+ "}}" +:+ t) = false) as ->.
  { destruct n as [|b n].
    - change ("" +:+ "}}" +:+ t) with (String "}" (String "}" t)).
      by rewrite prefix_cons.
    - change (String b n +:+ ?u) with (String b (n +:+ u)). rewrite prefix_cons.
      rewrite has_char_cons in Hn1. apply orb_false_iff in Hn1 as [-> _]. done. }
  do 2 f_equal.
  rewrite <- append_assoc.
  rewrite (replace_from_plain "{" _ new (n +:+ "}}") t).
  - by rewrite append_assoc.
  - by rewrite has_char_app, Hn1.
Qed.

Lemma render_cons (x : piece) (pieces : list piece) :
  render (x :: pieces) = piece_text x +:+ render pieces.
Proof. reflexivity. Qed.

(** Replacing one placeholder in a text of plain pieces replaces the
    pieces that hold it, and nothing else. *)
Lemma str_replace_render (g v : string) (pieces : list piece) :
  brace_free g = true ->
  forallb plain pieces = true ->
  str_replace (token g) v (render pieces) = render (map (fill_one g v) pieces).
Proof.
  intros Hg. change (str_replace (token g) v) with (replace_from (token g) v 0).
  induction pieces as [|x pieces IH]; [done|].
  cbn [forallb map]. intros [Hx Hrest]%andb_true_iff.
  rewrite !render_cons, <- (IH Hrest). destruct x as [s|n]; cbn [plain] in Hx.
  - cbn [piece_text fill_one].
    apply (replace_from_plain "{"). by apply negb_true_iff.
  - cbn [piece_text fill_one]. destruct (String.eqb_spec n g) as [->|Hne].
    + cbn [piece_text]. by apply replace_from_here.
    + cbn [piece_text]. apply replace_from_other_token; [done|done|congruence].
Qed.

Lemma fill_one_plain (g v : string) (pieces : list piece) :
  (Tok g ∈ pieces -> has_char "{" v = false) ->
  forallb plain pieces = true ->
  forallb plain (map (fill_one g v) pieces) = true.
Proof.
  induction pieces as [|x pieces IH]; [done|].
  cbn [forallb map]. intros Hv [Hx Hrest]%andb_true_iff.
  rewrite IH; [|intros Hin; apply Hv, elem_of_cons; by right|done].
  rewrite andb_true_r. destruct x as [s|n]; [done|]. cbn [fill_one].
  destruct (String.eqb_spec n g) as [->|Hne]; [|done].
  cbn [plain]. rewrite Hv; [done|]. apply elem_of_cons. by left.
Qed.

Lemma fill_one_elem (g v n : string) (pieces : list piece) :
  Tok n ∈ map (fill_one g v) pieces -> Tok n ∈ pieces /\ n <> g.
Proof.
  induction pieces as [|x pieces IH]; [by intros ?%elem_of_nil|].
  cbn [map]. intros [Hx|Hin]%elem_of_cons.
  - destruct x as [s|m]; [done|]. cbn [fill_one] in Hx.
    destruct (String.eqb_spec m g) as [->|Hne]; [done|].
    injection Hx as ->. split; [apply elem_of_cons; by left|done].
  - destruct (IH Hin) as [Hn Hne]. split; [apply elem_of_cons; by right|done].
Qed.

(** The whole pass on a text of plain pieces, for a map whose keys are
    placeholders of brace-free names: every piece is filled on its own. *)
Lemma replace_all_render (d : dict) (pieces : list piece) :
  Forall (fun k => exists g, k = token g /\ brace_free g = true) (dict_keys d) ->
  forallb plain pieces = true ->
  (forall n v, Tok n ∈ pieces -> dict_get d (token n) = Some v ->
     has_char "{" v = false) ->
  replace_all d (render pieces) = render (map (fill_piece d) pieces).
Proof.
  unfold replace_all. revert pieces.
  induction d as [|[k v] d IH]; intros pieces Hkeys Hplain Hvals.
  - cbn [fold_left]. f_equal. rewrite <- (map_id pieces) at 1.
    apply map_ext. by intros [s|n].
  - cbn [dict_keys map fst] in Hkeys.
    apply Forall_cons in Hkeys as [(g & -> & Hg) Hkeys].
    cbn [fold_left]. rewrite (str_replace_render g v pieces Hg Hplain).
    rewrite IH; [|done| |].
    + f_equal. rewrite map_map. apply map_ext. intros [s|n]; [done|].
      cbn [fill_one fill_piece dict_get].
      destruct (String.eqb_spec n g) as [->|Hne].
      * by rewrite String.eqb_refl.
      * destruct (String.eqb_spec (token g) (token n)) as [E%token_inj|_]; [congruence|].
        done.
    + apply fill_one_plain; [|done]. intros Hin. apply (Hvals g v Hin).
      cbn [dict_get]. by rewrite String.eqb_refl.
    + intros n v' [Hin Hne]%fill_one_elem Hget. apply (Hvals n v' Hin).
      cbn [dict_get].
      destruct (String.eqb_spec (token g) (token n)) as [E%token_inj|_]; [congruence|].
      done.
Qed.

Lemma placeholder_tokens_names : placeholder_tokens = map token placeholder_names.
Proof. vm_compute. reflexivity. Qed.

Lemma placeholder_names_brace_free :
  Forall (fun name => brace_free name = true) placeholder_names.
Proof. apply List.Forall_forall, forallb_forall. by vm_compute. Qed.

Lemma fill_piece_idem (d : dict) (x : piece) :
  fill_piece d (fill_piece d x) = fill_piece d x.
Proof.
  destruct x as [s|n]; [done|]. cbn [fill_piece].
  destruct (dict_get d (token n)) as [v|] eqn:E; [done|].
  cbn [fill_piece]. by rewrite E.
Qed.

Lemma fill_piece_elem (d : dict) (n : string) (pieces : list piece) :
  Tok n ∈ map (fill_piece d) pieces -> dict_get d (token n) = None.
Proof.
  induction pieces as [|x pieces IH]; [by intros ?%elem_of_nil|].
  cbn [map]. intros [Hx|Hin]%elem_of_cons; [|by apply IH].
  destruct x as [s|m]; [done|]. cbn [fill_piece] in Hx.
  destruct (dict_get d (token m)) as [v|] eqn:E; [done|]. by injection Hx as ->.
Qed.

Lemma fill_piece_plain (d : dict) (pieces : list piece) :
  forallb plain pieces = true ->
  (forall n v, Tok n ∈ pieces -> dict_get d (token n) = Some v ->
     has_char "{" v = false) ->
  forallb plain (map (fill_piece d) pieces) = true.
Proof.
  induction pieces as [|x pieces IH]; [done|].
  cbn [forallb map]. intros [Hx Hrest]%andb_true_iff Hvals.
  rewrite IH; [|done|intros n v Hn; apply Hvals, elem_of_cons; by right].
  rewrite andb_true_r. destruct x as [s|n]; [done|]. cbn [fill_piece].
  destruct (dict_get d (token n)) as [v|] eqn:E; [|done].
  cbn [plain]. rewrite (Hvals n v); [done|apply elem_of_cons; by left|done].
Qed.

Section Filling.

Context `{PyLib}.

(** The keys of every map that is built are placeholders of brace-free
    names. *)
Lemma built_keys (r : row) (replacements : dict) :
  build_replacements r = Ok replacements ->
  Forall (fun k => exists g, k = token g /\ brace_free g = true)
         (dict_keys replacements).
Proof.
  intros Hbuild.
  destruct (replacements_keys r replacements Hbuild) as [-> _].
  rewrite placeholder_tokens_names. apply Forall_map.
  eapply Forall_impl; [apply placeholder_names_brace_free|].
  intros name Hname. by exists name.
Qed.

(** X21.  On a paragraph without hyperlinks that has a run and whose
    text is made of plain pieces (literal text without an opening
    brace, and placeholders of brace-free names) the pass fills every
    piece on its own: a placeholder of the map becomes its value,
    wherever its characters are spread over the runs, and literal text
    and unknown placeholders stay; provided the values that go in hold
    no opening brace and the filled text can be stored as it is. *)
Theorem paragraph_filled (r : row) (replacements : dict) (p : paragraph)
    (pieces : list piece) :
  build_replacements r = Ok replacements ->
  hyperlink_free p = true ->
  runs p <> [] ->
  text p = render pieces ->
  forallb plain pieces = true ->
  (forall name v, Tok name ∈ pieces ->
     dict_get replacements (token name) = Some v -> has_char "{" v = false) ->
  storable (render (map (fill_piece replacements) pieces)) = true ->
  exists p', _replace_in_paragraph p replacements = Ok p'
             /\ text p' = render (map (fill_piece replacements) pieces).
Proof.
  intros Hbuild Hfree Hruns Htext Hplain Hvals Hst.
  assert (replace_all replacements (text p)
          = render (map (fill_piece replacements) pieces)) as Hnew.
  { rewrite Htext. apply replace_all_render; [|done|done]. by apply (built_keys r). }
  destruct (replace_in_paragraph_text p replacements Hfree Hruns) as (p' & Hp & Ht).
  { by rewrite Hnew. }
  exists p'. split; [done|]. by rewrite Ht.
Qed.

(** X22.  Filling such a paragraph a second time changes nothing: what
    the first pass puts in holds no placeholder of the map. *)
Theorem filling_twice (r : row) (replacements : dict) (p : paragraph)
    (pieces : list piece) :
  build_replacements r = Ok replacements ->
  hyperlink_free p = true ->
  text p = render pieces ->
  forallb plain pieces = true ->
  (forall name v, Tok name ∈ pieces ->
     dict_get replacements (token name) = Some v -> has_char "{" v = false) ->
  storable (render (map (fill_piece replacements) pieces)) = true ->
  exists p', _replace_in_paragraph p replacements = Ok p'
             /\ _replace_in_paragraph p' replacements = Ok p'.
Proof.
  intros Hbuild Hfree Htext Hplain Hvals Hst.
  destruct (decide (runs p = [])) as [Hruns|Hruns].
  { exists p. by rewrite (replace_in_paragraph_no_runs p replacements Hruns). }
  assert (replace_all replacements (text p)
          = render (map (fill_piece replacements) pieces)) as Hnew.
  { rewrite Htext. apply replace_all_render; [|done|done]. by apply (built_keys r). }
  destruct (replace_in_paragraph_text p replacements Hfree Hruns) as (p' & Hp & Ht).
  { by rewrite Hnew. }
  exists p'. split; [done|].
  apply replace_in_paragraph_unchanged. rewrite Ht, Hnew.
  rewrite replace_all_render.
  - f_equal. rewrite map_map. apply map_ext. intros x. apply fill_piece_idem.
  - by apply (built_keys r).
  - by apply fill_piece_plain.
  - intros n v Hn Hget. by rewrite (fill_piece_elem _ _ _ Hn) in Hget.
Qed.

End Filling.

(** * Examples *)

(** A blank service line: line 2 of [row_blank_service]. *)
Lemma C3_blank_service_line_witness :
  1 <= 2 <= 6
  /\ safe (H := sample_lib) row_blank_service (line_column "Service" 2) = ""
  /\ (forall replacements,
        build_replacements (H := sample_lib) row_blank_service = Ok replacements ->
        dict_get replacements (line_token "Service" 2) = Some ""
        /\ dict_get replacements (line_token "Qty" 2) = Some ""
        /\ dict_get replacements (line_token "Price" 2) = Some ""
        /\ dict_get replacements (line_token "Subtotal" 2) = Some "").
Proof.
  split; [lia|]. split; [vm_compute; reflexivity|].
  apply (C3_blank_service_line (H := sample_lib) row_blank_service 2).
  - lia.
  - vm_compute; reflexivity.
Defined.

Example blank_service_map :
  build_replacements (H := sample_lib) row_blank_service =
    Ok [("{{Client}}", "PT Test Company"); ("{{PIC}}", ""); ("{{Contact}}", "");
        ("{{E-mail}}", "test@example.com"); ("{{Address}}", "");
        ("{{No. Invoice}}", ""); ("{{No. Quotation}}", "");
        ("{{Invoice Date}}", ""); ("{{Due Date}}", "");
        ("{{Service 1}}", "Layanan contoh 1"); ("{{Qty 1}}", "3");
        ("{{Price 1}}", "500.000"); ("{{Subtotal 1}}", "1.500.000");
        ("{{Service 2}}", ""); ("{{Qty 2}}", ""); ("{{Price 2}}", "");
        ("{{Subtotal 2}}", "");
        ("{{Service 3}}", ""); ("{{Qty 3}}", ""); ("{{Price 3}}", "");
        ("{{Subtotal 3}}", "");
        ("{{Service 4}}", ""); ("{{Qty 4}}", ""); ("{{Price 4}}", "");
        ("{{Subtotal 4}}", "");
        ("{{Service 5}}", ""); ("{{Qty 5}}", ""); ("{{Price 5}}", "");
        ("{{Subtotal 5}}", "");
        ("{{Service 6}}", ""); ("{{Qty 6}}", ""); ("{{Price 6}}", "");
        ("{{Subtotal 6}}", "");
        ("{{Total}}", "1.500.000"); ("{{Terbilang}}", "1.500.000")].
Proof. vm_compute. reflexivity. Qed.

(** C2 as stated fails on a discount line: the quantity -1 parses, the
    line contributes -50000.0 and the total is negative.  It fails on
    NaN too: with the quantity [nan] the line contributes NaN. *)
Lemma C2_counterexample :
  (exists subtotals,
      calculated_columns (H := sample_lib) row_discount
        = Ok (subtotals, S754_finite true 6871947673600000 (-37))
      /\ subtotals !! 1 = Some (S754_finite true 6871947673600000 (-37)))
  /\ float_is_negative (S754_finite true 6871947673600000 (-37)) = true
  /\ py_round (S754_finite true 6871947673600000 (-37)) = Ok (-50000)
  /\ (exists subtotals,
        calculated_columns (H := sample_lib) row_nan_quantity
          = Ok (subtotals, S754_nan)
        /\ subtotals !! 1 = Some S754_nan).
Proof.
  split; [|split; [reflexivity|split; [reflexivity|]]].
  - eexists. split; vm_compute; reflexivity.
  - eexists. split; vm_compute; reflexivity.
Qed.

Lemma C2_total_of_present_lines_witness :
  present (H := sample_lib) row_blank_service 1 = true
  /\ parsed (safe (H := sample_lib) row_blank_service (line_column "Qty" 1))
     = Some (S754_finite false 6755399441055744 (-51))
  /\ parsed (safe (H := sample_lib) row_blank_service (line_column "Price" 1))
     = Some (S754_finite false 8589934592000000 (-34))
  /\ float_is_negative (line_subtotal (H := sample_lib) row_blank_service 1) = false
  /\ float_is_nan (line_subtotal (H := sample_lib) row_blank_service 1) = false.
Proof.
  pose proof (C2_total_of_present_lines (H := sample_lib) row_blank_service)
    as (_ & _ & _ & Hprod).
  assert (present (H := sample_lib) row_blank_service 1 = true) as Hp
    by (vm_compute; reflexivity).
  assert (parsed (safe (H := sample_lib) row_blank_service (line_column "Qty" 1))
          = Some (S754_finite false 6755399441055744 (-51))) as Hq
    by (vm_compute; reflexivity).
  assert (parsed (safe (H := sample_lib) row_blank_service (line_column "Price" 1))
          = Some (S754_finite false 8589934592000000 (-34))) as Hpr
    by (vm_compute; reflexivity).
  split; [exact Hp|]. split; [exact Hq|]. split; [exact Hpr|].
  apply (proj2 (Hprod 1 _ _ Hp Hq Hpr)); reflexivity.
Defined.


(** Line 2 of [row_nan_quantity]: the quantity [N/A] is echoed and the
    line has subtotal [0.0]. *)
Lemma C4_quantity_text_witness :
  1 <= 2 <= 6
  /\ present (H := sample_lib) row_nan_quantity 2 = true
  /\ float_of_str (safe (H := sample_lib) row_nan_quantity (line_column "Qty" 2))
     = Raise ValueError
  /\ qty_text (safe (H := sample_lib) row_nan_quantity (line_column "Qty" 2))
     = Ok (safe (H := sample_lib) row_nan_quantity (line_column "Qty" 2))
  /\ (safe (H := sample_lib) row_nan_quantity (line_column "Qty" 2) <> "" ->
      line_subtotal (H := sample_lib) row_nan_quantity 2 = float_zero).
Proof.
  assert (present (H := sample_lib) row_nan_quantity 2 = true) as Hp
    by (vm_compute; reflexivity).
  assert (float_of_str (safe (H := sample_lib) row_nan_quantity (line_column "Qty" 2))
          = Raise ValueError) as Hq by (vm_compute; reflexivity).
  split; [lia|]. split; [exact Hp|]. split; [exact Hq|].
  pose proof (C4_quantity_text (H := sample_lib) row_nan_quantity 2
                ltac:(lia) Hp) as (Hraise & _).
  exact (Hraise ValueError Hq).
Defined.

(** C4 as stated fails on a quantity that parses but is not finite: the
    text [nan] parses, is echoed instead of being shown as an integer,
    and the line contributes NaN, not 0; with the text [inf] no map is
    built at all. *)
Lemma C4_counterexample :
  present (H := sample_lib) row_nan_quantity 1 = true
  /\ safe (H := sample_lib) row_nan_quantity (line_column "Qty" 1) = "nan"
  /\ float_of_str "nan" = Ok S754_nan
  /\ (exists replacements,
        build_replacements (H := sample_lib) row_nan_quantity = Ok replacements
        /\ dict_get replacements (line_token "Qty" 1) = Some "nan"
        /\ dict_get replacements (line_token "Subtotal" 1) = Some "nan"
        /\ dict_get replacements "{{Total}}" = Some "nan")
  /\ line_subtotal (H := sample_lib) row_nan_quantity 1 = S754_nan
  /\ float_of_str "inf" = Ok (S754_infinity false)
  /\ build_replacements (H := sample_lib) row_inf_quantity = Raise OverflowError.
Proof.
  repeat split; try (vm_compute; reflexivity).
  eexists. repeat split; vm_compute; reflexivity.
Qed.

(** Formatting 1234567.5, the text [abc] and a missing value. *)
Lemma C5_fmt_idr_witness :
  py_float (VStr "1234567.5")
    = Ok (S754_finite false 5302427037204480 (-32))
  /\ float_is_finite (S754_finite false 5302427037204480 (-32)) = true
  /\ (exists n, py_round (S754_finite false 5302427037204480 (-32)) = Ok n
                /\ fmt_idr (H := sample_lib) (VStr "1234567.5")
                   = Ok (format_grouped "." n)
                /\ str_replace "." "" (format_grouped "." n) = str_of_Z n).
Proof.
  assert (py_float (VStr "1234567.5")
          = Ok (S754_finite false 5302427037204480 (-32))) as Hx
    by (vm_compute; reflexivity).
  split; [exact Hx|]. split; [reflexivity|].
  exact (proj1 (C5_fmt_idr (H := sample_lib) (VStr "1234567.5")) _ Hx eq_refl).
Defined.

Example fmt_idr_values :
  fmt_idr (H := sample_lib) (VStr "1234567.5") = Ok "1.234.568"
  /\ fmt_idr (H := sample_lib) (VInt 1500000) = Ok "1.500.000"
  /\ fmt_idr (H := sample_lib) (VStr "-2500.5") = Ok "-2.500"
  /\ fmt_idr (H := sample_lib) (VStr "abc") = Ok "abc"
  /\ fmt_idr (H := sample_lib) (VStr "") = Ok ""
  /\ fmt_idr (H := sample_lib) VNone = Ok "None"
  /\ fmt_idr (H := sample_lib) (VFloat S754_nan) = Ok "nan".
Proof. repeat split; vm_compute; reflexivity. Qed.

(** C5 as stated fails twice.  Text that is not a number is returned as
    it is, with the blanks around it.  And [fmt_idr] raises on a value
    that converts to an infinity, and on an [int] too large for a
    float. *)
Lemma C5_counterexample :
  fmt_idr (H := sample_lib) (VStr " abc ") = Ok " abc "
  /\ str_strip " abc " = "abc"
  /\ fmt_idr (H := sample_lib) (VFloat (S754_infinity false)) = Raise OverflowError
  /\ fmt_idr (H := sample_lib) (VStr "inf") = Raise OverflowError
  /\ fmt_idr (H := sample_lib) (VStr "1e400") = Raise OverflowError
  /\ fmt_idr (H := sample_lib) (VInt (10 ^ 400)) = Raise OverflowError.
Proof. repeat split; vm_compute; reflexivity. Qed.

(** A product that overflows (1e308 times 100), and [to_terbilang] on
    that infinity and on other totals: words when the library has them,
    the formatted amount when it raises, [nan] on NaN. *)
Example terbilang_overflow :
  float_mul (S754_finite false 5010420900022432 971) (S754_finite false 7036874417766400 (-46))
    = S754_infinity false
  /\ to_terbilang (H := sample_lib) (S754_infinity false) = Raise OverflowError
  /\ to_terbilang (H := sample_lib) (S754_zero false) = Ok "Nol rupiah"
  /\ to_terbilang (H := sample_lib) (S754_finite false 5629499534213120 (-49))
     = Ok "Sepuluh rupiah"
  /\ to_terbilang (H := sample_lib) (S754_finite false 8589934592000000 (-34))
     = Ok "500.000"
  /\ to_terbilang (H := sample_lib) S754_nan = Ok "nan".
Proof. repeat split; vm_compute; reflexivity. Qed.

(** The round trip on 1234567.5 and on a float of 70 bits. *)
Lemma C7_format_round_trip_witness :
  py_float (VStr "1234567.5")
    = Ok (S754_finite false 5302427037204480 (-32))
  /\ float_is_finite (S754_finite false 5302427037204480 (-32)) = true
  /\ (exists s, fmt_idr (H := sample_lib) (VStr "1234567.5") = Ok s
                /\ fmt_idr (H := sample_lib) (VStr (str_replace "." "" s)) = Ok s).
Proof.
  assert (py_float (VStr "1234567.5")
          = Ok (S754_finite false 5302427037204480 (-32))) as Hx
    by (vm_compute; reflexivity).
  split; [exact Hx|]. split; [reflexivity|].
  exact (C7_format_round_trip (H := sample_lib) (VStr "1234567.5") _ Hx eq_refl I).
Defined.

Example round_trip_values :
  fmt_idr (H := sample_lib) (VStr "1234567.5") = Ok "1.234.568"
  /\ str_replace "." "" "1.234.568" = "1234568"
  /\ fmt_idr (H := sample_lib) (VStr "1234568") = Ok "1.234.568"
  /\ fmt_idr (H := sample_lib) (VStr "1e21") = Ok "1.000.000.000.000.000.000.000"
  /\ fmt_idr (H := sample_lib) (VStr "1e23") = Ok "99.999.999.999.999.991.611.392"
  /\ fmt_idr (H := sample_lib) (VStr "99999999999999991611392")
     = Ok "99.999.999.999.999.991.611.392".
Proof. repeat split; vm_compute; reflexivity. Qed.




(** The batch of five rows: every row of the table is selected. *)
Lemma C8_one_outcome_per_row_witness :
  (forall idx, idx ∈ [0; 1; 2; 3; 4] -> 0 <= idx < Z.of_nat (length table_of_five))
  /\ exists outs w',
       generate_and_send (H := sample_lib) (H0 := sample_outside)
         table_of_five [0; 1; 2; 3; 4] 0%nat = (w', Ok outs)
       /\ length outs = length [0; 1; 2; 3; 4]
       /\ batch_outcomes (H := sample_lib) (H0 := sample_outside)
            table_of_five [0; 1; 2; 3; 4] 0%nat outs w'.
Proof.
  assert (forall idx, idx ∈ [0; 1; 2; 3; 4] ->
                      0 <= idx < Z.of_nat (length table_of_five)) as Hsel.
  { intros idx Hidx. cbn [table_of_five length].
    repeat (apply elem_of_cons in Hidx as [->|Hidx]; [lia|]).
    by apply elem_of_nil in Hidx. }
  split; [exact Hsel|].
  exact (C8_one_outcome_per_row (H := sample_lib) (H0 := sample_outside)
           table_of_five [0; 1; 2; 3; 4] 0%nat Hsel).
Defined.

(** The outcomes of that batch: the row with no address and the row
    whose message bounces each get an error, the others are sent. *)
Example batch_of_five :
  generate_and_send (H := sample_lib) (H0 := sample_outside)
    table_of_five [0; 1; 2; 3; 4] 0%nat =
    (12%nat,
     Ok [("success", "satu@example.com");
         ("success", "dua@example.com");
         ("error", "Row 2 (PT_Tiga): no email address");
         ("success", "empat@example.com");
         ("error", "bounce@example.com: connection refused")]).
Proof. vm_compute. reflexivity. Qed.


(** ** Examples of the further properties *)

Lemma fmt_idr_small_int_witness :
  Z.abs 1500000 < 2 ^ 53
  /\ fmt_idr (H := sample_lib) (VInt 1500000) = Ok (format_grouped "." 1500000)
  /\ fmt_idr (H := sample_lib) (VStr (str_of_Z 1500000))
     = Ok (format_grouped "." 1500000).
Proof.
  split; [reflexivity|].
  apply (fmt_idr_small_int (H := sample_lib) 1500000). reflexivity.
Defined.

(** The row with the quantity [inf]. *)
Lemma build_replacements_raises_only_overflow_witness :
  exists e, build_replacements (H := sample_lib) row_inf_quantity = Raise e
            /\ e = OverflowError.
Proof.
  exists OverflowError. split; [vm_compute; reflexivity|].
  apply (build_replacements_raises_only_overflow (H := sample_lib) row_inf_quantity).
  vm_compute; reflexivity.
Defined.

Lemma header_placeholders_witness :
  exists replacements,
    build_replacements (H := sample_lib) row_blank_service = Ok replacements
    /\ dict_get replacements (token "Client")
       = Some (safe (H := sample_lib) row_blank_service "Client").
Proof.
  eexists. split; [vm_compute; reflexivity|].
  apply (header_placeholders (H := sample_lib) row_blank_service).
  - vm_compute; reflexivity.
  - apply elem_of_cons. by left.
Defined.

Lemma total_placeholders_witness :
  exists replacements,
    build_replacements (H := sample_lib) row_blank_service = Ok replacements
    /\ exists total_text words,
         fmt_idr (H := sample_lib)
           (VFloat (sum_of_present (H := sample_lib) row_blank_service))
         = Ok total_text
         /\ to_terbilang (H := sample_lib)
              (sum_of_present (H := sample_lib) row_blank_service) = Ok words
         /\ dict_get replacements "{{Total}}" = Some total_text
         /\ dict_get replacements "{{Terbilang}}" = Some words.
Proof.
  eexists. split; [vm_compute; reflexivity|].
  apply (total_placeholders (H := sample_lib) row_blank_service).
  vm_compute; reflexivity.
Defined.

Lemma replacements_tokens_witness :
  exists replacements,
    build_replacements (H := sample_lib) row_discount = Ok replacements
    /\ dict_keys replacements = placeholder_tokens
    /\ length replacements = 35%nat.
Proof.
  eexists. split; [vm_compute; reflexivity|].
  apply (replacements_tokens (H := sample_lib) row_discount).
  vm_compute; reflexivity.
Defined.

(** A row with a client and no line at all. *)
Lemma blank_invoice_witness :
  exists replacements words,
    build_replacements (H := sample_lib) (row_of [("Client", VStr "PT Satu")])
    = Ok replacements
    /\ dict_get replacements "{{Total}}" = Some "0"
    /\ to_terbilang (H := sample_lib) float_zero = Ok words
    /\ dict_get replacements "{{Terbilang}}" = Some words
    /\ forall i name, 1 <= i <= 6 -> name ∈ line_names ->
         dict_get replacements (line_token name i) = Some "".
Proof.
  apply (blank_invoice (H := sample_lib) (row_of [("Client", VStr "PT Satu")])).
  intros i Hi.
  destruct (line_index_cases i Hi) as [->|[->|[->|[->|[->| ->]]]]];
    vm_compute; reflexivity.
Defined.

(** Line 1 of [row_blank_service]: 3 units at 500000. *)
Lemma integer_line_rendering_witness :
  integer_line (H := sample_lib) row_blank_service 1 3 500000
  /\ line_subtotal (H := sample_lib) row_blank_service 1 = float_of_Z (3 * 500000)
  /\ qty_text (safe (H := sample_lib) row_blank_service (line_column "Qty" 1))
     = Ok (str_of_Z 3)
  /\ fmt_idr (H := sample_lib)
       (VStr (safe (H := sample_lib) row_blank_service (line_column "Price" 1)))
     = Ok (format_grouped "." 500000)
  /\ fmt_idr (H := sample_lib)
       (VFloat (line_subtotal (H := sample_lib) row_blank_service 1))
     = Ok (format_grouped "." (3 * 500000))
  /\ (forall replacements,
        build_replacements (H := sample_lib) row_blank_service = Ok replacements ->
        dict_get replacements (line_token "Qty" 1) = Some (str_of_Z 3)
        /\ dict_get replacements (line_token "Price" 1)
           = Some (format_grouped "." 500000)
        /\ dict_get replacements (line_token "Subtotal" 1)
           = Some (format_grouped "." (3 * 500000))).
Proof.
  assert (integer_line (H := sample_lib) row_blank_service 1 3 500000) as Hline.
  { repeat split; try (vm_compute; reflexivity); vm_compute; discriminate. }
  split; [exact Hline|].
  apply (integer_line_rendering (H := sample_lib) row_blank_service 1 3 500000).
  - lia.
  - exact Hline.
  - reflexivity.
Defined.

(** The test row: lines of 2 x 500000, 4 x 1000000 and 6 x 1500000, and
    three empty lines. *)
Lemma integer_invoice_witness :
  sum_of_present (H := sample_lib) _test = float_of_Z 14000000
  /\ exists replacements,
       build_replacements (H := sample_lib) _test = Ok replacements
       /\ dict_get replacements "{{Total}}" = Some "14.000.000"
       /\ forall i, 1 <= i <= 6 -> present (H := sample_lib) _test i = true ->
            dict_get replacements (line_token "Subtotal" i)
            = Some (format_grouped "." (test_amount i)).
Proof.
  apply (integer_invoice (H := sample_lib) _test test_amount).
  - intros i Hi.
    destruct (line_index_cases i Hi) as [->|[->|[->|[->|[->| ->]]]]].
    + right. exists 2, 500000.
      repeat split; try (vm_compute; reflexivity); vm_compute; discriminate.
    + right. exists 4, 1000000.
      repeat split; try (vm_compute; reflexivity); vm_compute; discriminate.
    + right. exists 6, 1500000.
      repeat split; try (vm_compute; reflexivity); vm_compute; discriminate.
    + left. split; vm_compute; reflexivity.
    + left. split; vm_compute; reflexivity.
    + left. split; vm_compute; reflexivity.
  - reflexivity.
Defined.

Example test_invoice :
  exists replacements,
    build_replacements (H := sample_lib) _test = Ok replacements
    /\ dict_get replacements "{{Qty 3}}" = Some "6"
    /\ dict_get replacements "{{Price 3}}" = Some "1.500.000"
    /\ dict_get replacements "{{Subtotal 3}}" = Some "9.000.000"
    /\ dict_get replacements "{{Service 4}}" = Some ""
    /\ dict_get replacements "{{Total}}" = Some "14.000.000".
Proof.
  eexists. split; [vm_compute; reflexivity|].
  repeat (split; [vm_compute; reflexivity|]). vm_compute; reflexivity.
Qed.

(** Two paragraphs of terms, and a map that holds the total only. *)
Lemma paragraph_without_tokens_witness :
  fill_paragraphs [("{{Total}}", "0")] [0%nat; 1%nat; 0%nat]
    [Paragraph [Run "Terms: "; Run "30 days"]; Paragraph [Hyperlink "example.com"]]
  = Ok [Paragraph [Run "Terms: "; Run "30 days"]; Paragraph [Hyperlink "example.com"]].
Proof.
  apply paragraph_without_tokens.
  intros i p Hi Hp.
  repeat (apply elem_of_cons in Hi as [->|Hi];
          [injection Hp as <-; repeat constructor; vm_compute; reflexivity|]).
  by apply elem_of_nil in Hi.
Defined.

(** The sample template filled for [row_blank_service]. *)
Lemma fill_document_shape_witness :
  exists replacements doc',
    build_replacements (H := sample_lib) row_blank_service = Ok replacements
    /\ fill_document sample_template replacements = Ok doc'
    /\ document_shape doc' = document_shape sample_template.
Proof.
  assert (exists replacements,
            build_replacements (H := sample_lib) row_blank_service = Ok replacements)
    as [replacements Hb] by (eexists; vm_compute; reflexivity).
  destruct (fill_document sample_template replacements) as [doc'|e] eqn:Hfill.
  - exists replacements, doc'. split; [exact Hb|]. split; [exact Hfill|].
    exact (fill_document_shape sample_template doc' replacements Hfill).
  - vm_compute in Hb. injection Hb as <-. vm_compute in Hfill. discriminate Hfill.
Defined.

Example sample_template_filled :
  forall replacements,
    build_replacements (H := sample_lib) row_blank_service = Ok replacements ->
    (doc' ← fill_document sample_template replacements; Ok (store doc'))
    = Ok [Paragraph [Run "Invoice for PT Test Company"; Run ""];
          Paragraph [Run "Layanan contoh 1"];
          Paragraph [Run "1.500.000"];
          Paragraph [Run "Total: 1.500.000"; Run ""]].
Proof. intros replacements Hbuild. vm_compute in Hbuild. by injection Hbuild as <-. Qed.

(** A cell merged over two columns gets the pass twice: a value that
    holds its own token is put in twice. *)
Example merged_cell_filled_twice :
  (doc' ← fill_document merged_template [("{{Client}}", "A{{Client}}")];
   Ok (store doc'))
  = Ok [Paragraph [Run "AA{{Client}}"]].
Proof. reflexivity. Qed.

(** A token in a hyperlink is matched but stays where it is, so that a
    second pass matches it again. *)
Example hyperlink_kept :
  _replace_in_paragraph linked_paragraph [("{{Client}}", "ACME")]
  = Ok (Paragraph [Run "Hello ACME!"; Hyperlink "{{Client}}"; Run ""])
  /\ text (Paragraph [Run "Hello ACME!"; Hyperlink "{{Client}}"; Run ""])
     = "Hello ACME!{{Client}}"
  /\ _replace_in_paragraph
       (Paragraph [Run "Hello ACME!"; Hyperlink "{{Client}}"; Run ""])
       [("{{Client}}", "ACME")]
     = Ok (Paragraph [Run "Hello ACME!ACME"; Hyperlink "{{Client}}"; Run ""]).
Proof. repeat split. Qed.

(** A client name with a control character: the PDF is not made, and
    nothing is converted. *)
Example control_character :
  generate_pdf (H := sample_lib) (H0 := sample_outside)
    (row_of [("Client", VStr (String "A" (String "001" "B")))]) 0%nat
  = (1%nat, Raise ValueError).
Proof. vm_compute. reflexivity. Qed.

(** Rows 0, 1 and 2 of [table_with_overflow]: the PDF of row 0 is made,
    row 1 raises, row 2 is not attempted. *)
Lemma generate_stops_at_first_failure_witness :
  generate_all (H := sample_lib) (H0 := sample_outside)
    table_with_overflow ([0] ++ 1 :: [2]) 0%nat
  = (3%nat, Raise OverflowError).
Proof.
  eapply (generate_stops_at_first_failure (H := sample_lib) (H0 := sample_outside)
            table_with_overflow [0] [2] 1 row_inf_quantity _ 0%nat 2%nat 3%nat).
  - vm_compute; reflexivity.
  - reflexivity.
  - vm_compute; reflexivity.
Defined.

(** Rows 0 and 1 of [table_of_five]. *)
Lemma generate_all_entries_witness :
  exists w' gen,
    generate_all (H := sample_lib) (H0 := sample_outside)
      table_of_five [0; 1] 0%nat = (w', Ok gen)
    /\ dom gen = (list_to_set [0; 1] : gset Z)
    /\ (forall idx, idx ∈ [0; 1] ->
          exists r pdf, df_iloc table_of_five idx = Ok r
                        /\ gen !! idx = Some (invoice_name (H := sample_lib) r idx, pdf))
    /\ (NoDup [0; 1] -> size gen = length [0; 1]).
Proof.
  eexists _, _. split; [vm_compute; reflexivity|].
  apply (generate_all_entries (H := sample_lib) (H0 := sample_outside)
           table_of_five [0; 1] _ 0%nat 4%nat).
  vm_compute; reflexivity.
Defined.

Example generated_names :
  exists gen,
    generate_all (H := sample_lib) (H0 := sample_outside)
      table_of_five [0; 1] 0%nat = (4%nat, Ok gen)
    /\ gen !! 0 = Some ("PT_Satu", [])
    /\ gen !! 1 = Some ("PT_Dua", [])
    /\ gen !! 2 = None.
Proof.
  eexists. split; [vm_compute; reflexivity|].
  repeat (split; [vm_compute; reflexivity|]). vm_compute; reflexivity.
Qed.

Lemma generate_all_succeeds_witness :
  exists w' gen,
    generate_all (H := sample_lib) (H0 := sample_outside)
      table_of_services [0; 1] 0%nat = (w', Ok gen).
Proof.
  apply (generate_all_succeeds (H := sample_lib) (H0 := sample_outside)).
  - intros path w0. eexists _, _. split; [reflexivity|]. split; [reflexivity|].
    repeat (constructor; [reflexivity|]). constructor.
  - intros doc w0. by eexists _, _.
  - intros idx Hidx. cbn [table_of_services length].
    repeat (apply elem_of_cons in Hidx as [->|Hidx]; [lia|]).
    by apply elem_of_nil in Hidx.
  - intros idx r Hidx Hr.
    apply elem_of_cons in Hidx as [->|Hidx].
    { change (df_iloc table_of_services 0) with (Ok row_blank_service) in Hr.
      injection Hr as <-. split; [|split].
      - intros i Hi.
        destruct (line_index_cases i Hi) as [->|[->|[->|[->|[->| ->]]]]];
          vm_compute; reflexivity.
      - intros s Hs. vm_compute in Hs. discriminate Hs.
      - intros replacements Hb. vm_compute in Hb. injection Hb as <-.
        apply List.Forall_forall.
        apply (proj1 (forallb_forall (fun kv => xml_compatible kv.2) _)).
        vm_compute; reflexivity. }
    apply elem_of_cons in Hidx as [->|Hidx].
    { change (df_iloc table_of_services 1) with (Ok _test) in Hr.
      injection Hr as <-. split; [|split].
      - intros i Hi.
        destruct (line_index_cases i Hi) as [->|[->|[->|[->|[->| ->]]]]];
          vm_compute; reflexivity.
      - intros s Hs. vm_compute in Hs. discriminate Hs.
      - intros replacements Hb. vm_compute in Hb. injection Hb as <-.
        apply List.Forall_forall.
        apply (proj1 (forallb_forall (fun kv => xml_compatible kv.2) _)).
        vm_compute; reflexivity. }
    by apply elem_of_nil in Hidx.
Defined.

Lemma generate_pdf_unrendered_witness :
  generate_pdf (H := sample_lib) (H0 := sample_outside) row_inf_quantity 0%nat
  = (1%nat, Raise OverflowError).
Proof.
  apply (generate_pdf_unrendered (H := sample_lib) (H0 := sample_outside)
           row_inf_quantity 0%nat 1%nat sample_template).
  - reflexivity.
  - left. exists 1. split; [lia|vm_compute; reflexivity].
Defined.

(** The first paragraph of [sample_template], whose placeholder is
    split over two runs, filled for [row_blank_service]. *)
Lemma paragraph_filled_witness :
  exists replacements p',
    build_replacements (H := sample_lib) row_blank_service = Ok replacements
    /\ _replace_in_paragraph (Paragraph [Run "Invoice for {{Cli"; Run "ent}}"])
         replacements = Ok p'
    /\ text p' = render (map (fill_piece replacements)
                           [Lit "Invoice for "; Tok "Client"]).
Proof.
  assert (exists replacements,
            build_replacements (H := sample_lib) row_blank_service = Ok replacements)
    as [replacements Hb] by (eexists; vm_compute; reflexivity).
  destruct (paragraph_filled (H := sample_lib) row_blank_service replacements
              (Paragraph [Run "Invoice for {{Cli"; Run "ent}}"])
              [Lit "Invoice for "; Tok "Client"] Hb) as (p' & Hp & Ht).
  - reflexivity.
  - done.
  - reflexivity.
  - reflexivity.
  - intros name v Hname Hv. vm_compute in Hb. injection Hb as <-.
    apply elem_of_cons in Hname as [Hname|Hname]; [done|].
    apply elem_of_cons in Hname as [Hname|Hname]; [|by apply elem_of_nil in Hname].
    injection Hname as ->. vm_compute in Hv. by injection Hv as <-.
  - vm_compute in Hb. injection Hb as <-. vm_compute; reflexivity.
  - exists replacements, p'. split; [exact Hb|]. split; [exact Hp|exact Ht].
Defined.

Example paragraph_filled_text :
  forall replacements,
    build_replacements (H := sample_lib) row_blank_service = Ok replacements ->
    _replace_in_paragraph (Paragraph [Run "Invoice for {{Cli"; Run "ent}}"]) replacements
    = Ok (Paragraph [Run "Invoice for PT Test Company"; Run ""]).
Proof. intros replacements Hbuild. vm_compute in Hbuild. by injection Hbuild as <-. Qed.

Lemma filling_twice_witness :
  exists replacements p',
    build_replacements (H := sample_lib) row_blank_service = Ok replacements
    /\ _replace_in_paragraph (Paragraph [Run "Invoice for {{Cli"; Run "ent}}"])
         replacements = Ok p'
    /\ _replace_in_paragraph p' replacements = Ok p'.
Proof.
  assert (exists replacements,
            build_replacements (H := sample_lib) row_blank_service = Ok replacements)
    as [replacements Hb] by (eexists; vm_compute; reflexivity).
  destruct (filling_twice (H := sample_lib) row_blank_service replacements
              (Paragraph [Run "Invoice for {{Cli"; Run "ent}}"])
              [Lit "Invoice for "; Tok "Client"] Hb) as (p' & Hp & Ht).
  - reflexivity.
  - reflexivity.
  - reflexivity.
  - intros name v Hname Hv. vm_compute in Hb. injection Hb as <-.
    apply elem_of_cons in Hname as [Hname|Hname]; [done|].
    apply elem_of_cons in Hname as [Hname|Hname]; [|by apply elem_of_nil in Hname].
    injection Hname as ->. vm_compute in Hv. by injection Hv as <-.
  - vm_compute in Hb. injection Hb as <-. vm_compute; reflexivity.
  - exists replacements, p'. split; [exact Hb|]. split; [exact Hp|exact Ht].
Defined.
